(** * HomeoPMS: the visit-to-billing pipeline of the pharmacy and billing pages

    A shallow embedding of the coordination logic found in
    [src/app/pharmacy/page.tsx] (pharmacy queue page) and in the billing page
    (the later revision with the date filter and the medicine bill), together
    with the properties of the pipeline that the specification states.

    Conventions of the embedding.
    - A JavaScript [number] holding money or a percentage is an exact rational
      ([Q]); [Date] values are their [getTime()] in milliseconds ([Z]).
    - An optional field ([x?: T]) is an [option T]; JavaScript truthiness of a
      string or number is written out ([""] and [0] are falsy).
    - The record store ([billingQueueDb], [pharmacyQueueDb], ...) is a record
      of lists: [getAll()] is the list, in insertion order. *)

From Stdlib Require Import ZArith QArith List Bool Lia Permutation Sorted.
From stdpp Require Import base option list gmap strings.
Import ListNotations.

Open Scope string_scope.
Open Scope list_scope.
Open Scope Z_scope.

(** ** JavaScript idioms *)

Module JS.

(** [a || d] on an optional string: [undefined] and [""] are falsy. *)
Definition str_or (a : option string) (d : string) : string :=
  match a with
  | Some s => if String.eqb s "" then d else s
  | None => d
  end.

(** [if (a)] on an optional string. *)
Definition truthy (a : option string) : bool :=
  match a with
  | Some s => negb (String.eqb s "")
  | None => false
  end.

(** The value kept by [if (a) { ... a ... }] on an optional string. *)
Definition present (a : option string) : option string :=
  match a with
  | Some s => if String.eqb s "" then None else Some s
  | None => None
  end.

(** [a || d] on a number: [0] is falsy. *)
Definition num_or (a d : Q) : Q := if Qeq_bool a 0%Q then d else a.

(** [a || d] on an optional number. *)
Definition optnum_or (a : option Q) (d : Q) : Q :=
  match a with
  | Some q => num_or q d
  | None => d
  end.

(** [Array.prototype.find]. *)
Definition find {A} (f : A -> bool) (l : list A) : option A := List.find f l.

Section Sort.
Context {A : Type}.
(** The comparator: negative when the first argument sorts first. *)
Variable cmp : A -> A -> Z.

Fixpoint insert (x : A) (l : list A) : list A :=
  match l with
  | [] => [x]
  | y :: l' => if cmp x y <=? 0 then x :: y :: l' else y :: insert x l'
  end.

(** [Array.prototype.sort(cmp)]: a stable sort (ECMAScript 2019), here by
    insertion from the right, so that equal elements keep their order. *)
Definition sort (l : list A) : list A := fold_right insert [] l.
End Sort.

End JS.

(** ** Medicine billing calculator (billing page, [getBill*]) *)

Record BillItem := mkBillItem {
  bi_prescriptionId : string;
  bi_medicine : string;
  bi_potency : option string;
  bi_quantity : Q;
  bi_amount : Q
}.

Section Calculator.
Local Open Scope Q_scope.
Variable billItems : list BillItem.
Variables billDiscount billTax : Q.

Definition getBillSubtotal : Q :=
  fold_left (fun sum item => sum + JS.num_or (bi_amount item) 0) billItems 0.

Definition getBillDiscountAmount : Q :=
  (getBillSubtotal * billDiscount) / 100.

Definition getBillTaxAmount : Q :=
  ((getBillSubtotal - getBillDiscountAmount) * billTax) / 100.

Definition getBillTotal : Q :=
  getBillSubtotal - getBillDiscountAmount + getBillTaxAmount.
End Calculator.

(** ** Data model ([src/lib/db/schema.ts]) *)

Inductive BillingStatus := BPending | BPaid | BCompleted.

Inductive PaymentMethod := Cash | Card | Upi | Cheque | Insurance | Exempt.

(** The appointment is owned by another module; these are the fields the two
    pages read through their casts. *)
Record Appointment := mkAppointment {
  apt_id : string;
  apt_patientId : string;
  apt_appointmentDate : Z;
  apt_status : string;
  apt_feeAmount : option Q;
  apt_feeType : option string;
  apt_feeStatus : option string
}.

Record DoctorVisit := mkDoctorVisit {
  dv_id : string;
  dv_patientId : string;
  dv_visitNumber : Z
}.

Record DoctorPrescription := mkDoctorPrescription {
  rx_id : string;
  rx_visitId : string;
  rx_medicine : string;
  rx_rowOrder : Z
}.

Record PharmacyQueueItem := mkPharmacyQueueItem {
  pq_id : string;
  pq_visitId : string;
  pq_patientId : string;
  pq_appointmentId : option string;
  pq_prescriptionIds : list string;
  pq_priority : bool;
  pq_status : string;
  pq_stopReason : option string;
  pq_preparedBy : option string;
  pq_createdAt : Z
}.

Record BillingQueueItem := mkBillingQueueItem {
  bq_id : string;
  bq_visitId : string;
  bq_patientId : string;
  bq_appointmentId : option string;
  bq_prescriptionIds : list string;
  bq_status : BillingStatus;
  bq_feeAmount : Q;
  bq_feeType : string;
  bq_discountPercent : option Q;
  bq_discountAmount : option Q;
  bq_netAmount : Q;
  bq_paymentMethod : option PaymentMethod;
  bq_paymentStatus : string;
  bq_receiptNumber : option string;
  bq_createdAt : Z
}.

(** [InsertBillingQueue]: what the two admission paths hand to
    [billingQueueDb.create]; every other optional field is left undefined. *)
Record InsertBillingQueue := mkInsertBillingQueue {
  ins_visitId : string;
  ins_patientId : string;
  ins_appointmentId : option string;
  ins_prescriptionIds : list string;
  ins_status : BillingStatus;
  ins_feeAmount : Q;
  ins_feeType : string;
  ins_netAmount : Q;
  ins_paymentStatus : string
}.

Record BillingReceiptItem := mkBillingReceiptItem {
  bri_description : string;
  bri_quantity : Q;
  bri_unitPrice : Q;
  bri_total : Q
}.

Record BillingReceipt := mkBillingReceipt {
  br_receiptNumber : string;
  br_billingQueueId : string;
  br_patientId : string;
  br_visitId : string;
  br_items : list BillingReceiptItem;
  br_subtotal : Q;
  br_discountPercent : option Q;
  br_discountAmount : option Q;
  br_netAmount : Q;
  br_paymentMethod : PaymentMethod;
  br_paymentStatus : string
}.

(** The record [handleComplete] hands to [feeHistoryDb.create]. *)
Record FeeHistory := mkFeeHistory {
  fh_patientId : string;
  fh_visitId : string;
  fh_receiptId : string;
  fh_feeType : string;
  fh_amount : Q;
  fh_paymentMethod : PaymentMethod;
  fh_paymentStatus : string;
  fh_paidDate : Z
}.

(** ** The record store *)

Record Store := mkStore {
  appointments : list Appointment;
  visits : list DoctorVisit;
  prescriptions : list DoctorPrescription;
  pharmacyQueue : list PharmacyQueueItem;
  billingQueue : list BillingQueueItem;
  billingReceipts : list BillingReceipt;
  feeHistory : list FeeHistory;
  nextId : nat;
  nextReceipt : nat
}.

Definition with_appointments (f : list Appointment -> list Appointment) (s : Store) : Store :=
  mkStore (f (appointments s)) (visits s) (prescriptions s) (pharmacyQueue s)
          (billingQueue s) (billingReceipts s) (feeHistory s) (nextId s) (nextReceipt s).

Definition with_pharmacyQueue (f : list PharmacyQueueItem -> list PharmacyQueueItem) (s : Store) : Store :=
  mkStore (appointments s) (visits s) (prescriptions s) (f (pharmacyQueue s))
          (billingQueue s) (billingReceipts s) (feeHistory s) (nextId s) (nextReceipt s).

Definition with_billingQueue (f : list BillingQueueItem -> list BillingQueueItem) (s : Store) : Store :=
  mkStore (appointments s) (visits s) (prescriptions s) (pharmacyQueue s)
          (f (billingQueue s)) (billingReceipts s) (feeHistory s) (nextId s) (nextReceipt s).

Definition with_billingReceipts (f : list BillingReceipt -> list BillingReceipt) (s : Store) : Store :=
  mkStore (appointments s) (visits s) (prescriptions s) (pharmacyQueue s)
          (billingQueue s) (f (billingReceipts s)) (feeHistory s) (nextId s) (nextReceipt s).

Definition with_feeHistory (f : list FeeHistory -> list FeeHistory) (s : Store) : Store :=
  mkStore (appointments s) (visits s) (prescriptions s) (pharmacyQueue s)
          (billingQueue s) (billingReceipts s) (f (feeHistory s)) (nextId s) (nextReceipt s).

(** What the host supplies: the offset of local time from UTC in
    milliseconds, the id generator of the store and the format of receipt
    numbers. *)
Record Env := mkEnv {
  tzOffset : Z;
  generateId : nat -> string;
  formatReceiptNumber : nat -> string
}.

(** ** Collaborators that are not part of the two pages

    The database modules ([@/lib/db/database], [@/lib/db/doctor-panel]) are
    called by the pages but their code is not among the sources at hand. *)

Module Db.
Section Collection.
Context {A : Type}.
Variable key : A -> string.

(** Modelled from the spec: the store's lookup by id ("record or absent");
    the first record carrying the id. *)
Definition getById (id : string) (l : list A) : option A :=
  List.find (fun x => String.eqb (key x) id) l.

(** Modelled from the spec: the store's update(id, partialFields); the
    first record carrying the id is patched in place, and a missing id is
    a silent no-op. *)
Fixpoint update (id : string) (patch : A -> A) (l : list A) : list A :=
  match l with
  | [] => []
  | x :: l' => if String.eqb (key x) id then patch x :: l' else x :: update id patch l'
  end.
End Collection.
End Db.

Module appointmentDb.
(** Modelled from the spec: appointment lookup by id. *)
Definition getById (s : Store) (id : string) : option Appointment :=
  Db.getById apt_id id (appointments s).

(** Modelled from the spec: appointment lookup by patientId (returns all,
    the caller filters by date). *)
Definition getByPatient (s : Store) (patientId : string) : list Appointment :=
  List.filter (fun a => String.eqb (apt_patientId a) patientId) (appointments s).

Definition set_status (st : string) (a : Appointment) : Appointment :=
  mkAppointment (apt_id a) (apt_patientId a) (apt_appointmentDate a) st
                (apt_feeAmount a) (apt_feeType a) (apt_feeStatus a).

(** Modelled from the spec: appointment update(id, partialFields), here for
    the one patch the pages apply, [{ status }]. *)
Definition update_status (s : Store) (id : string) (st : string) : Store :=
  with_appointments (Db.update apt_id id (set_status st)) s.
End appointmentDb.

Module doctorVisitDb.
(** Modelled from the spec: visit lookup by id. *)
Definition getById (s : Store) (id : string) : option DoctorVisit :=
  Db.getById dv_id id (visits s).
End doctorVisitDb.

Module doctorPrescriptionDb.
(** Modelled from the spec: prescription lookup by visitId, an ordered
    sequence (by [rowOrder]). *)
Definition getByVisit (s : Store) (visitId : string) : list DoctorPrescription :=
  JS.sort (fun a b => rx_rowOrder a - rx_rowOrder b)
          (List.filter (fun p => String.eqb (rx_visitId p) visitId) (prescriptions s)).
End doctorPrescriptionDb.

Module pharmacyQueueDb.
Definition getAll (s : Store) : list PharmacyQueueItem := pharmacyQueue s.

(** Modelled from the spec: lookup by id of a pharmacy queue item. *)
Definition getById (s : Store) (id : string) : option PharmacyQueueItem :=
  Db.getById pq_id id (pharmacyQueue s).

Definition set_status (st : string) (p : PharmacyQueueItem) : PharmacyQueueItem :=
  mkPharmacyQueueItem (pq_id p) (pq_visitId p) (pq_patientId p) (pq_appointmentId p)
    (pq_prescriptionIds p) (pq_priority p) st (pq_stopReason p) (pq_preparedBy p)
    (pq_createdAt p).

(** Modelled from the spec: update(id, partialFields), here for the one
    patch the pages apply, [{ status }]. *)
Definition update_status (s : Store) (id : string) (st : string) : Store :=
  with_pharmacyQueue (Db.update pq_id id (set_status st)) s.

(** Modelled from the spec: markPrepared(id) "transitions → prepared;
    records preparedBy". *)
Definition markPrepared (s : Store) (id : string) (preparedBy : string) : Store :=
  with_pharmacyQueue
    (Db.update pq_id id (fun p =>
       mkPharmacyQueueItem (pq_id p) (pq_visitId p) (pq_patientId p) (pq_appointmentId p)
         (pq_prescriptionIds p) (pq_priority p) "prepared" (pq_stopReason p)
         (Some preparedBy) (pq_createdAt p))) s.

(** Modelled from the spec: stop(id, reason) "pending/preparing → stopped,
    recording reason". The spec names no other source state; the write is
    modelled as the store's update by id, for whatever item carries the id,
    and the statements about Stop are made for pending and preparing items. *)
Definition stop (s : Store) (id : string) (reason : string) : Store :=
  with_pharmacyQueue
    (Db.update pq_id id (fun p =>
       mkPharmacyQueueItem (pq_id p) (pq_visitId p) (pq_patientId p) (pq_appointmentId p)
         (pq_prescriptionIds p) (pq_priority p) "stopped" (Some reason)
         (pq_preparedBy p) (pq_createdAt p))) s.
End pharmacyQueueDb.

Module billingQueueDb.
Definition getAll (s : Store) : list BillingQueueItem := billingQueue s.

(** Modelled from the spec: lookup by id of a billing queue item. *)
Definition getById (s : Store) (id : string) : option BillingQueueItem :=
  Db.getById bq_id id (billingQueue s).

(** Modelled from the spec: the store's create, "returning the full record
    post-write": the record gets a generated id and its creation time and
    is appended to the collection. *)
Definition create (env : Env) (now : Z) (s : Store) (d : InsertBillingQueue) : Store :=
  let item :=
    mkBillingQueueItem (generateId env (nextId s)) (ins_visitId d) (ins_patientId d)
      (ins_appointmentId d) (ins_prescriptionIds d) (ins_status d) (ins_feeAmount d)
      (ins_feeType d) None None (ins_netAmount d) None (ins_paymentStatus d) None now in
  mkStore (appointments s) (visits s) (prescriptions s) (pharmacyQueue s)
          (billingQueue s ++ [item]) (billingReceipts s) (feeHistory s)
          (S (nextId s)) (nextReceipt s).

(** Modelled from the spec: update(id, partialFields). *)
Definition update (s : Store) (id : string) (patch : BillingQueueItem -> BillingQueueItem) : Store :=
  with_billingQueue (Db.update bq_id id patch) s.

Definition set_status (st : BillingStatus) (b : BillingQueueItem) : BillingQueueItem :=
  mkBillingQueueItem (bq_id b) (bq_visitId b) (bq_patientId b) (bq_appointmentId b)
    (bq_prescriptionIds b) st (bq_feeAmount b) (bq_feeType b) (bq_discountPercent b)
    (bq_discountAmount b) (bq_netAmount b) (bq_paymentMethod b) (bq_paymentStatus b)
    (bq_receiptNumber b) (bq_createdAt b).

Definition set_paid (method : PaymentMethod) (receiptNumber : string) (b : BillingQueueItem)
  : BillingQueueItem :=
  mkBillingQueueItem (bq_id b) (bq_visitId b) (bq_patientId b) (bq_appointmentId b)
    (bq_prescriptionIds b) BPaid (bq_feeAmount b) (bq_feeType b) (bq_discountPercent b)
    (bq_discountAmount b) (bq_netAmount b) (Some method) (bq_paymentStatus b)
    (Some receiptNumber) (bq_createdAt b).

(** Modelled from the spec: Generate receipt "(pending → paid)": "mark the
    billing item status = paid, storing paymentMethod and receiptNumber". The
    spec names no other source state; the write is modelled as the store's
    update by id, for whatever item carries the id, and the statements about
    Generate Receipt are made for pending items. *)
Definition markPaid (s : Store) (id : string) (method : PaymentMethod) (receiptNumber : string) : Store :=
  update s id (set_paid method receiptNumber).

(** Modelled from the spec: Complete (paid → completed) sets the status. *)
Definition markCompleted (s : Store) (id : string) : Store :=
  update s id (set_status BCompleted).

(** Modelled from the spec: the receipt-number allocator, "a unique,
    sequential, human-presentable identifier on demand". *)
Definition generateReceiptNumber (env : Env) (s : Store) : string * Store :=
  (formatReceiptNumber env (nextReceipt s),
   mkStore (appointments s) (visits s) (prescriptions s) (pharmacyQueue s)
           (billingQueue s) (billingReceipts s) (feeHistory s)
           (nextId s) (S (nextReceipt s))).
End billingQueueDb.

Module billingReceiptDb.
(** Modelled from the spec: create of a receipt, appended to the collection
    and returned. *)
Definition create (s : Store) (r : BillingReceipt) : BillingReceipt * Store :=
  (r, with_billingReceipts (fun l => l ++ [r]) s).
End billingReceiptDb.

Module feeHistoryDb.
(** Modelled from the spec: "fee history is append-only". *)
Definition create (s : Store) (r : FeeHistory) : Store :=
  with_feeHistory (fun l => l ++ [r]) s.
End feeHistoryDb.

(** ** Calendar days *)

Definition msPerDay : Z := 86400000.

(** [d.toDateString()]: two dates give the same string exactly when they fall
    on the same local calendar day, so the string is stood for by the number
    of that day. *)
Definition toDateString (env : Env) (t : Z) : Z := (t + tzOffset env) / msPerDay.

(** [d.setHours(0, 0, 0, 0)]: local midnight of the day of [t]. *)
Definition startOfDay (env : Env) (t : Z) : Z :=
  toDateString env t * msPerDay - tzOffset env.

(** [new Date(today).setHours(23, 59, 59, 999)]. *)
Definition endOfDay (env : Env) (t : Z) : Z := startOfDay env t + (msPerDay - 1).

(** [d.toISOString().split('T')[0]]: the UTC calendar day. *)
Definition isoDate (t : Z) : Z := t / msPerDay.

(** ** The billing page *)

Module Billing.

Record BillingQueueItemWithDetails := mkDetails {
  item : BillingQueueItem;
  visit : option DoctorVisit;
  rxs : list DoctorPrescription
}.

(** The state of the component that the modelled handlers use:
    [queueItems], [completedItems], [selectedDateRef.current] and
    [currentReceipt]. Popups, the loading flag and the patient record that
    [enrichItems] attaches for display are left out. *)
Record Page := mkPage {
  queueItems : list BillingQueueItemWithDetails;
  completedItems : list BillingQueueItemWithDetails;
  selectedDate : Z;
  currentReceipt : option BillingReceipt
}.

(** The state on mount: [selectedDateRef = useRef(new Date())]. *)
Definition initialPage (now : Z) : Page := mkPage [] [] now None.

(** [itemDate.toDateString() === selectedDateStr]. *)
Definition onSelectedDate (env : Env) (selected : Z) (it : BillingQueueItem) : bool :=
  toDateString env (bq_createdAt it) =? toDateString env selected.

(** [aptDate >= today && aptDate <= todayEnd]. *)
Definition isTodayAppointment (env : Env) (now : Z) (apt : Appointment) : bool :=
  (startOfDay env now <=? apt_appointmentDate apt)
  && (apt_appointmentDate apt <=? endOfDay env now).

Record Correct := mkCorrect {
  correctFee : Q;
  correctFeeType : string;
  correctPaymentStatus : string
}.

(** The body shared by both lookups of [loadQueue]: an appointment with a
    fee amount overrides the three values. *)
Definition feeFromAppointment (apt : Appointment) (c : Correct) : option Correct :=
  match apt_feeAmount apt with
  | Some fee =>
      Some (mkCorrect fee (JS.str_or (apt_feeType apt) (correctFeeType c))
                      (JS.str_or (apt_feeStatus apt) (correctPaymentStatus c)))
  | None => None
  end.

(** Fee resolution of [loadQueue] for one pending item; [None] in the first
    match is [foundAppointment = false]. *)
Definition resolveFee (env : Env) (now : Z) (s : Store) (it : BillingQueueItem) : Correct :=
  let c0 := mkCorrect (bq_feeAmount it) (bq_feeType it) (bq_paymentStatus it) in
  let linked :=
    match JS.present (bq_appointmentId it) with
    | Some aid =>
        match appointmentDb.getById s aid with
        | Some apt => feeFromAppointment apt c0
        | None => None
        end
    | None => None
    end in
  match linked with
  | Some c => c
  | None =>
      match JS.find (isTodayAppointment env now)
                    (appointmentDb.getByPatient s (bq_patientId it)) with
      | Some apt =>
          match feeFromAppointment apt c0 with
          | Some c => c
          | None => c0
          end
      | None => c0
      end
  end.

Definition differs (c : Correct) (it : BillingQueueItem) : bool :=
  negb (Qeq_bool (correctFee c) (bq_feeAmount it))
  || negb (String.eqb (correctFeeType c) (bq_feeType it))
  || negb (String.eqb (correctPaymentStatus c) (bq_paymentStatus it)).

(** The patch [{ feeAmount, feeType, paymentStatus, netAmount }]; the
    discount is read from the item the loop holds. *)
Definition feePatch (c : Correct) (it : BillingQueueItem) (b : BillingQueueItem) : BillingQueueItem :=
  mkBillingQueueItem (bq_id b) (bq_visitId b) (bq_patientId b) (bq_appointmentId b)
    (bq_prescriptionIds b) (bq_status b) (correctFee c) (correctFeeType c)
    (bq_discountPercent b) (bq_discountAmount b)
    (correctFee c - JS.optnum_or (bq_discountAmount it) 0)%Q
    (bq_paymentMethod b) (correctPaymentStatus c) (bq_receiptNumber b) (bq_createdAt b).

(** One turn of [filteredByDate.forEach]. *)
Definition resync (env : Env) (now : Z) (s : Store) (it : BillingQueueItem) : Store :=
  match bq_status it with
  | BPending =>
      let c := resolveFee env now s it in
      if differs c it then billingQueueDb.update s (bq_id it) (feePatch c it) else s
  | _ => s
  end.

Definition sortByDateAsc (items : list BillingQueueItem) : list BillingQueueItem :=
  JS.sort (fun a b => bq_createdAt a - bq_createdAt b) items.

Definition sortByDateDesc (items : list BillingQueueItem) : list BillingQueueItem :=
  JS.sort (fun a b => bq_createdAt b - bq_createdAt a) items.

(** The view of one item: its visit and its live prescriptions. *)
Definition details (s : Store) (it : BillingQueueItem) : BillingQueueItemWithDetails :=
  mkDetails it (doctorVisitDb.getById s (bq_visitId it))
            (doctorPrescriptionDb.getByVisit s (bq_visitId it)).

Definition enrichItems (s : Store) (items : list BillingQueueItem) : list BillingQueueItemWithDetails :=
  map (details s) items.

Definition isPendingOrPaid (it : BillingQueueItem) : bool :=
  match bq_status it with BPending | BPaid => true | BCompleted => false end.

Definition isCompleted (it : BillingQueueItem) : bool :=
  match bq_status it with BCompleted => true | _ => false end.

Definition loadQueue (env : Env) (now : Z) (sp : Store * Page) : Store * Page :=
  let (s, page) := sp in
  let allItems := billingQueueDb.getAll s in
  let filteredByDate := List.filter (onSelectedDate env (selectedDate page)) allItems in
  let s' := fold_left (resync env now) filteredByDate s in
  let updatedItems :=
    List.filter (onSelectedDate env (selectedDate page)) (billingQueueDb.getAll s') in
  let pending := List.filter isPendingOrPaid updatedItems in
  let completed := List.filter isCompleted updatedItems in
  (s', mkPage (enrichItems s' (sortByDateAsc pending))
              (enrichItems s' (sortByDateDesc completed))
              (selectedDate page) (currentReceipt page)).

(** The fee a newly admitted item gets in [checkPharmacyQueue]. *)
Definition admissionFee (env : Env) (now : Z) (s : Store) (pharmacyItem : PharmacyQueueItem)
  : Q * string :=
  let visit := doctorVisitDb.getById s (pq_visitId pharmacyItem) in
  let feeAmount := 300%Q in
  let feeType := "Consultation" in
  match JS.present (pq_appointmentId pharmacyItem) with
  | Some aid =>
      match appointmentDb.getById s aid with
      | Some apt =>
          (default feeAmount (apt_feeAmount apt), JS.str_or (apt_feeType apt) feeType)
      | None => (feeAmount, feeType)
      end
  | None =>
      match JS.find (isTodayAppointment env now)
                    (appointmentDb.getByPatient s (pq_patientId pharmacyItem)) with
      | Some apt =>
          (default feeAmount (apt_feeAmount apt), JS.str_or (apt_feeType apt) feeType)
      | None =>
          match visit with
          | Some v =>
              if dv_visitNumber v =? 1 then (500%Q, "New Patient")
              else (300%Q, "Follow Up")
          | None => (feeAmount, feeType)
          end
      end
  end.

(** [(b) => b.visitId === pharmacyItem.visitId]. *)
Definition sameVisit (visitId : string) (b : BillingQueueItem) : bool :=
  String.eqb (bq_visitId b) visitId.

(** One turn of [preparedPharmacyItems.forEach]. *)
Definition admitPrepared (env : Env) (now : Z) (s : Store) (pharmacyItem : PharmacyQueueItem) : Store :=
  match JS.find (sameVisit (pq_visitId pharmacyItem)) (billingQueueDb.getAll s) with
  | Some _ => s
  | None =>
      let '(feeAmount, feeType) := admissionFee env now s pharmacyItem in
      let s1 :=
        billingQueueDb.create env now s
          (mkInsertBillingQueue (pq_visitId pharmacyItem) (pq_patientId pharmacyItem)
             (pq_appointmentId pharmacyItem) (pq_prescriptionIds pharmacyItem)
             BPending feeAmount feeType feeAmount "pending") in
      pharmacyQueueDb.update_status s1 (pq_id pharmacyItem) "billed"
  end.

Definition isPrepared (p : PharmacyQueueItem) : bool := String.eqb (pq_status p) "prepared".

Definition checkPharmacyQueue (env : Env) (now : Z) (sp : Store * Page) : Store * Page :=
  let (s, page) := sp in
  let allPharmacyItems := pharmacyQueueDb.getAll s in
  let preparedPharmacyItems := List.filter isPrepared allPharmacyItems in
  loadQueue env now (fold_left (admitPrepared env now) preparedPharmacyItems s, page).

Definition handleGenerateReceipt (env : Env) (now : Z) (sp : Store * Page)
    (it : BillingQueueItemWithDetails) : Store * Page :=
  let (s, page) := sp in
  let i := item it in
  let '(receiptNumber, s1) := billingQueueDb.generateReceiptNumber env s in
  let receiptItems :=
    [mkBillingReceiptItem (bq_feeType i) 1%Q (bq_feeAmount i) (bq_feeAmount i)] in
  let receipt :=
    mkBillingReceipt receiptNumber (bq_id i) (bq_patientId i) (bq_visitId i) receiptItems
      (bq_feeAmount i) (bq_discountPercent i) (bq_discountAmount i) (bq_netAmount i)
      (default Cash (bq_paymentMethod i)) "paid" in
  let '(createdReceipt, s2) := billingReceiptDb.create s1 receipt in
  let s3 := billingQueueDb.markPaid s2 (bq_id i) (default Cash (bq_paymentMethod i)) receiptNumber in
  loadQueue env now
    (s3, mkPage (queueItems page) (completedItems page) (selectedDate page) (Some createdReceipt)).

Definition handleComplete (env : Env) (now : Z) (sp : Store * Page)
    (it : BillingQueueItemWithDetails) : Store * Page :=
  let (s, page) := sp in
  let i := item it in
  let s1 := billingQueueDb.markCompleted s (bq_id i) in
  let s2 :=
    match JS.present (bq_appointmentId i) with
    | Some aid => appointmentDb.update_status s1 aid "completed"
    | None => s1
    end in
  let s3 :=
    feeHistoryDb.create s2
      (mkFeeHistory (bq_patientId i) (bq_visitId i) (JS.str_or (bq_receiptNumber i) "")
         (if String.eqb (bq_feeType i) "New Patient" then "first-visit" else "follow-up")
         (bq_netAmount i) (default Cash (bq_paymentMethod i)) "paid" now) in
  loadQueue env now (s3, page).

Definition handleReopen (env : Env) (now : Z) (sp : Store * Page)
    (it : BillingQueueItemWithDetails) : Store * Page :=
  let (s, page) := sp in
  let s1 := billingQueueDb.update s (bq_id (item it)) (billingQueueDb.set_status BPaid) in
  loadQueue env now (s1, page).

(** The buttons a row shows: [item.status === 'pending'] offers Generate
    Receipt, ['paid'] offers Complete, ['completed'] offers Reopen. *)
Definition offersGenerateReceipt (it : BillingQueueItem) : bool :=
  match bq_status it with BPending => true | _ => false end.

Definition offersComplete (it : BillingQueueItem) : bool :=
  match bq_status it with BPaid => true | _ => false end.

Definition offersReopen (it : BillingQueueItem) : bool :=
  match bq_status it with BCompleted => true | _ => false end.

Definition handleDateChange (env : Env) (now : Z) (sp : Store * Page) (newDate : Z)
  : Store * Page :=
  let (s, page) := sp in
  loadQueue env now (s, mkPage (queueItems page) (completedItems page) newDate (currentReceipt page)).

End Billing.

(** ** The pharmacy page ([src/app/pharmacy/page.tsx]) *)

Module Pharmacy.

Record PharmacyQueueItemWithDetails := mkDetails {
  item : PharmacyQueueItem;
  visit : option DoctorVisit;
  rxs : list DoctorPrescription;
  hasUpdates : bool
}.

(** The state of the component: the two listings, the notification (stood
    for by the count its text shows), [lastUpdateTime], and the map held
    by the [previousPrescriptionIds] ref. The selection, the tab and the
    patient record attached for display are left out, and so is the timer
    that clears a notification after five seconds. *)
Record Page := mkPage {
  queueItems : list PharmacyQueueItemWithDetails;
  preparedItems : list PharmacyQueueItemWithDetails;
  notification : option nat;
  lastUpdateTime : Z;
  previousPrescriptionIds : gmap string string
}.

(** The state on mount. *)
Definition initialPage : Page := mkPage [] [] None 0 ∅.

Definition isActive (p : PharmacyQueueItem) : bool :=
  String.eqb (pq_status p) "pending" || String.eqb (pq_status p) "preparing".

Definition isPrepared (p : PharmacyQueueItem) : bool := String.eqb (pq_status p) "prepared".

(** The comparator of [sortItems]. *)
Definition compareItems (a b : PharmacyQueueItem) : Z :=
  if pq_priority a && negb (pq_priority b) then -1
  else if negb (pq_priority a) && pq_priority b then 1
  else pq_createdAt a - pq_createdAt b.

Definition sortItems (items : list PharmacyQueueItem) : list PharmacyQueueItem :=
  JS.sort compareItems items.

(** [prescriptions.map(p => p.id).join(',')]. *)
Definition currentPrescriptionIds (s : Store) (it : PharmacyQueueItem) : string :=
  String.concat "," (map rx_id (doctorPrescriptionDb.getByVisit s (pq_visitId it))).

(** One turn of the [items.map] of [enrichItems]; the map of the ref is
    threaded through. *)
Definition enrichItem (s : Store)
    (acc : gmap string string * list PharmacyQueueItemWithDetails)
    (it : PharmacyQueueItem) : gmap string string * list PharmacyQueueItemWithDetails :=
  let (prev, out) := acc in
  let current := currentPrescriptionIds s it in
  let previousIds := prev !! pq_id it in
  let hasUpdates :=
    match previousIds with
    | Some p => negb (String.eqb p current)
    | None => false
    end in
  (<[pq_id it := current]> prev,
   out ++ [mkDetails it (doctorVisitDb.getById s (pq_visitId it))
                     (doctorPrescriptionDb.getByVisit s (pq_visitId it)) hasUpdates]).

Definition enrichItems (s : Store) (prev : gmap string string)
    (items : list PharmacyQueueItem) : gmap string string * list PharmacyQueueItemWithDetails :=
  fold_left (enrichItem s) items (prev, []).

Definition loadQueue (sp : Store * Page) : Store * Page :=
  let (s, page) := sp in
  let allItems := pharmacyQueueDb.getAll s in
  let activeItems := List.filter isActive allItems in
  let preparedItemsList := List.filter isPrepared allItems in
  let sortedActiveItems := sortItems activeItems in
  let sortedPreparedItems := sortItems preparedItemsList in
  let '(prev1, enrichedActiveItems) :=
    enrichItems s (previousPrescriptionIds page) sortedActiveItems in
  let '(prev2, enrichedPreparedItems) := enrichItems s prev1 sortedPreparedItems in
  let itemsWithUpdates := List.filter hasUpdates enrichedActiveItems in
  let notification' :=
    if (0 <? Z.of_nat (length itemsWithUpdates)) && (0 <? lastUpdateTime page)
    then Some (length itemsWithUpdates)
    else notification page in
  (s, mkPage enrichedActiveItems enrichedPreparedItems notification'
             (lastUpdateTime page) prev2).

Definition handleStartPreparing (sp : Store * Page) (itemId : string) : Store * Page :=
  let (s, page) := sp in
  loadQueue (pharmacyQueueDb.update_status s itemId "preparing", page).

(** The predicate of [patientAppointments.find] in [handleMarkPrepared]. *)
Definition isRelevantAppointment (now : Z) (apt : Appointment) : bool :=
  (isoDate (apt_appointmentDate apt) =? isoDate now)
  && (String.eqb (apt_status apt) "completed" || String.eqb (apt_status apt) "in-progress").

(** The fee a newly admitted item gets in [handleMarkPrepared]. *)
Definition inlineFee (relevantAppointment : option Appointment) (visit : option DoctorVisit)
  : Q * string :=
  let feeAmount := 300%Q in
  let feeType := "Follow Up" in
  match relevantAppointment with
  | Some apt => (default feeAmount (apt_feeAmount apt), JS.str_or (apt_feeType apt) feeType)
  | None =>
      match visit with
      | Some v => if dv_visitNumber v =? 1 then (500%Q, "New Patient") else (feeAmount, feeType)
      | None => (feeAmount, feeType)
      end
  end.

Definition handleMarkPrepared (env : Env) (now : Z) (sp : Store * Page) (itemId : string)
  : Store * Page :=
  let (s, page) := sp in
  let pharmacyItem := pharmacyQueueDb.getById s itemId in
  let s1 := pharmacyQueueDb.markPrepared s itemId "pharmacy" in
  let s2 :=
    match pharmacyItem with
    | Some p =>
        let patientAppointments := appointmentDb.getByPatient s1 (pq_patientId p) in
        let relevantAppointment := JS.find (isRelevantAppointment now) patientAppointments in
        let s' :=
          match relevantAppointment with
          | Some apt => appointmentDb.update_status s1 (apt_id apt) "medicines-prepared"
          | None => s1
          end in
        match JS.find (fun b => String.eqb (bq_visitId b) (pq_visitId p))
                      (billingQueueDb.getAll s') with
        | Some _ => s'
        | None =>
            let visit := doctorVisitDb.getById s' (pq_visitId p) in
            let '(feeAmount, feeType) := inlineFee relevantAppointment visit in
            billingQueueDb.create env now s'
              (mkInsertBillingQueue (pq_visitId p) (pq_patientId p) (pq_appointmentId p)
                 (pq_prescriptionIds p) BPending feeAmount feeType feeAmount "pending")
        end
    | None => s1
    end in
  loadQueue (s2, page).

Definition handleReopen (now : Z) (sp : Store * Page) (itemId : string) : Store * Page :=
  let (s, page) := sp in
  let pharmacyItem := pharmacyQueueDb.getById s itemId in
  let s1 := pharmacyQueueDb.update_status s itemId "pending" in
  let s2 :=
    match pharmacyItem with
    | Some p =>
        match JS.find (fun apt => (isoDate (apt_appointmentDate apt) =? isoDate now)
                                  && String.eqb (apt_status apt) "medicines-prepared")
                      (appointmentDb.getByPatient s1 (pq_patientId p)) with
        | Some apt => appointmentDb.update_status s1 (apt_id apt) "completed"
        | None => s1
        end
    | None => s1
    end in
  loadQueue (s2, page).

Definition handleStop (sp : Store * Page) (itemId reason : string) : Store * Page :=
  let (s, page) := sp in
  loadQueue (pharmacyQueueDb.stop s itemId reason, page).

(** What can happen to the page: the 5 s poll and the four buttons; and,
    in between, the other pages leave the store as [s']. *)
Inductive Action :=
| Elsewhere (s' : Store)
| Poll
| StartPreparing (itemId : string)
| MarkPrepared (now : Z) (itemId : string)
| Reopen (now : Z) (itemId : string)
| Stop (itemId reason : string).

Definition run (env : Env) (a : Action) (sp : Store * Page) : Store * Page :=
  match a with
  | Elsewhere s' => (s', snd sp)
  | Poll => loadQueue sp
  | StartPreparing i => handleStartPreparing sp i
  | MarkPrepared now i => handleMarkPrepared env now sp i
  | Reopen now i => handleReopen now sp i
  | Stop i r => handleStop sp i r
  end.

End Pharmacy.

(** ** The counters above the pharmacy listings *)

Module PharmacyStats.

Definition pendingCount (page : Pharmacy.Page) : nat :=
  length (List.filter (fun q => String.eqb (pq_status (Pharmacy.item q)) "pending")
                      (Pharmacy.queueItems page)).

Definition preparingCount (page : Pharmacy.Page) : nat :=
  length (List.filter (fun q => String.eqb (pq_status (Pharmacy.item q)) "preparing")
                      (Pharmacy.queueItems page)).

Definition preparedCount (page : Pharmacy.Page) : nat :=
  length (Pharmacy.preparedItems page).

(** The "With Updates" card: [queueItems.filter(q => q.hasUpdates).length]. *)
Definition withUpdatesCount (page : Pharmacy.Page) : nat :=
  length (List.filter Pharmacy.hasUpdates (Pharmacy.queueItems page)).

End PharmacyStats.

(** ** Editing a fee on the billing page *)

(** A record of the legacy [fees] table, with the fields [handleSaveFee]
    reads and writes. *)
Record DoctorFee := mkDoctorFee {
  fee_id : string;
  fee_patientId : string;
  fee_visitId : option string;
  fee_amount : Q
}.

Module FeeEdit.

(** The [editingFee] state; its free-text notes are left out, as the item
    model carries none. *)
Record EditingFee := mkEditingFee {
  feeAmount : Q;
  discountPercent : Q;
  discountAmount : Q;
  netAmount : Q;
  paymentMethod : PaymentMethod
}.

Record Popup := mkPopup {
  selectedItem : option Billing.BillingQueueItemWithDetails;
  editingFee : EditingFee;
  showFeePopup : bool
}.

Definition handleEditFee (it : Billing.BillingQueueItemWithDetails) (st : Popup) : Popup :=
  let i := Billing.item it in
  mkPopup (Some it)
    (mkEditingFee (bq_feeAmount i) (JS.optnum_or (bq_discountPercent i) 0)
       (JS.optnum_or (bq_discountAmount i) 0) (bq_netAmount i)
       (default Cash (bq_paymentMethod i)))
    true.

Definition calculateNetAmount (feeAmount discountPercent : Q) : Q :=
  let discountAmount := ((feeAmount * discountPercent) / 100)%Q in
  (feeAmount - discountAmount)%Q.

(** [editingFee] of the render and [prev] of the updater are the state
    between two events, one and the same here. *)
Definition handleFeeAmountChange (value : Q) (st : Popup) : Popup :=
  let prev := editingFee st in
  let netAmount := calculateNetAmount value (discountPercent prev) in
  mkPopup (selectedItem st)
    (mkEditingFee value (discountPercent prev) ((value * discountPercent prev) / 100)%Q
       netAmount (paymentMethod prev))
    (showFeePopup st).

Definition handleDiscountChange (value : Q) (st : Popup) : Popup :=
  let prev := editingFee st in
  let discountAmount := ((feeAmount prev * value) / 100)%Q in
  let netAmount := (feeAmount prev - discountAmount)%Q in
  mkPopup (selectedItem st)
    (mkEditingFee (feeAmount prev) value discountAmount netAmount (paymentMethod prev))
    (showFeePopup st).

(** The [onChange] of the payment method select. *)
Definition setPaymentMethod (m : PaymentMethod) (st : Popup) : Popup :=
  let prev := editingFee st in
  mkPopup (selectedItem st)
    (mkEditingFee (feeAmount prev) (discountPercent prev) (discountAmount prev)
       (netAmount prev) m)
    (showFeePopup st).

(** The patch [handleSaveFee] hands to [billingQueueDb.update]. *)
Definition savePatch (e : EditingFee) (b : BillingQueueItem) : BillingQueueItem :=
  mkBillingQueueItem (bq_id b) (bq_visitId b) (bq_patientId b) (bq_appointmentId b)
    (bq_prescriptionIds b) (bq_status b) (feeAmount e) (bq_feeType b)
    (Some (discountPercent e)) (Some (discountAmount e)) (netAmount e)
    (Some (paymentMethod e)) (bq_paymentStatus b) (bq_receiptNumber b) (bq_createdAt b).

(** Modelled from the spec: appointment update(id, partialFields), here for
    the patch [{ feeAmount, feeType }]. *)
Definition appointment_update_fee (s : Store) (id : string) (fee : Q) (feeType : string)
  : Store :=
  with_appointments
    (Db.update apt_id id (fun a =>
       mkAppointment (apt_id a) (apt_patientId a) (apt_appointmentDate a) (apt_status a)
         (Some fee) (Some feeType) (apt_feeStatus a))) s.

(** [f.patientId === selectedItem.patientId && f.visitId === selectedItem.visitId]. *)
Definition isRelatedFee (i : BillingQueueItem) (f : DoctorFee) : bool :=
  String.eqb (fee_patientId f) (bq_patientId i)
  && match fee_visitId f with
     | Some v => String.eqb v (bq_visitId i)
     | None => false
     end.

Definition handleSaveFee (env : Env) (now : Z)
    (x : Store * list DoctorFee * Billing.Page * Popup)
  : Store * list DoctorFee * Billing.Page * Popup :=
  let '(s, fees, page, st) := x in
  match selectedItem st with
  | None => x
  | Some sel =>
      let i := Billing.item sel in
      let e := editingFee st in
      let s1 := billingQueueDb.update s (bq_id i) (savePatch e) in
      let s2 :=
        match JS.present (bq_appointmentId i) with
        | Some aid => appointment_update_fee s1 aid (feeAmount e) (bq_feeType i)
        | None => s1
        end in
      let fees' :=
        match JS.find (isRelatedFee i) fees with
        | Some relatedFee =>
            Db.update fee_id (fee_id relatedFee)
              (fun f => mkDoctorFee (fee_id f) (fee_patientId f) (fee_visitId f) (feeAmount e))
              fees
        | None => fees
        end in
      let '(s3, page') := Billing.loadQueue env now (s2, page) in
      (s3, fees', page', mkPopup (selectedItem st) (editingFee st) false)
  end.

(** One edit in the popup. *)
Inductive Edit :=
| FeeAmount (value : Q)
| Discount (value : Q)
| Method (m : PaymentMethod).

Definition apply (st : Popup) (e : Edit) : Popup :=
  match e with
  | FeeAmount v => handleFeeAmountChange v st
  | Discount v => handleDiscountChange v st
  | Method m => setPaymentMethod m st
  end.

End FeeEdit.

(** ** Saving a medicine bill on the billing page *)

(** [MedicineBill] of [src/lib/db/schema.ts]; the time stamps the store
    keeps on it are left out. *)
Record MedicineBill := mkMedicineBill {
  mb_id : string;
  mb_billingQueueId : string;
  mb_patientId : string;
  mb_visitId : string;
  mb_items : list BillItem;
  mb_subtotal : Q;
  mb_discountPercent : Q;
  mb_discountAmount : Q;
  mb_taxPercent : Q;
  mb_taxAmount : Q;
  mb_grandTotal : Q;
  mb_notes : string;
  mb_status : string
}.

(** [MedicineAmountMemory]; the record's own id is left out, the pages
    never read it. *)
Record MedicineAmountMemory := mkMedicineAmountMemory {
  mem_medicine : string;
  mem_potency : option string;
  mem_amount : Q;
  mem_lastUsedAt : Z
}.

(** The two collections behind [medicineBillDb] and
    [medicineAmountMemoryDb]. *)
Record BillStore := mkBillStore {
  medicineBills : list MedicineBill;
  amountMemory : list MedicineAmountMemory;
  nextBillId : nat
}.

Module medicineBillDb.
(** Modelled from the spec: the bill of a billing queue item, "keyed by
    billingQueueId". *)
Definition getByBillingQueueId (bs : BillStore) (billingQueueId : string)
  : option MedicineBill :=
  List.find (fun b => String.eqb (mb_billingQueueId b) billingQueueId) (medicineBills bs).

(** Modelled from the spec: the store's create, "returning the full record
    post-write"; the data comes without an id. *)
Definition create (env : Env) (bs : BillStore) (data : string -> MedicineBill)
  : MedicineBill * BillStore :=
  let bill := data (generateId env (nextBillId bs)) in
  (bill, mkBillStore (medicineBills bs ++ [bill]) (amountMemory bs) (S (nextBillId bs))).

(** Modelled from the spec: update(id, partialFields), here for a patch
    that gives every field but the id. *)
Definition update (bs : BillStore) (id : string) (data : string -> MedicineBill) : BillStore :=
  mkBillStore (Db.update mb_id id (fun b => data (mb_id b)) (medicineBills bs))
              (amountMemory bs) (nextBillId bs).
End medicineBillDb.

Module medicineAmountMemoryDb.
(** Modelled from the spec: two potencies are the same key when both are
    absent or both are the same string. *)
Definition samePotency (a b : option string) : bool :=
  match a, b with
  | Some x, Some y => String.eqb x y
  | None, None => true
  | _, _ => false
  end.

(** Modelled from the spec: the key "(medicine, potency)" of a record. *)
Definition sameKey (medicine : string) (potency : option string) (m : MedicineAmountMemory)
  : bool :=
  String.eqb (mem_medicine m) medicine && samePotency (mem_potency m) potency.

(** Modelled from the spec: the memory "keyed by (medicine, potency)". *)
Definition getByMedicine (bs : BillStore) (medicine : string) (potency : option string)
  : option MedicineAmountMemory :=
  List.find (sameKey medicine potency) (amountMemory bs).

(** Modelled from the spec: the record of the key is overwritten where it
    stands, a new record is added at the end. *)
Fixpoint upsert_in (now : Z) (medicine : string) (potency : option string) (amount : Q)
    (l : list MedicineAmountMemory) : list MedicineAmountMemory :=
  match l with
  | [] => [mkMedicineAmountMemory medicine potency amount now]
  | m :: rest =>
      if sameKey medicine potency m
      then mkMedicineAmountMemory (mem_medicine m) (mem_potency m) amount now :: rest
      else m :: upsert_in now medicine potency amount rest
  end.

(** Modelled from the spec: upsert "keyed by (medicine, potency) with the new
    amount and current timestamp", last write wins. *)
Definition upsert (now : Z) (bs : BillStore) (medicine : string) (potency : option string)
    (amount : Q) : BillStore :=
  mkBillStore (medicineBills bs) (upsert_in now medicine potency amount (amountMemory bs))
              (nextBillId bs).
End medicineAmountMemoryDb.

Module MedicineBilling.

(** The state of the prescription popup that [handleSaveBill] reads and
    writes; of the patient record it reads the id only. *)
Record BillPopup := mkBillPopup {
  viewingBillingItem : option Billing.BillingQueueItemWithDetails;
  viewingPatient : option string;
  billItems : list BillItem;
  billDiscount : Q;
  billTax : Q;
  billNotes : string;
  savedMedicineBill : option MedicineBill
}.

(** [billData], still without an id. *)
Definition billData (it : Billing.BillingQueueItemWithDetails) (patientId : string)
    (st : BillPopup) (id : string) : MedicineBill :=
  let billItemsData :=
    map (fun item => mkBillItem (bi_prescriptionId item) (bi_medicine item) (bi_potency item)
                       (bi_quantity item) (bi_amount item)) (billItems st) in
  mkMedicineBill id (bq_id (Billing.item it)) patientId (bq_visitId (Billing.item it))
    billItemsData
    (getBillSubtotal (billItems st))
    (billDiscount st)
    (getBillDiscountAmount (billItems st) (billDiscount st))
    (billTax st)
    (getBillTaxAmount (billItems st) (billDiscount st) (billTax st))
    (getBillTotal (billItems st) (billDiscount st) (billTax st))
    (billNotes st) "saved".

(** One turn of [billItems.forEach]: [if (item.amount > 0) upsert]. *)
Definition remember (now : Z) (bs : BillStore) (item : BillItem) : BillStore :=
  if negb (Qle_bool (bi_amount item) 0)
  then medicineAmountMemoryDb.upsert now bs (bi_medicine item) (bi_potency item)
                                     (bi_amount item)
  else bs.

Definition handleSaveBill (env : Env) (now : Z)
    (x : Store * BillStore * Billing.Page * BillPopup)
  : Store * BillStore * Billing.Page * BillPopup :=
  let '(s, bs, page, st) := x in
  match viewingBillingItem st, viewingPatient st with
  | Some it, Some patientId =>
      let '(bs1, saved) :=
        match savedMedicineBill st with
        | Some b => (medicineBillDb.update bs (mb_id b) (billData it patientId st),
                     savedMedicineBill st)
        | None =>
            let (newBill, bs') := medicineBillDb.create env bs (billData it patientId st) in
            (bs', Some newBill)
        end in
      let bs2 := fold_left (remember now) (billItems st) bs1 in
      let '(s', page') := Billing.loadQueue env now (s, page) in
      (s', bs2, page',
       mkBillPopup (viewingBillingItem st) (viewingPatient st) (billItems st)
                   (billDiscount st) (billTax st) (billNotes st) saved)
  | _, _ => x
  end.

End MedicineBilling.

(** * Notions used by the statements *)

(** [a] may stand before [b] under the comparator [cmp]. *)
Definition before {A : Type} (cmp : A -> A -> Z) (a b : A) : Prop := cmp a b <= 0.

(** The flag an item gets against the watermarks [prev]. *)
Definition flagged (s : Store) (prev : gmap string string) (it : PharmacyQueueItem) : bool :=
  match prev !! pq_id it with
  | Some p => negb (String.eqb p (Pharmacy.currentPrescriptionIds s it))
  | None => false
  end.

(** The view of an item judged against the watermarks [prev]. *)
Definition view (s : Store) (prev : gmap string string) (it : PharmacyQueueItem)
  : Pharmacy.PharmacyQueueItemWithDetails :=
  Pharmacy.mkDetails it (doctorVisitDb.getById s (pq_visitId it))
    (doctorPrescriptionDb.getByVisit s (pq_visitId it)) (flagged s prev it).

(** The watermarks after the items were observed. *)
Definition observe (s : Store) (prev : gmap string string) (items : list PharmacyQueueItem)
  : gmap string string :=
  fold_left (fun m it => <[pq_id it := Pharmacy.currentPrescriptionIds s it]> m) items prev.

(** One turn of a [forEach] that patches, by id, the record it holds. *)
Definition turn {A : Type} (key : A -> string) (cond : A -> bool) (patch : A -> A -> A)
    (l : list A) (it : A) : list A :=
  if cond it then Db.update key (key it) (patch it) l else l.

(** What a record becomes after the loop over [its]. *)
Definition settled {A : Type} (key : A -> string) (cond : A -> bool) (patch : A -> A -> A)
    (its : list A) (x : A) : A :=
  match List.find (fun it => String.eqb (key it) (key x)) its with
  | Some it => if cond it then patch it x else x
  | None => x
  end.

(** The test of one turn of the resync loop of [Billing.loadQueue], and the
    record it writes. *)
Definition needsResync (env : Env) (now : Z) (s : Store) (it : BillingQueueItem) : bool :=
  match bq_status it with
  | BPending => Billing.differs (Billing.resolveFee env now s it) it
  | _ => false
  end.

Definition resyncPatch (env : Env) (now : Z) (s : Store) (it b : BillingQueueItem)
  : BillingQueueItem :=
  Billing.feePatch (Billing.resolveFee env now s it) it b.

(** What the loader makes of a billing item of the selected day. *)
Definition resynced (env : Env) (now : Z) (s : Store) (b : BillingQueueItem)
  : BillingQueueItem :=
  if needsResync env now s b then resyncPatch env now s b b else b.

(** The specification's [Σ amount]. *)
Definition sum_amounts (l : list BillItem) : Q :=
  fold_right (fun item acc => (bi_amount item + acc)%Q) 0%Q l.

(** Fee resolution as the specification words it, in strict priority: the
    linked appointment when it has a fee amount; otherwise an appointment of
    the patient of the current calendar day that has a fee amount; otherwise
    the visit-number heuristic. *)
Definition spec_resolveFee (env : Env) (now : Z) (s : Store)
    (appointmentId : option string) (patientId : string) (visitNumber : Z) : Q * string :=
  let hasFee (a : Appointment) : bool :=
    match apt_feeAmount a with Some _ => true | None => false end in
  let feeOf (a : Appointment) : Q * string :=
    (default 0%Q (apt_feeAmount a), default "" (apt_feeType a)) in
  let linked :=
    match appointmentId with
    | Some aid =>
        match appointmentDb.getById s aid with
        | Some a => if hasFee a then Some a else None
        | None => None
        end
    | None => None
    end in
  match linked with
  | Some a => feeOf a
  | None =>
      match List.find
              (fun a => (toDateString env (apt_appointmentDate a) =? toDateString env now)
                        && hasFee a)
              (appointmentDb.getByPatient s patientId) with
      | Some a => feeOf a
      | None => if visitNumber =? 1 then (500%Q, "New Patient") else (300%Q, "Follow Up")
      end
  end.

(** The edited amounts hang together: the discount amount is the discount
    percentage of the fee, the net amount the fee less the discount amount. *)
Definition editConsistent (e : FeeEdit.EditingFee) : Prop :=
  (FeeEdit.discountAmount e == FeeEdit.feeAmount e * FeeEdit.discountPercent e / 100
   /\ FeeEdit.netAmount e == FeeEdit.feeAmount e - FeeEdit.discountAmount e)%Q.

Definition isAmountEdit (e : FeeEdit.Edit) : bool :=
  match e with
  | FeeEdit.FeeAmount _ | FeeEdit.Discount _ => true
  | FeeEdit.Method _ => false
  end.

(** The last value typed into each field. *)
Fixpoint lastFee (edits : list FeeEdit.Edit) (d : Q) : Q :=
  match edits with
  | [] => d
  | FeeEdit.FeeAmount v :: rest => lastFee rest v
  | _ :: rest => lastFee rest d
  end.

Fixpoint lastDiscount (edits : list FeeEdit.Edit) (d : Q) : Q :=
  match edits with
  | [] => d
  | FeeEdit.Discount v :: rest => lastDiscount rest v
  | _ :: rest => lastDiscount rest d
  end.

(** The store as [handleSaveFee] leaves it before it reloads: the item
    patched and, for an item with an appointment link, the appointment
    patched. *)
Definition feeWritten (s : Store) (i : BillingQueueItem) (e : FeeEdit.EditingFee) : Store :=
  let s1 := billingQueueDb.update s (bq_id i) (FeeEdit.savePatch e) in
  match JS.present (bq_appointmentId i) with
  | Some aid => FeeEdit.appointment_update_fee s1 aid (FeeEdit.feeAmount e) (bq_feeType i)
  | None => s1
  end.

(** The three status cards of the pharmacy page, and what one item of a
    given status adds to them. *)
Definition counters (page : Pharmacy.Page) : nat * nat * nat :=
  (PharmacyStats.pendingCount page, PharmacyStats.preparingCount page,
   PharmacyStats.preparedCount page).

Definition oneOf (status : string) : nat * nat * nat :=
  ((if String.eqb status "pending" then 1 else 0)%nat,
   (if String.eqb status "preparing" then 1 else 0)%nat,
   (if String.eqb status "prepared" then 1 else 0)%nat).

Definition plus3 (a b : nat * nat * nat) : nat * nat * nat :=
  let '(a1, a2, a3) := a in
  let '(b1, b2, b3) := b in
  ((a1 + b1)%nat, (a2 + b2)%nat, (a3 + b3)%nat).

(** The amount of the last line of a bill for the given medicine and
    potency that is greater than zero, if there is one. *)
Definition lastAmount (medicine : string) (potency : option string) (items : list BillItem)
  : option Q :=
  option_map bi_amount
    (List.find (fun item => negb (Qle_bool (bi_amount item) 0)
                            && String.eqb (bi_medicine item) medicine
                            && medicineAmountMemoryDb.samePotency (bi_potency item) potency)
               (rev items)).

(** What the sweep of the billing page may have made of a pharmacy item:
    nothing, or a billed item out of a prepared one. *)
Definition sweptFrom (a b : PharmacyQueueItem) : Prop :=
  b = a \/ (pq_status a = "prepared" /\ b = pharmacyQueueDb.set_status "billed" a).

(** Of the appointments of a patient that satisfy [P], in the order of the
    store: [apt] is the first; there is none. *)
Definition firstOfPatient (s : Store) (patientId : string) (P : Appointment -> Prop)
    (apt : Appointment) : Prop :=
  exists earlier later,
    appointments s = earlier ++ apt :: later
    /\ apt_patientId apt = patientId /\ P apt
    /\ forall a, In a earlier -> apt_patientId a = patientId -> ~ P a.

Definition noneOfPatient (s : Store) (patientId : string) (P : Appointment -> Prop) : Prop :=
  forall a, In a (appointments s) -> apt_patientId a = patientId -> ~ P a.

(** The appointment falls on the local calendar day of [now]. *)
Definition onLocalDay (env : Env) (now : Z) (a : Appointment) : Prop :=
  toDateString env (apt_appointmentDate a) = toDateString env now.

(** The appointment has the UTC date of [now] and is in status completed or
    in-progress. *)
Definition seenOnUtcDay (now : Z) (a : Appointment) : Prop :=
  isoDate (apt_appointmentDate a) = isoDate now
  /\ (apt_status a = "completed" \/ apt_status a = "in-progress").

(** The appointment a record links by id: the link is set and the
    appointment is in the store. *)
Definition linkedAppointment (s : Store) (appointmentId : option string)
  : option Appointment :=
  match JS.present appointmentId with
  | Some aid => appointmentDb.getById s aid
  | None => None
  end.

(** No fee amount comes from the link: it is not set, or leads nowhere, or
    to an appointment without a fee amount. *)
Definition noLinkedFee (s : Store) (appointmentId : option string) : Prop :=
  forall apt, linkedAppointment s appointmentId = Some apt -> apt_feeAmount apt = None.

(** What a stored item becomes when the fee amount [f] of the appointment
    [apt] is resolved for it: the item itself when fee amount, fee type and
    payment status come out as stored, and otherwise the item with the three
    resolved values and the net amount of the fee less its discount amount. *)
Definition absorbed (apt : Appointment) (f : Q) (b : BillingQueueItem) : BillingQueueItem :=
  let feeType := JS.str_or (apt_feeType apt) (bq_feeType b) in
  let paymentStatus := JS.str_or (apt_feeStatus apt) (bq_paymentStatus b) in
  if Qeq_bool f (bq_feeAmount b) && String.eqb feeType (bq_feeType b)
     && String.eqb paymentStatus (bq_paymentStatus b)
  then b
  else mkBillingQueueItem (bq_id b) (bq_visitId b) (bq_patientId b) (bq_appointmentId b)
         (bq_prescriptionIds b) (bq_status b) f feeType
         (bq_discountPercent b) (bq_discountAmount b)
         (f - JS.optnum_or (bq_discountAmount b) 0)%Q
         (bq_paymentMethod b) paymentStatus (bq_receiptNumber b) (bq_createdAt b).

(** The billing ids are unique and stay so: the ids still to be generated
    are new and differ from one another. *)
Definition idsFresh (env : Env) (s : Store) : Prop :=
  List.NoDup (map bq_id (billingQueue s))
  /\ (forall k, (nextId s <= k)%nat ->
                ~ In (generateId env k) (map bq_id (billingQueue s)))
  /\ (forall j k, (nextId s <= j)%nat -> (nextId s <= k)%nat ->
                  generateId env j = generateId env k -> j = k).

(** The billing item an admission path creates for a pharmacy item, once
    the fee is resolved. *)
Definition admittedItem (id : string) (p : PharmacyQueueItem) (fee : Q * string) (now : Z)
  : BillingQueueItem :=
  mkBillingQueueItem id (pq_visitId p) (pq_patientId p) (pq_appointmentId p)
    (pq_prescriptionIds p) BPending (fst fee) (snd fee) None None (fst fee) None
    "pending" None now.

(** ** A small clinic, for the concrete cases *)

Module Example.

Fixpoint tally (n : nat) : string :=
  match n with
  | O => ""
  | S n => String.append "i" (tally n)
  end.

(** Local time five and a half hours ahead of UTC. *)
Definition env : Env :=
  mkEnv 19800000 (fun n => String.append "bq-" (tally n))
        (fun n => String.append "RCP-" (tally n)).

(** 2 November 2026, 10:00 UTC, and the same hour one day earlier. *)
Definition today : Z := 1793613600000.
Definition yesterday : Z := today - msPerDay.

(** An appointment of yesterday that carries no fee. *)
Definition a1 : Appointment :=
  mkAppointment "a1" "p1" yesterday "completed" None None None.

Definition v1 : DoctorVisit := mkDoctorVisit "v1" "p1" 1.

Definition rx1 : DoctorPrescription := mkDoctorPrescription "rx1" "v1" "Arnica" 1.
Definition rx2 : DoctorPrescription := mkDoctorPrescription "rx2" "v1" "Bryonia" 2.

Definition q1 (status : string) : PharmacyQueueItem :=
  mkPharmacyQueueItem "q1" "v1" "p1" (Some "a1") ["rx1"] false status None None today.

Definition b1 (status : BillingStatus) : BillingQueueItem :=
  mkBillingQueueItem "b1" "v1" "p1" (Some "a1") ["rx1"] status 500 "New Patient"
    None None 500 None "pending" None today.

(** The same clinic with a pharmacy item in the given status and the given
    billing queue. *)
Definition clinic (status : string) (billing : list BillingQueueItem) : Store :=
  mkStore [a1] [v1] [rx1] [q1 status] billing [] [] 0 0.

Definition billingPage : Billing.Page := Billing.initialPage today.

(** A billing item of another visit, created the day before. *)
Definition b0 (status : BillingStatus) : BillingQueueItem :=
  mkBillingQueueItem "b0" "v0" "p1" (Some "a1") [] status 300 "Follow Up"
    None None 300 None "pending" None yesterday.

(** The clinic after the doctor added a second prescription to the visit. *)
Definition clinic_edited : Store :=
  mkStore [a1] [v1] [rx1; rx2] [q1 "pending"] [] [] [] 0 0.

(** A second pharmacy item, created a minute later and with priority, and a
    third, created first but already prepared. *)
Definition q2 : PharmacyQueueItem :=
  mkPharmacyQueueItem "q2" "v2" "p2" None [] true "preparing" None None (today + 60000).

Definition q3 : PharmacyQueueItem :=
  mkPharmacyQueueItem "q3" "v3" "p3" None [] false "prepared" None None (today - 60000).

Definition pharmacy_three : Store :=
  mkStore [a1] [v1] [rx1] [q1 "pending"; q2; q3] [] [] [] 0 0.

(** The appointment of yesterday, now with a fee of 700. *)
Definition a1_fee : Appointment :=
  mkAppointment "a1" "p1" yesterday "completed" (Some 700%Q) (Some "Special") (Some "paid").

Definition clinic_fee (status : string) (billing : list BillingQueueItem) : Store :=
  mkStore [a1_fee] [v1] [rx1] [q1 status] billing [] [] 0 0.

(** A walk-in: a second patient with an appointment of today that carries a
    fee of 250, and a pending billing item of this patient without an
    appointment link. *)
Definition a2 : Appointment :=
  mkAppointment "a2" "p2" today "completed" (Some 250%Q) None None.

Definition b2 : BillingQueueItem :=
  mkBillingQueueItem "b2" "v2" "p2" None [] BPending 300 "Follow Up"
    None None 300 None "pending" None today.

Definition walk_in : Store := mkStore [a1; a2] [] [] [] [b2] [] [] 0 0.

(** The fee popup after typing a fee of 400 and a discount of 10 per cent,
    with UPI chosen. *)
Definition popup_400 (sel : BillingQueueItem) : FeeEdit.Popup :=
  FeeEdit.mkPopup (Some (Billing.mkDetails sel None []))
                  (FeeEdit.mkEditingFee 400 10 40 360 Upi) true.

(** The first patient has come back today: an appointment in progress, and
    the pharmacy item being prepared. *)
Definition a3 : Appointment :=
  mkAppointment "a3" "p1" today "in-progress" None None None.

Definition clinic_today : Store :=
  mkStore [a1; a3] [v1] [rx1] [q1 "preparing"] [] [] [] 0 0.

(** A bill of three lines in the prescription popup of the paid item, with
    nothing saved yet; one amount is remembered from an earlier bill. *)
Definition lines : list BillItem :=
  [mkBillItem "rx1" "Arnica" (Some "30C") 1 120;
   mkBillItem "rx2" "Bryonia" None 1 0;
   mkBillItem "rx3" "Arnica" (Some "30C") 2 80].

Definition bills : BillStore :=
  mkBillStore [] [mkMedicineAmountMemory "Bryonia" None 60 yesterday] 0.

Definition billPopup : MedicineBilling.BillPopup :=
  MedicineBilling.mkBillPopup (Some (Billing.mkDetails (b1 BPaid) None [])) (Some "p1")
    lines 10 5 "" None.

(** The first patient with, besides the appointment of yesterday that
    carries no fee, a booked appointment of today at 250. *)
Definition a4 : Appointment :=
  mkAppointment "a4" "p1" today "scheduled" (Some 250%Q) (Some "Review") None.

Definition clinic_review : Store :=
  mkStore [a1; a4] [v1] [rx1] [q1 "prepared"] [] [] [] 0 0.

End Example.

(** * Properties *)

(** ** The stable sort *)

Section SortFacts.
Context {A : Type}.
Variable cmp : A -> A -> Z.

Hypothesis cmp_total : forall a b, 0 < cmp a b -> cmp b a <= 0.
Hypothesis cmp_trans : forall a b c, cmp a b <= 0 -> cmp b c <= 0 -> cmp a c <= 0.

Lemma insert_Permutation (x : A) (l : list A) : Permutation (JS.insert cmp x l) (x :: l).
Proof using Type.
  induction l as [|y l IH]; simpl; [reflexivity|].
  destruct (cmp x y <=? 0); [reflexivity|].
  rewrite IH. apply perm_swap.
Qed.

Lemma sort_Permutation (l : list A) : Permutation (JS.sort cmp l) l.
Proof using Type.
  induction l as [|x l IH]; simpl; [reflexivity|].
  rewrite insert_Permutation. now constructor.
Qed.

Lemma insert_StronglySorted (x : A) (l : list A) :
  StronglySorted (before cmp) l -> StronglySorted (before cmp) (JS.insert cmp x l).
Proof using cmp_total cmp_trans.
  induction l as [|y l IH]; simpl; intros Hs.
  - constructor; [constructor|constructor].
  - apply StronglySorted_inv in Hs as [Hl Hy].
    destruct (cmp x y <=? 0) eqn:E.
    + apply Z.leb_le in E. constructor; [constructor; assumption|].
      constructor; [exact E|].
      eapply List.Forall_impl; [|exact Hy]. intros z Hz. eapply cmp_trans; eassumption.
    + apply Z.leb_gt in E. constructor; [apply IH; assumption|].
      eapply Permutation_Forall; [symmetry; apply insert_Permutation|].
      constructor; [apply cmp_total; lia|assumption].
Qed.

Lemma sort_StronglySorted (l : list A) : StronglySorted (before cmp) (JS.sort cmp l).
Proof using cmp_total cmp_trans.
  induction l as [|x l IH]; simpl; [constructor|].
  apply insert_StronglySorted, IH.
Qed.

(** In a strongly sorted list an element at a smaller index may stand
    before any element at a larger one. *)
Lemma StronglySorted_lookup (l : list A) (i j : nat) (a b : A) :
  StronglySorted (before cmp) l -> l !! i = Some a -> l !! j = Some b -> (i < j)%nat ->
  before cmp a b.
Proof using Type.
  intros Hs. revert i j. induction Hs as [|x l Hs IH Hx]; intros i j Hi Hj Hij.
  - rewrite lookup_nil in Hi. discriminate.
  - destruct j as [|j]; [lia|]. simpl in Hj. destruct i as [|i]; simpl in Hi.
    + injection Hi as <-. rewrite Forall_forall in Hx. apply Hx.
      eapply list_elem_of_lookup_2; eassumption.
    + eapply IH; [eassumption|eassumption|lia].
Qed.
End SortFacts.

(** ** The pharmacy listings *)

Section PharmacyListing.
Import Pharmacy.

Lemma compareItems_total (a b : PharmacyQueueItem) :
  0 < compareItems a b -> compareItems b a <= 0.
Proof.
  unfold compareItems. destruct (pq_priority a), (pq_priority b); simpl; lia.
Qed.

Lemma compareItems_trans (a b c : PharmacyQueueItem) :
  compareItems a b <= 0 -> compareItems b c <= 0 -> compareItems a c <= 0.
Proof.
  unfold compareItems.
  destruct (pq_priority a), (pq_priority b), (pq_priority c); simpl; lia.
Qed.

Lemma sortItems_Permutation (l : list PharmacyQueueItem) : Permutation (sortItems l) l.
Proof. apply sort_Permutation. Qed.

Lemma sortItems_sorted (l : list PharmacyQueueItem) :
  StronglySorted (before compareItems) (sortItems l).
Proof.
  apply sort_StronglySorted; [apply compareItems_total|apply compareItems_trans].
Qed.

(** The position of two items of a sorted listing. *)
Lemma sortItems_position (l : list PharmacyQueueItem) (i j : nat) (a b : PharmacyQueueItem) :
  sortItems l !! i = Some a -> sortItems l !! j = Some b ->
  (pq_priority a = true /\ pq_priority b = false)
  \/ (pq_priority a = pq_priority b /\ pq_createdAt a < pq_createdAt b) ->
  (i < j)%nat.
Proof.
  intros Hi Hj Hab.
  destruct (Nat.lt_trichotomy i j) as [Hlt|[Heq|Hgt]]; [exact Hlt| |].
  - subst j. rewrite Hi in Hj. injection Hj as <-.
    destruct Hab as [[H1 H2]|[_ H]]; [congruence|lia].
  - pose proof (StronglySorted_lookup compareItems _ _ _ _ _
                  (sortItems_sorted l) Hj Hi Hgt) as Hb.
    unfold before, compareItems in Hb.
    destruct Hab as [[H1 H2]|[H1 H2]].
    + rewrite H1, H2 in Hb. simpl in Hb. lia.
    + rewrite H1 in Hb. destruct (pq_priority b); simpl in Hb; lia.
Qed.

Lemma enrichItems_items (s : Store) (items : list PharmacyQueueItem) :
  forall prev out,
    map item (snd (fold_left (enrichItem s) items (prev, out))) = map item out ++ items.
Proof.
  induction items as [|x items IH]; intros prev out; simpl.
  - now rewrite app_nil_r.
  - rewrite IH, map_app. simpl. now rewrite <- app_assoc.
Qed.

Lemma loadQueue_queueItems (s : Store) (page : Page) :
  map item (queueItems (snd (loadQueue (s, page))))
  = sortItems (List.filter isActive (pharmacyQueue s)).
Proof.
  unfold loadQueue, enrichItems, pharmacyQueueDb.getAll.
  pose proof (enrichItems_items s (sortItems (List.filter isActive (pharmacyQueue s)))
                (previousPrescriptionIds page) []) as H.
  destruct (fold_left (enrichItem s) (sortItems (List.filter isActive (pharmacyQueue s))) _)
    as [prev1 act].
  destruct (fold_left (enrichItem s) (sortItems (List.filter isPrepared (pharmacyQueue s))) _)
    as [prev2 prep].
  exact H.
Qed.

Lemma loadQueue_preparedItems (s : Store) (page : Page) :
  map item (preparedItems (snd (loadQueue (s, page))))
  = sortItems (List.filter isPrepared (pharmacyQueue s)).
Proof.
  unfold loadQueue, enrichItems, pharmacyQueueDb.getAll.
  destruct (fold_left (enrichItem s) (sortItems (List.filter isActive (pharmacyQueue s))) _)
    as [prev1 act].
  pose proof (enrichItems_items s (sortItems (List.filter isPrepared (pharmacyQueue s)))
                prev1 []) as H.
  destruct (fold_left (enrichItem s) (sortItems (List.filter isPrepared (pharmacyQueue s))) _)
    as [prev2 prep].
  exact H.
Qed.

Lemma loadQueue_store (sp : Store * Page) : fst (loadQueue sp) = fst sp.
Proof.
  destruct sp as [s page]. unfold loadQueue, enrichItems.
  destruct (fold_left (enrichItem s) _ _) as [prev1 act].
  destruct (fold_left (enrichItem s) _ _) as [prev2 prep].
  reflexivity.
Qed.
End PharmacyListing.

(** ** Lists of records and their keys *)

Section Keys.
Context {A K : Type}.
Variable key : A -> K.

Lemma NoDup_map_filter (p : A -> bool) (l : list A) :
  List.NoDup (map key l) -> List.NoDup (map key (List.filter p l)).
Proof using Type.
  induction l as [|x l IH]; simpl; intros Hnd; [constructor|].
  apply List.NoDup_cons_iff in Hnd as [Hx Hnd].
  destruct (p x); simpl; [|auto].
  constructor; [|auto].
  intros Hin. apply Hx. apply in_map_iff in Hin as [y [Hy Hin]].
  apply List.filter_In in Hin as [Hin _]. rewrite <- Hy. now apply in_map.
Qed.

(** Records of a collection with unique keys are equal when their keys are. *)
Lemma NoDup_map_eq (l : list A) (a b : A) :
  List.NoDup (map key l) -> In a l -> In b l -> key a = key b -> a = b.
Proof using Type.
  induction l as [|x l IH]; simpl; intros Hnd Ha Hb Heq; [contradiction|].
  apply List.NoDup_cons_iff in Hnd as [Hx Hnd].
  destruct Ha as [->|Ha], Hb as [->|Hb]; [reflexivity| | |auto].
  - exfalso. apply Hx. rewrite Heq. now apply in_map.
  - exfalso. apply Hx. rewrite <- Heq. now apply in_map.
Qed.
End Keys.

(** ** The prescription watermark *)

Section Watermark.
Import Pharmacy.

Lemma flagged_iff (s : Store) (prev : gmap string string) (it : PharmacyQueueItem) :
  flagged s prev it = true
  <-> exists w, prev !! pq_id it = Some w /\ w <> currentPrescriptionIds s it.
Proof.
  unfold flagged. destruct (prev !! pq_id it) as [w|].
  - rewrite negb_true_iff. split.
    + intros H. exists w. split; [reflexivity|]. now apply String.eqb_neq.
    + intros [w' [Hw Hne]]. injection Hw as <-. now apply String.eqb_neq.
  - split; [discriminate|]. intros [w [Hw _]]. discriminate.
Qed.

Lemma observe_other (s : Store) (items : list PharmacyQueueItem) (k : string) :
  forall prev, ~ In k (map pq_id items) -> observe s prev items !! k = prev !! k.
Proof.
  induction items as [|x items IH]; intros prev Hk; simpl; [reflexivity|].
  simpl in Hk. unfold observe in IH |- *. simpl. rewrite IH by tauto.
  apply lookup_insert_ne. tauto.
Qed.

Lemma enrichItems_NoDup (s : Store) (prev0 : gmap string string)
      (items : list PharmacyQueueItem) :
  List.NoDup (map pq_id items) ->
  forall prev out,
    (forall it, In it items -> prev !! pq_id it = prev0 !! pq_id it) ->
    fold_left (enrichItem s) items (prev, out)
    = (observe s prev items, out ++ map (view s prev0) items).
Proof.
  induction items as [|x items IH]; intros Hnd prev out Hagree; simpl.
  - now rewrite app_nil_r.
  - apply List.NoDup_cons_iff in Hnd as [Hx Hnd].
    unfold observe. simpl. fold (observe s (<[pq_id x:=currentPrescriptionIds s x]> prev) items).
    rewrite IH; [|assumption|].
    + f_equal. rewrite <- app_assoc. simpl. do 2 f_equal.
      unfold view, flagged. now rewrite Hagree by (now left).
    + intros it Hit. rewrite lookup_insert_ne.
      * apply Hagree. now right.
      * intros Heq. apply Hx. rewrite Heq. now apply in_map.
Qed.

Lemma filter_ids_disjoint (l : list PharmacyQueueItem) :
  List.NoDup (map pq_id l) ->
  List.NoDup (map pq_id (List.filter isActive l))
  /\ List.NoDup (map pq_id (List.filter isPrepared l))
  /\ (forall a b, In a (List.filter isActive l) -> In b (List.filter isPrepared l) ->
        pq_id a <> pq_id b).
Proof.
  intros Hnd. repeat split.
  - apply NoDup_map_filter; assumption.
  - apply NoDup_map_filter; assumption.
  - intros a b Ha Hb Heq.
    apply List.filter_In in Ha as [Ha Hsa]. apply List.filter_In in Hb as [Hb Hsb].
    assert (a = b) as -> by (eapply (NoDup_map_eq pq_id); eassumption).
    unfold isActive, isPrepared in *.
    apply String.eqb_eq in Hsb. rewrite Hsb in Hsa. discriminate.
Qed.

Lemma sortItems_ids_NoDup (p : PharmacyQueueItem -> bool) (l : list PharmacyQueueItem) :
  List.NoDup (map pq_id l) -> List.NoDup (map pq_id (sortItems (List.filter p l))).
Proof.
  intros Hnd. eapply Permutation_NoDup.
  - apply Permutation_map. symmetry. apply sortItems_Permutation.
  - now apply NoDup_map_filter.
Qed.

(** With unique ids, every item of a refresh is judged against the
    watermarks the refresh started from. *)
Lemma loadQueue_views (s : Store) (page : Page) :
  List.NoDup (map pq_id (pharmacyQueue s)) ->
  let page' := snd (loadQueue (s, page)) in
  queueItems page'
  = map (view s (previousPrescriptionIds page))
        (sortItems (List.filter isActive (pharmacyQueue s)))
  /\ preparedItems page'
     = map (view s (previousPrescriptionIds page))
           (sortItems (List.filter isPrepared (pharmacyQueue s)))
  /\ previousPrescriptionIds page'
     = observe s (observe s (previousPrescriptionIds page)
                           (sortItems (List.filter isActive (pharmacyQueue s))))
                 (sortItems (List.filter isPrepared (pharmacyQueue s))).
Proof.
  intros Hnd. unfold loadQueue, enrichItems, pharmacyQueueDb.getAll.
  destruct (filter_ids_disjoint _ Hnd) as (_ & _ & Hdis).
  rewrite (enrichItems_NoDup s (previousPrescriptionIds page));
    [|now apply sortItems_ids_NoDup|reflexivity].
  rewrite (enrichItems_NoDup s (previousPrescriptionIds page));
    [|now apply sortItems_ids_NoDup|].
  - cbn. auto.
  - intros it Hit. apply observe_other. intros Hin.
    apply in_map_iff in Hin as [a [Ha Hin]].
    eapply Permutation_in in Hin; [|apply sortItems_Permutation].
    eapply Permutation_in in Hit; [|apply sortItems_Permutation].
    eapply Hdis; eassumption.
Qed.

Lemma loadQueue_lastUpdateTime (sp : Store * Page) :
  lastUpdateTime (snd (loadQueue sp)) = lastUpdateTime (snd sp).
Proof.
  destruct sp as [s page]. unfold loadQueue, enrichItems.
  destruct (fold_left (enrichItem s) _ _) as [prev1 act].
  destruct (fold_left (enrichItem s) _ _) as [prev2 prep].
  reflexivity.
Qed.

(** [lastUpdateTime > 0] gates the notification. *)
Lemma loadQueue_notification (sp : Store * Page) :
  lastUpdateTime (snd sp) = 0 ->
  notification (snd (loadQueue sp)) = notification (snd sp).
Proof.
  destruct sp as [s page]. simpl. intros H0. unfold loadQueue, enrichItems.
  destruct (fold_left (enrichItem s) _ _) as [prev1 act].
  destruct (fold_left (enrichItem s) _ _) as [prev2 prep].
  simpl. rewrite H0. now rewrite andb_false_r.
Qed.

(** No handler of the page writes [lastUpdateTime], and so none raises a
    notification once it is [0]. *)
Lemma run_quiet (env : Env) (a : Action) (sp : Store * Page) :
  lastUpdateTime (snd sp) = 0 ->
  lastUpdateTime (snd (run env a sp)) = 0
  /\ notification (snd (run env a sp)) = notification (snd sp).
Proof.
  intros H0. destruct sp as [s page]. simpl in H0.
  destruct a;
    unfold run, handleStartPreparing, handleMarkPrepared, handleReopen, handleStop;
    [simpl; auto| | | | |];
    (rewrite loadQueue_lastUpdateTime, loadQueue_notification; [auto|exact H0]).
Qed.

Lemma runs_quiet (env : Env) (actions : list Action) :
  forall sp, lastUpdateTime (snd sp) = 0 ->
    let sp' := fold_left (fun sp a => run env a sp) actions sp in
    lastUpdateTime (snd sp') = 0 /\ notification (snd sp') = notification (snd sp).
Proof.
  induction actions as [|a actions IH]; intros sp H0; simpl; [auto|].
  destruct (run_quiet env a sp H0) as [H1 H2].
  destruct (IH _ H1) as [H3 H4]. split; [exact H3|]. now rewrite H4.
Qed.
End Watermark.

(** ** The record store: update by id *)

Section DbFacts.
Context {A : Type}.
Variable key : A -> string.

Lemma update_map {B : Type} (g : A -> B) (id : string) (patch : A -> A) (l : list A) :
  (forall x, g (patch x) = g x) -> map g (Db.update key id patch l) = map g l.
Proof using Type.
  intros Hg. induction l as [|x l IH]; simpl; [reflexivity|].
  destruct (String.eqb (key x) id); simpl; [now rewrite Hg|now rewrite IH].
Qed.

Lemma update_In (id : string) (patch : A -> A) (l : list A) (x : A) :
  In x (Db.update key id patch l) -> In x l \/ exists y, In y l /\ key y = id /\ x = patch y.
Proof using Type.
  induction l as [|y l IH]; simpl; [tauto|].
  destruct (String.eqb (key y) id) eqn:E; simpl.
  - apply String.eqb_eq in E. intros [<-|H]; [right; exists y; auto|auto].
  - intros [<-|H]; [auto|]. destruct (IH H) as [H1|[z [H1 H2]]]; [auto|].
    right. exists z. auto.
Qed.

Lemma getById_update_same (id : string) (patch : A -> A) (l : list A) :
  (forall x, key (patch x) = key x) ->
  Db.getById key id (Db.update key id patch l) = option_map patch (Db.getById key id l).
Proof using Type.
  intros Hk. unfold Db.getById. induction l as [|x l IH]; simpl; [reflexivity|].
  destruct (String.eqb (key x) id) eqn:E; simpl.
  - now rewrite Hk, E.
  - now rewrite E.
Qed.

Lemma getById_Some (id : string) (l : list A) (x : A) :
  Db.getById key id l = Some x -> In x l /\ key x = id.
Proof using Type.
  unfold Db.getById. intros H. apply List.find_some in H as [H1 H2].
  apply String.eqb_eq in H2. auto.
Qed.

Lemma getById_In (l : list A) (x : A) :
  List.NoDup (map key l) -> In x l -> Db.getById key (key x) l = Some x.
Proof using Type.
  intros Hnd Hx. unfold Db.getById.
  destruct (List.find (fun y => String.eqb (key y) (key x)) l) as [y|] eqn:E.
  - apply List.find_some in E as [Hy E]. apply String.eqb_eq in E.
    f_equal. eapply (NoDup_map_eq key); eassumption.
  - eapply List.find_none in E; [|exact Hx]. now rewrite String.eqb_refl in E.
Qed.

(** With unique ids the update touches exactly the records carrying the id. *)
Lemma update_NoDup (id : string) (patch : A -> A) (l : list A) :
  List.NoDup (map key l) ->
  Db.update key id patch l = map (fun x => if String.eqb (key x) id then patch x else x) l.
Proof using Type.
  induction l as [|x l IH]; simpl; intros Hnd; [reflexivity|].
  apply List.NoDup_cons_iff in Hnd as [Hx Hnd].
  destruct (String.eqb (key x) id) eqn:E.
  - f_equal. apply String.eqb_eq in E. subst id.
    rewrite <- (map_id l) at 1. apply map_ext_in. intros y Hy.
    destruct (String.eqb (key y) (key x)) eqn:E'; [|reflexivity].
    apply String.eqb_eq in E'. exfalso. apply Hx. rewrite <- E'. now apply in_map.
  - f_equal. now apply IH.
Qed.

Section FoldUpdate.
Variable cond : A -> bool.
Variable patch : A -> A -> A.
Hypothesis patch_key : forall it x, key (patch it x) = key x.

Lemma turn_keys (l : list A) (it : A) : map key (turn key cond patch l it) = map key l.
Proof using patch_key.
  unfold turn. destruct (cond it); [|reflexivity].
  apply update_map. apply patch_key.
Qed.

Lemma fold_turn_map {B : Type} (g : A -> B) (its : list A) :
  (forall it x, g (patch it x) = g x) ->
  forall l, map g (fold_left (turn key cond patch) its l) = map g l.
Proof using Type.
  intros Hg. induction its as [|it its IH]; simpl; intros l; [reflexivity|].
  rewrite IH. unfold turn. destruct (cond it); [|reflexivity].
  apply update_map. apply Hg.
Qed.

Lemma find_key_filter (p : A -> bool) (l : list A) (x : A) :
  List.NoDup (map key l) -> In x l ->
  List.find (fun it => String.eqb (key it) (key x)) (List.filter p l)
  = if p x then Some x else None.
Proof using Type.
  intros Hnd Hx.
  destruct (List.find _ (List.filter p l)) as [y|] eqn:E.
  - apply List.find_some in E as [Hy E]. apply String.eqb_eq in E.
    apply List.filter_In in Hy as [Hy Hp].
    assert (y = x) as -> by (eapply (NoDup_map_eq key); eassumption).
    now rewrite Hp.
  - destruct (p x) eqn:Hp; [|reflexivity].
    eapply List.find_none in E; [|apply List.filter_In; split; eassumption].
    now rewrite String.eqb_refl in E.
Qed.

Lemma fold_turn (its : list A) :
  List.NoDup (map key its) ->
  forall l, List.NoDup (map key l) -> fold_left (turn key cond patch) its l = map (settled key cond patch its) l.
Proof using patch_key.
  induction its as [|it its IH]; simpl; intros Hits l Hl.
  - unfold settled. simpl. now rewrite map_id.
  - apply List.NoDup_cons_iff in Hits as [Hit Hits].
    rewrite IH; [|assumption|now rewrite turn_keys].
    unfold turn at 1. 
    assert (Hnone : forall x, key x = key it ->
              List.find (fun it' => String.eqb (key it') (key x)) its = None).
    { intros x Hx. destruct (List.find _ its) as [z|] eqn:E; [|reflexivity].
      apply List.find_some in E as [Hz E]. apply String.eqb_eq in E.
      exfalso. apply Hit. rewrite <- Hx, <- E. now apply in_map. }
    destruct (cond it) eqn:Hc.
    + rewrite update_NoDup by assumption. rewrite map_map. apply map_ext. intros x.
      unfold settled. simpl. rewrite (String.eqb_sym (key it) (key x)).
      destruct (String.eqb (key x) (key it)) eqn:E.
      * apply String.eqb_eq in E. rewrite patch_key, Hc.
        now rewrite (Hnone x E).
      * reflexivity.
    + apply map_ext. intros x. unfold settled. simpl.
      destruct (String.eqb (key it) (key x)) eqn:E; [|reflexivity].
      apply String.eqb_eq in E. rewrite Hc. now rewrite (Hnone x (eq_sym E)).
Qed.
End FoldUpdate.
End DbFacts.

(** ** The billing loader *)

Section BillingLoader.
Import Billing.
Variable env : Env.
Variable now : Z.

(** Fee resolution reads the appointments only. *)
Lemma resolveFee_ext (s1 s2 : Store) (it : BillingQueueItem) :
  appointments s1 = appointments s2 -> resolveFee env now s1 it = resolveFee env now s2 it.
Proof using Type.
  intros H. unfold resolveFee, appointmentDb.getById, appointmentDb.getByPatient.
  now rewrite H.
Qed.

Lemma with_billingQueue_id (s : Store) : with_billingQueue (fun l => l) s = s.
Proof using Type. now destruct s. Qed.

Lemma resync_turn (s0 s : Store) (it : BillingQueueItem) :
  appointments s = appointments s0 ->
  resync env now s it
  = with_billingQueue (fun l => turn bq_id (needsResync env now s0) (resyncPatch env now s0) l it) s.
Proof using Type.
  intros Ha. unfold resync, turn, needsResync, resyncPatch.
  rewrite (resolveFee_ext s s0 it Ha).
  destruct (bq_status it); try (now rewrite with_billingQueue_id).
  destruct (differs _ it); [reflexivity|now rewrite with_billingQueue_id].
Qed.

Lemma resync_fold (s0 : Store) (its : list BillingQueueItem) :
  forall s, appointments s = appointments s0 ->
    fold_left (resync env now) its s
    = with_billingQueue
        (fun l => fold_left (turn bq_id (needsResync env now s0) (resyncPatch env now s0)) its l) s.
Proof using Type.
  induction its as [|it its IH]; intros s Ha; simpl.
  - now rewrite with_billingQueue_id.
  - rewrite (resync_turn s0 s it Ha). rewrite IH; [reflexivity|exact Ha].
Qed.

(** The store after a load: only the billing queue can differ. *)
Lemma loadQueue_fst (s : Store) (page : Page) :
  fst (loadQueue env now (s, page))
  = with_billingQueue
      (fun l => fold_left (turn bq_id (needsResync env now s) (resyncPatch env now s))
                          (List.filter (onSelectedDate env (selectedDate page)) (billingQueue s)) l) s.
Proof using Type.
  unfold loadQueue, billingQueueDb.getAll. cbn [fst]. now apply resync_fold.
Qed.

Lemma loadQueue_fst_NoDup (s : Store) (page : Page) :
  List.NoDup (map bq_id (billingQueue s)) ->
  fst (loadQueue env now (s, page))
  = with_billingQueue
      (map (fun b => if onSelectedDate env (selectedDate page) b then resynced env now s b else b)) s.
Proof using Type.
  intros Hnd. rewrite loadQueue_fst. unfold with_billingQueue. f_equal.
  rewrite fold_turn; [|reflexivity|now apply NoDup_map_filter|assumption].
  apply map_ext_in. intros b Hb. unfold settled.
  rewrite find_key_filter by assumption.
  destruct (onSelectedDate env (selectedDate page) b); reflexivity.
Qed.
End BillingLoader.

Section BillingViews.
Import Billing.
Variable env : Env.
Variable now : Z.

Lemma loadQueue_queueItems_items (s : Store) (page : Page) :
  map item (queueItems (snd (loadQueue env now (s, page))))
  = sortByDateAsc
      (List.filter isPendingOrPaid
         (List.filter (onSelectedDate env (selectedDate page))
            (billingQueue (fst (loadQueue env now (s, page)))))).
Proof using Type.
  unfold loadQueue, enrichItems, billingQueueDb.getAll. cbn [fst snd queueItems].
  rewrite map_map. cbn [details item]. apply map_id.
Qed.

Lemma loadQueue_completedItems_items (s : Store) (page : Page) :
  map item (completedItems (snd (loadQueue env now (s, page))))
  = sortByDateDesc
      (List.filter isCompleted
         (List.filter (onSelectedDate env (selectedDate page))
            (billingQueue (fst (loadQueue env now (s, page)))))).
Proof using Type.
  unfold loadQueue, enrichItems, billingQueueDb.getAll. cbn [fst snd completedItems].
  rewrite map_map. cbn [details item]. apply map_id.
Qed.

(** Whatever a view lists was created on the selected day. *)
Lemma loadQueue_listed (s : Store) (page : Page) (b : BillingQueueItem) :
  In b (map item (queueItems (snd (loadQueue env now (s, page)))
                  ++ completedItems (snd (loadQueue env now (s, page))))) ->
  onSelectedDate env (selectedDate page) b = true.
Proof using Type.
  rewrite map_app, in_app_iff, loadQueue_queueItems_items, loadQueue_completedItems_items.
  intros [H|H];
    (eapply Permutation_in in H; [|apply sort_Permutation]);
    apply List.filter_In in H as [H _]; apply List.filter_In in H as [_ H]; exact H.
Qed.

Lemma resynced_not_pending (s : Store) (b : BillingQueueItem) :
  bq_status b <> BPending -> resynced env now s b = b.
Proof using Type.
  unfold resynced, needsResync. destruct (bq_status b); [congruence|reflexivity|reflexivity].
Qed.

Lemma loadQueue_lookup (s : Store) (page : Page) (i : nat) (b : BillingQueueItem) :
  List.NoDup (map bq_id (billingQueue s)) ->
  billingQueue s !! i = Some b ->
  billingQueue (fst (loadQueue env now (s, page))) !! i
  = Some (if onSelectedDate env (selectedDate page) b then resynced env now s b else b).
Proof using Type.
  intros Hnd Hb. rewrite loadQueue_fst_NoDup by assumption.
  cbn [with_billingQueue billingQueue].
  change (map ?f ?l) with (f <$> l). now rewrite list_lookup_fmap, Hb.
Qed.
End BillingViews.

(** C10: the loader of the billing page lists the billing items created on
    the selected calendar day and no others, resyncs only pending items among
    them, and leaves every item created on another day in its place and
    unchanged, whatever its status. *)
Theorem loader_confined_to_selected_day (env : Env) (now : Z) (s : Store) (page : Billing.Page) :
  List.NoDup (map bq_id (billingQueue s)) ->
  let sp' := Billing.loadQueue env now (s, page) in
  let onDay := Billing.onSelectedDate env (Billing.selectedDate page) in
  map Billing.item (Billing.queueItems (snd sp'))
  = Billing.sortByDateAsc
      (List.filter Billing.isPendingOrPaid (List.filter onDay (billingQueue (fst sp'))))
  /\ map Billing.item (Billing.completedItems (snd sp'))
     = Billing.sortByDateDesc
         (List.filter Billing.isCompleted (List.filter onDay (billingQueue (fst sp'))))
  /\ length (billingQueue (fst sp')) = length (billingQueue s)
  /\ (forall i b,
        billingQueue s !! i = Some b ->
        toDateString env (bq_createdAt b) <> toDateString env (Billing.selectedDate page) ->
        billingQueue (fst sp') !! i = Some b
        /\ ~ In b (map Billing.item (Billing.queueItems (snd sp')
                                     ++ Billing.completedItems (snd sp'))))
  /\ (forall i b,
        billingQueue s !! i = Some b -> bq_status b <> BPending ->
        billingQueue (fst sp') !! i = Some b).
Proof.
  intros Hnd sp' onDay. subst sp' onDay.
  split; [apply loadQueue_queueItems_items|].
  split; [apply loadQueue_completedItems_items|].
  split.
  { rewrite loadQueue_fst_NoDup by assumption. cbn [with_billingQueue billingQueue].
    apply length_map. }
  split.
  - intros i b Hb Hday.
    assert (Hoff : Billing.onSelectedDate env (Billing.selectedDate page) b = false).
    { unfold Billing.onSelectedDate. now apply Z.eqb_neq. }
    split.
    + rewrite (loadQueue_lookup env now s page i b Hnd Hb). now rewrite Hoff.
    + intros Hin. apply loadQueue_listed in Hin. congruence.
  - intros i b Hb Hst.
    rewrite (loadQueue_lookup env now s page i b Hnd Hb).
    rewrite resynced_not_pending by assumption.
    now destruct (Billing.onSelectedDate _ _ b).
Qed.

(** ** Falsy numbers *)

Lemma num_or_zero (a : Q) : (JS.num_or a 0 == a)%Q.
Proof.
  unfold JS.num_or. destruct (Qeq_bool a 0) eqn:E; [|reflexivity].
  apply Qeq_bool_iff in E. symmetry. exact E.
Qed.

Lemma optnum_or_zero (a : option Q) : (JS.optnum_or a 0 == default 0 a)%Q.
Proof. destruct a as [q|]; simpl; [apply num_or_zero|reflexivity]. Qed.

Lemma differs_iff (c : Billing.Correct) (it : BillingQueueItem) :
  Billing.differs c it = true
  <-> (~ (Billing.correctFee c == bq_feeAmount it)%Q
       \/ Billing.correctFeeType c <> bq_feeType it
       \/ Billing.correctPaymentStatus c <> bq_paymentStatus it).
Proof.
  unfold Billing.differs. rewrite !orb_true_iff, !negb_true_iff.
  rewrite !String.eqb_neq. rewrite <- Qeq_bool_iff.
  destruct (Qeq_bool _ _); intuition congruence.
Qed.

(** ** The medicine billing calculator *)

Lemma getBillSubtotal_from (l : list BillItem) (acc : Q) :
  (fold_left (fun sum item => sum + JS.num_or (bi_amount item) 0) l acc
   == acc + sum_amounts l)%Q.
Proof.
  revert acc. induction l as [|x l IH]; intros acc; simpl.
  - ring.
  - rewrite IH, num_or_zero. ring.
Qed.

Lemma getBillSubtotal_sum (l : list BillItem) : (getBillSubtotal l == sum_amounts l)%Q.
Proof. unfold getBillSubtotal. rewrite getBillSubtotal_from. ring. Qed.

(** C8: for every list of line items and every discount and tax percent the
    calculator gives subtotal = sum of the amounts, discountAmount =
    subtotal * discountPercent / 100, taxAmount = (subtotal - discountAmount)
    * taxPercent / 100 and grandTotal = subtotal - discountAmount + taxAmount;
    line items of 120 and 80 with 10 % discount and 5 % tax give 200, 20, 9
    and 189. *)
Theorem bill_calculator_totals (billItems : list BillItem) (billDiscount billTax : Q) :
  let subtotal := getBillSubtotal billItems in
  let discountAmount := getBillDiscountAmount billItems billDiscount in
  let taxAmount := getBillTaxAmount billItems billDiscount billTax in
  let grandTotal := getBillTotal billItems billDiscount billTax in
  (subtotal == sum_amounts billItems
   /\ discountAmount == subtotal * billDiscount / 100
   /\ taxAmount == (subtotal - discountAmount) * billTax / 100
   /\ grandTotal == subtotal - discountAmount + taxAmount
   /\ discountAmount == sum_amounts billItems * billDiscount / 100
   /\ taxAmount
      == (sum_amounts billItems - sum_amounts billItems * billDiscount / 100) * billTax / 100
   /\ forall rx1 m1 p1 q1 rx2 m2 p2 q2,
        let scenario := [mkBillItem rx1 m1 p1 q1 120; mkBillItem rx2 m2 p2 q2 80] in
        getBillSubtotal scenario == 200
        /\ getBillDiscountAmount scenario 10 == 20
        /\ getBillTaxAmount scenario 10 5 == 9
        /\ getBillTotal scenario 10 5 == 189)%Q.
Proof.
  cbv zeta.
  split; [apply getBillSubtotal_sum|].
  split; [reflexivity|]. split; [reflexivity|]. split; [reflexivity|].
  split; [unfold getBillDiscountAmount; now rewrite getBillSubtotal_sum|].
  split.
  { unfold getBillTaxAmount, getBillDiscountAmount. now rewrite getBillSubtotal_sum. }
  intros. repeat split; vm_compute; reflexivity.
Qed.

(** ** The billing status machine *)

Section BillingMachine.
Import Billing.
Variable env : Env.

Lemma getById_map {A : Type} (key : A -> string) (g : A -> A) (id : string) (l : list A) :
  (forall x, key (g x) = key x) ->
  Db.getById key id (map g l) = option_map g (Db.getById key id l).
Proof using Type.
  intros Hk. unfold Db.getById. induction l as [|x l IH]; simpl; [reflexivity|].
  rewrite Hk. destruct (String.eqb (key x) id); [reflexivity|exact IH].
Qed.

Lemma resynced_id (now : Z) (s : Store) (b : BillingQueueItem) :
  bq_id (resynced env now s b) = bq_id b.
Proof using Type. unfold resynced. now destruct (needsResync env now s b). Qed.

Lemma loadQueue_ids (now : Z) (s : Store) (page : Page) :
  map bq_id (billingQueue (fst (loadQueue env now (s, page)))) = map bq_id (billingQueue s).
Proof using Type.
  rewrite loadQueue_fst. cbn [with_billingQueue billingQueue].
  now apply fold_turn_map.
Qed.

Lemma loadQueue_visitIds (now : Z) (s : Store) (page : Page) :
  map bq_visitId (billingQueue (fst (loadQueue env now (s, page))))
  = map bq_visitId (billingQueue s).
Proof using Type.
  rewrite loadQueue_fst. cbn [with_billingQueue billingQueue].
  now apply fold_turn_map.
Qed.

(** The loader writes to the billing queue only. *)
Lemma loadQueue_frame (now : Z) (s : Store) (page : Page) :
  let s' := fst (loadQueue env now (s, page)) in
  appointments s' = appointments s /\ pharmacyQueue s' = pharmacyQueue s
  /\ billingReceipts s' = billingReceipts s /\ feeHistory s' = feeHistory s.
Proof using Type. cbv zeta. rewrite loadQueue_fst. now cbn. Qed.

(** A handler that patches one item into a status other than pending and
    then reloads: the reload leaves the patched item alone. *)
Lemma patch_then_load (now : Z) (s s1 : Store) (page : Page)
      (patch : BillingQueueItem -> BillingQueueItem) (it : BillingQueueItem) :
  List.NoDup (map bq_id (billingQueue s)) ->
  In it (billingQueue s) ->
  billingQueue s1 = Db.update bq_id (bq_id it) patch (billingQueue s) ->
  (forall x, bq_id (patch x) = bq_id x) ->
  bq_status (patch it) <> BPending ->
  let s' := fst (loadQueue env now (s1, page)) in
  billingQueueDb.getById s' (bq_id it) = Some (patch it)
  /\ List.NoDup (map bq_id (billingQueue s'))
  /\ In (patch it) (billingQueue s').
Proof using Type.
  intros Hnd Hin Hq Hid Hst s'. subst s'.
  assert (Hnd1 : List.NoDup (map bq_id (billingQueue s1))).
  { rewrite Hq, update_map; assumption. }
  assert (Hget : billingQueueDb.getById (fst (loadQueue env now (s1, page))) (bq_id it)
                 = Some (patch it)).
  { unfold billingQueueDb.getById. rewrite loadQueue_fst_NoDup by assumption.
    cbn [with_billingQueue billingQueue].
    rewrite getById_map.
    - rewrite Hq, getById_update_same by assumption.
      rewrite getById_In by assumption. cbn [option_map].
      rewrite resynced_not_pending by assumption.
      now destruct (onSelectedDate _ _ _).
    - intros x. destruct (onSelectedDate _ _ x); [apply resynced_id|reflexivity]. }
  split; [exact Hget|]. split.
  - now rewrite loadQueue_ids.
  - apply getById_Some in Hget. tauto.
Qed.

Lemma handleGenerateReceipt_spec (now : Z) (s : Store) (page : Page)
      (d : BillingQueueItemWithDetails) :
  List.NoDup (map bq_id (billingQueue s)) ->
  In (item d) (billingQueue s) ->
  let s' := fst (handleGenerateReceipt env now (s, page) d) in
  let method := default Cash (bq_paymentMethod (item d)) in
  let receiptNumber := formatReceiptNumber env (nextReceipt s) in
  let paid := billingQueueDb.set_paid method receiptNumber (item d) in
  billingQueueDb.getById s' (bq_id (item d)) = Some paid
  /\ List.NoDup (map bq_id (billingQueue s'))
  /\ In paid (billingQueue s')
  /\ (exists r, billingReceipts s' = billingReceipts s ++ [r]
         /\ br_billingQueueId r = bq_id (item d)
         /\ br_paymentStatus r = "paid"
         /\ br_paymentMethod r = method
         /\ br_netAmount r = bq_netAmount (item d))
  /\ feeHistory s' = feeHistory s.
Proof using Type.
  intros Hnd Hin. cbv zeta. unfold handleGenerateReceipt.
  cbn [billingQueueDb.generateReceiptNumber billingReceiptDb.create].
  match goal with |- context [loadQueue env now (?s1, ?p1)] =>
    pose proof (patch_then_load now s s1 p1
                  (billingQueueDb.set_paid (default Cash (bq_paymentMethod (item d)))
                     (formatReceiptNumber env (nextReceipt s))) (item d)
                  Hnd Hin eq_refl (fun x => eq_refl)) as H;
    destruct (loadQueue_frame now s1 p1) as (_ & _ & Hr & Hf)
  end.
  destruct H as (H1 & H2 & H3); [discriminate|].
  split; [exact H1|]. split; [exact H2|]. split; [exact H3|].
  rewrite Hr, Hf. split; [|reflexivity].
  eexists. cbn. split; [reflexivity|]. now cbn.
Qed.

Lemma handleComplete_spec (now : Z) (s : Store) (page : Page)
      (d : BillingQueueItemWithDetails) :
  List.NoDup (map bq_id (billingQueue s)) ->
  In (item d) (billingQueue s) ->
  let s' := fst (handleComplete env now (s, page) d) in
  let completed := billingQueueDb.set_status BCompleted (item d) in
  billingQueueDb.getById s' (bq_id (item d)) = Some completed
  /\ List.NoDup (map bq_id (billingQueue s'))
  /\ In completed (billingQueue s').
Proof using Type.
  intros Hnd Hin. cbv zeta. unfold handleComplete.
  match goal with |- context [loadQueue env now (?s1, ?p1)] =>
    apply (patch_then_load now s s1 p1 (billingQueueDb.set_status BCompleted) (item d)
             Hnd Hin)
  end.
  - now destruct (JS.present (bq_appointmentId (item d))).
  - reflexivity.
  - discriminate.
Qed.

(** Complete appends one fee-history record, whatever the item and the
    store. *)
Lemma handleComplete_feeHistory (now : Z) (sp : Store * Page)
      (d : BillingQueueItemWithDetails) :
  feeHistory (fst (handleComplete env now sp d))
  = feeHistory (fst sp)
    ++ [mkFeeHistory (bq_patientId (item d)) (bq_visitId (item d))
          (JS.str_or (bq_receiptNumber (item d)) "")
          (if String.eqb (bq_feeType (item d)) "New Patient" then "first-visit"
           else "follow-up")
          (bq_netAmount (item d)) (default Cash (bq_paymentMethod (item d))) "paid" now].
Proof using Type.
  destruct sp as [s page]. unfold handleComplete.
  match goal with |- context [loadQueue env now (?s1, ?p1)] =>
    destruct (loadQueue_frame now s1 p1) as (_ & _ & _ & Hf)
  end.
  rewrite Hf. cbn [fst].
  now destruct (JS.present (bq_appointmentId (item d))).
Qed.

Lemma handleReopen_spec (now : Z) (s : Store) (page : Page)
      (d : BillingQueueItemWithDetails) :
  List.NoDup (map bq_id (billingQueue s)) ->
  In (item d) (billingQueue s) ->
  let s' := fst (handleReopen env now (s, page) d) in
  let reopened := billingQueueDb.set_status BPaid (item d) in
  billingQueueDb.getById s' (bq_id (item d)) = Some reopened
  /\ List.NoDup (map bq_id (billingQueue s'))
  /\ In reopened (billingQueue s')
  /\ feeHistory s' = feeHistory s.
Proof using Type.
  intros Hnd Hin. cbv zeta. unfold handleReopen.
  match goal with |- context [loadQueue env now (?s1, ?p1)] =>
    pose proof (patch_then_load now s s1 p1 (billingQueueDb.set_status BPaid) (item d)
                  Hnd Hin eq_refl (fun x => eq_refl)) as H;
    destruct (loadQueue_frame now s1 p1) as (_ & _ & _ & Hf)
  end.
  destruct H as (H1 & H2 & H3); [discriminate|].
  rewrite Hf. auto.
Qed.
End BillingMachine.

(** C4: for a pending billing item whose payment method is cash (or not yet
    set, which reads as cash), Generate Receipt makes the item paid, keeps
    its net amount and adds a receipt with payment status "paid"; Complete
    then makes it completed and appends exactly one fee-history record, paid
    in cash and of the item's net amount; Reopen then makes it paid again
    and leaves the fee history as it is. *)
Theorem billing_status_machine_scenario (env : Env) (now1 now2 now3 : Z)
    (s : Store) (page : Billing.Page) (it : BillingQueueItem) :
  List.NoDup (map bq_id (billingQueue s)) ->
  In it (billingQueue s) ->
  bq_status it = BPending ->
  default Cash (bq_paymentMethod it) = Cash ->
  let sp1 := Billing.handleGenerateReceipt env now1 (s, page) (Billing.details s it) in
  exists it1 r,
    billingQueueDb.getById (fst sp1) (bq_id it) = Some it1
    /\ bq_status it1 = BPaid
    /\ bq_netAmount it1 = bq_netAmount it
    /\ billingReceipts (fst sp1) = billingReceipts s ++ [r]
    /\ br_billingQueueId r = bq_id it
    /\ br_paymentStatus r = "paid"
    /\ br_paymentMethod r = Cash
    /\ br_netAmount r = bq_netAmount it
    /\ feeHistory (fst sp1) = feeHistory s
    /\ let sp2 := Billing.handleComplete env now2 sp1 (Billing.details (fst sp1) it1) in
       exists it2 h,
         billingQueueDb.getById (fst sp2) (bq_id it) = Some it2
         /\ bq_status it2 = BCompleted
         /\ feeHistory (fst sp2) = feeHistory s ++ [h]
         /\ fh_visitId h = bq_visitId it
         /\ fh_paymentMethod h = Cash
         /\ fh_amount h = bq_netAmount it
         /\ let sp3 := Billing.handleReopen env now3 sp2 (Billing.details (fst sp2) it2) in
            exists it3,
              billingQueueDb.getById (fst sp3) (bq_id it) = Some it3
              /\ bq_status it3 = BPaid
              /\ feeHistory (fst sp3) = feeHistory s ++ [h]
              /\ length (feeHistory (fst sp3)) = S (length (feeHistory s)).
Proof.
  intros Hnd Hin Hst Hcash sp1.
  destruct (handleGenerateReceipt_spec env now1 s page (Billing.details s it) Hnd Hin)
    as (G1 & G2 & G3 & (r & Gr & Gr1 & Gr2 & Gr3 & Gr4) & G5).
  cbn [Billing.details Billing.item] in G1, G2, G3, Gr, Gr1, Gr2, Gr3, Gr4, G5.
  fold sp1 in G1, G2, G3, Gr, G5.
  rewrite Hcash in G1, G3, Gr3.
  set (it1 := billingQueueDb.set_paid Cash (formatReceiptNumber env (nextReceipt s)) it) in *.
  exists it1, r. repeat (split; [first [assumption|reflexivity]|]).
  intros sp2.
  pose proof (handleComplete_feeHistory env now2 sp1 (Billing.details (fst sp1) it1)) as C4.
  fold sp2 in C4. rewrite G5 in C4. cbn [Billing.details Billing.item] in C4.
  assert (C : billingQueueDb.getById (fst sp2) (bq_id it1)
              = Some (billingQueueDb.set_status BCompleted it1)
              /\ List.NoDup (map bq_id (billingQueue (fst sp2)))
              /\ In (billingQueueDb.set_status BCompleted it1) (billingQueue (fst sp2))).
  { subst sp2. destruct sp1 as [s1 page1].
    exact (handleComplete_spec env now2 s1 page1 (Billing.details s1 it1) G2 G3). }
  destruct C as (C1 & C2 & C3).
  set (it2 := billingQueueDb.set_status BCompleted it1) in *.
  eexists it2, _. split; [exact C1|]. split; [reflexivity|]. split; [exact C4|].
  split; [reflexivity|]. split; [reflexivity|]. split; [reflexivity|].
  intros sp3.
  assert (R : billingQueueDb.getById (fst sp3) (bq_id it2)
              = Some (billingQueueDb.set_status BPaid it2)
              /\ feeHistory (fst sp3) = feeHistory (fst sp2)).
  { subst sp3. destruct sp2 as [s2 page2].
    pose proof (handleReopen_spec env now3 s2 page2 (Billing.details s2 it2) C2 C3) as R.
    cbn [Billing.details Billing.item] in R. tauto. }
  destruct R as (R1 & R4).
  eexists. split; [exact R1|]. split; [reflexivity|].
  rewrite R4, C4. split; [reflexivity|].
  rewrite length_app. simpl. lia.
Qed.

(** C9: Complete appends a fee-history record on every invocation, without
    looking for an earlier record of the visit; Reopen brings the completed
    item back to paid, where Complete is offered again, so that complete,
    reopen, complete on one billing item leaves two fee-history records of
    the same visit. *)
Theorem complete_reopen_complete_appends_twice (env : Env) (now1 now2 now3 : Z) :
  (forall sp d, exists h,
      feeHistory (fst (Billing.handleComplete env now1 sp d)) = feeHistory (fst sp) ++ [h]
      /\ fh_visitId h = bq_visitId (Billing.item d))
  /\ forall s page it,
      List.NoDup (map bq_id (billingQueue s)) ->
      In it (billingQueue s) ->
      let sp1 := Billing.handleComplete env now1 (s, page) (Billing.details s it) in
      exists it1 h1,
        billingQueueDb.getById (fst sp1) (bq_id it) = Some it1
        /\ bq_status it1 = BCompleted
        /\ Billing.offersReopen it1 = true
        /\ feeHistory (fst sp1) = feeHistory s ++ [h1]
        /\ let sp2 := Billing.handleReopen env now2 sp1 (Billing.details (fst sp1) it1) in
           exists it2,
             billingQueueDb.getById (fst sp2) (bq_id it) = Some it2
             /\ bq_status it2 = BPaid
             /\ Billing.offersComplete it2 = true
             /\ feeHistory (fst sp2) = feeHistory s ++ [h1]
             /\ let sp3 :=
                  Billing.handleComplete env now3 sp2 (Billing.details (fst sp2) it2) in
                exists h2,
                  feeHistory (fst sp3) = feeHistory s ++ [h1; h2]
                  /\ fh_visitId h1 = bq_visitId it
                  /\ fh_visitId h2 = bq_visitId it.
Proof.
  split.
  { intros sp d. eexists. split; [apply handleComplete_feeHistory|reflexivity]. }
  intros s page it Hnd Hin sp1.
  pose proof (handleComplete_spec env now1 s page (Billing.details s it) Hnd Hin) as C.
  pose proof (handleComplete_feeHistory env now1 (s, page) (Billing.details s it)) as C4.
  cbn [Billing.details Billing.item fst] in C, C4. fold sp1 in C, C4.
  destruct C as (C1 & C2 & C3).
  set (it1 := billingQueueDb.set_status BCompleted it) in *.
  eexists it1, _. split; [exact C1|]. split; [reflexivity|]. split; [reflexivity|].
  split; [exact C4|].
  intros sp2.
  assert (R : billingQueueDb.getById (fst sp2) (bq_id it1)
              = Some (billingQueueDb.set_status BPaid it1)
              /\ List.NoDup (map bq_id (billingQueue (fst sp2)))
              /\ In (billingQueueDb.set_status BPaid it1) (billingQueue (fst sp2))
              /\ feeHistory (fst sp2) = feeHistory (fst sp1)).
  { subst sp2. destruct sp1 as [s1 page1].
    exact (handleReopen_spec env now2 s1 page1 (Billing.details s1 it1) C2 C3). }
  destruct R as (R1 & R2 & R3 & R4).
  set (it2 := billingQueueDb.set_status BPaid it1) in *.
  exists it2. split; [exact R1|]. split; [reflexivity|]. split; [reflexivity|].
  rewrite C4 in R4. split; [exact R4|].
  intros sp3.
  pose proof (handleComplete_feeHistory env now3 sp2 (Billing.details (fst sp2) it2)) as D.
  fold sp3 in D. rewrite R4, <- app_assoc in D. cbn [Billing.details Billing.item app] in D.
  eexists. split; [exact D|]. split; reflexivity.
Qed.

(** ** The billing admission gate *)

Section Admission.
Import Billing.
Variable env : Env.
Variable now : Z.

Lemma find_sameVisit_None (v : string) (l : list BillingQueueItem) :
  JS.find (sameVisit v) l = None <-> ~ In v (map bq_visitId l).
Proof using Type.
  unfold JS.find, sameVisit. split.
  - intros H Hin. apply in_map_iff in Hin as [b [Hb Hin]].
    eapply List.find_none in H; [|exact Hin]. apply String.eqb_neq in H. congruence.
  - intros H. destruct (List.find _ l) as [b|] eqn:E; [|reflexivity].
    apply List.find_some in E as [Hb E]. apply String.eqb_eq in E.
    exfalso. apply H. rewrite <- E. now apply in_map.
Qed.

(** A visit that has a billing item, of whatever status, is not admitted
    again. *)
Lemma admitPrepared_existing (s : Store) (p : PharmacyQueueItem) :
  In (pq_visitId p) (map bq_visitId (billingQueue s)) -> admitPrepared env now s p = s.
Proof using Type.
  intros Hin. unfold admitPrepared, billingQueueDb.getAll.
  destruct (JS.find _ _) eqn:E; [reflexivity|].
  apply find_sameVisit_None in E. contradiction.
Qed.

Lemma admitPrepared_visitIds (s : Store) (p : PharmacyQueueItem) :
  map bq_visitId (billingQueue (admitPrepared env now s p))
  = match JS.find (sameVisit (pq_visitId p)) (billingQueue s) with
    | Some _ => map bq_visitId (billingQueue s)
    | None => map bq_visitId (billingQueue s) ++ [pq_visitId p]
    end.
Proof using Type.
  unfold admitPrepared, billingQueueDb.getAll.
  destruct (JS.find _ _) eqn:E; [reflexivity|].
  destruct (admissionFee env now s p) as [feeAmount feeType].
  cbn. now rewrite map_app.
Qed.

Lemma admitPrepared_NoDup (s : Store) (p : PharmacyQueueItem) :
  List.NoDup (map bq_visitId (billingQueue s)) ->
  List.NoDup (map bq_visitId (billingQueue (admitPrepared env now s p))).
Proof using Type.
  intros Hnd. rewrite admitPrepared_visitIds.
  destruct (JS.find _ _) eqn:E; [exact Hnd|].
  apply find_sameVisit_None in E.
  apply List.NoDup_app; [exact Hnd|repeat constructor; simpl; tauto|].
  intros x Hx [<-|[]]. contradiction.
Qed.

Lemma admitPrepared_grows (s : Store) (p : PharmacyQueueItem) (v : string) :
  In v (map bq_visitId (billingQueue s)) ->
  In v (map bq_visitId (billingQueue (admitPrepared env now s p))).
Proof using Type.
  intros Hin. rewrite admitPrepared_visitIds.
  destruct (JS.find _ _); [exact Hin|]. apply in_app_iff. now left.
Qed.

Lemma admitPrepared_covers (s : Store) (p : PharmacyQueueItem) :
  In (pq_visitId p) (map bq_visitId (billingQueue (admitPrepared env now s p))).
Proof using Type.
  rewrite admitPrepared_visitIds.
  destruct (JS.find _ _) eqn:E.
  - apply List.find_some in E as [Hb E]. apply String.eqb_eq in E.
    rewrite <- E. now apply in_map.
  - apply in_app_iff. right. now left.
Qed.

Lemma sweep_NoDup (items : list PharmacyQueueItem) :
  forall s, List.NoDup (map bq_visitId (billingQueue s)) ->
    List.NoDup (map bq_visitId (billingQueue (fold_left (admitPrepared env now) items s))).
Proof using Type.
  induction items as [|p items IH]; intros s Hnd; simpl; [exact Hnd|].
  apply IH. now apply admitPrepared_NoDup.
Qed.

Lemma sweep_grows (items : list PharmacyQueueItem) (v : string) :
  forall s, In v (map bq_visitId (billingQueue s)) ->
    In v (map bq_visitId (billingQueue (fold_left (admitPrepared env now) items s))).
Proof using Type.
  induction items as [|p items IH]; intros s Hin; simpl; [exact Hin|].
  apply IH. now apply admitPrepared_grows.
Qed.

Lemma sweep_covers (items : list PharmacyQueueItem) :
  forall s p, In p items ->
    In (pq_visitId p) (map bq_visitId (billingQueue (fold_left (admitPrepared env now) items s))).
Proof using Type.
  induction items as [|q items IH]; intros s p Hin; simpl; [contradiction|].
  destruct Hin as [->|Hin]; [|now apply IH].
  apply sweep_grows, admitPrepared_covers.
Qed.

Lemma sweep_covered (items : list PharmacyQueueItem) :
  forall s, (forall p, In p items -> In (pq_visitId p) (map bq_visitId (billingQueue s))) ->
    fold_left (admitPrepared env now) items s = s.
Proof using Type.
  induction items as [|q items IH]; intros s Hc; simpl; [reflexivity|].
  rewrite admitPrepared_existing by (apply Hc; now left).
  apply IH. intros p Hp. apply Hc. now right.
Qed.
End Admission.

Lemma update_lookup_other {A : Type} (key : A -> string) (id : string) (patch : A -> A)
      (l : list A) (i : nat) (x : A) :
  l !! i = Some x -> key x <> id -> Db.update key id patch l !! i = Some x.
Proof.
  revert i. induction l as [|y l IH]; intros i Hi Hne; simpl; [exact Hi|].
  destruct i as [|i]; simpl in Hi.
  - injection Hi as ->. apply String.eqb_neq in Hne. now rewrite Hne.
  - destruct (String.eqb (key y) id); [exact Hi|]. simpl. now apply IH.
Qed.

Section AdmissionMarks.
Import Billing.
Variable env : Env.
Variable now : Z.

Lemma admitPrepared_pharmacyQueue (s : Store) (p : PharmacyQueueItem) :
  pharmacyQueue (admitPrepared env now s p)
  = match JS.find (sameVisit (pq_visitId p)) (billingQueue s) with
    | Some _ => pharmacyQueue s
    | None => Db.update pq_id (pq_id p) (pharmacyQueueDb.set_status "billed") (pharmacyQueue s)
    end.
Proof using Type.
  unfold admitPrepared, billingQueueDb.getAll.
  destruct (JS.find _ _); [reflexivity|].
  now destruct (admissionFee env now s p).
Qed.

Lemma admitPrepared_pharmacy_ids (s : Store) (p : PharmacyQueueItem) :
  map pq_id (pharmacyQueue (admitPrepared env now s p)) = map pq_id (pharmacyQueue s).
Proof using Type.
  rewrite admitPrepared_pharmacyQueue. destruct (JS.find _ _); [reflexivity|].
  now apply update_map.
Qed.

(** A pharmacy item the sweep changed is billed. *)
Lemma sweep_pharmacy_In (items : list PharmacyQueueItem) :
  forall s q, In q (pharmacyQueue (fold_left (admitPrepared env now) items s)) ->
    In q (pharmacyQueue s) \/ pq_status q = "billed".
Proof using Type.
  induction items as [|p items IH]; intros s q Hq; simpl in Hq; [now left|].
  apply IH in Hq as [Hq|Hq]; [|now right].
  rewrite admitPrepared_pharmacyQueue in Hq.
  destruct (JS.find _ _); [now left|].
  apply update_In in Hq as [Hq|[y [_ [_ ->]]]]; [now left|now right].
Qed.

(** Turns for other ids leave the item at position [i] alone. *)
Lemma sweep_other_ids (i : nat) (x : PharmacyQueueItem) (items : list PharmacyQueueItem) :
  (forall q, In q items -> pq_id q <> pq_id x) ->
  forall s, pharmacyQueue s !! i = Some x ->
    pharmacyQueue (fold_left (admitPrepared env now) items s) !! i = Some x.
Proof using Type.
  induction items as [|q items IH]; intros Hne s Hi; simpl; [exact Hi|].
  apply IH; [intros q' Hq'; apply Hne; now right|].
  rewrite admitPrepared_pharmacyQueue. destruct (JS.find _ _); [exact Hi|].
  apply update_lookup_other; [exact Hi|]. intros Heq. apply (Hne q); [now left|auto].
Qed.

(** An item whose visit has a billing item keeps its place and its status. *)
Lemma sweep_leaves_covered (i : nat) (p : PharmacyQueueItem) (items : list PharmacyQueueItem) :
  (forall q, In q items -> pq_id q = pq_id p -> pq_visitId q = pq_visitId p) ->
  forall s, pharmacyQueue s !! i = Some p ->
    In (pq_visitId p) (map bq_visitId (billingQueue s)) ->
    pharmacyQueue (fold_left (admitPrepared env now) items s) !! i = Some p.
Proof using Type.
  induction items as [|q items IH]; intros Hsame s Hi Hc; simpl; [exact Hi|].
  apply IH; [intros q' Hq'; apply Hsame; now right| |now apply admitPrepared_grows].
  rewrite admitPrepared_pharmacyQueue. destruct (JS.find _ _) eqn:E; [exact Hi|].
  apply find_sameVisit_None in E.
  apply update_lookup_other; [exact Hi|]. intros Heq. apply E.
  rewrite (Hsame q); [exact Hc|now left|auto].
Qed.

(** The item that is admitted is marked billed at its place. *)
Lemma sweep_bills (i : nat) (p : PharmacyQueueItem) (items : list PharmacyQueueItem) :
  List.NoDup (map pq_id items) ->
  In p items ->
  (forall q, In q items -> q <> p -> pq_visitId q <> pq_visitId p) ->
  forall s, List.NoDup (map pq_id (pharmacyQueue s)) ->
    pharmacyQueue s !! i = Some p ->
    ~ In (pq_visitId p) (map bq_visitId (billingQueue s)) ->
    pharmacyQueue (fold_left (admitPrepared env now) items s) !! i
    = Some (pharmacyQueueDb.set_status "billed" p).
Proof using Type.
  induction items as [|q items IH]; intros Hnd Hin Hv s Hs Hi Hc; [contradiction|].
  simpl in Hnd. apply List.NoDup_cons_iff in Hnd as [Hq Hnd]. simpl.
  destruct Hin as [->|Hin].
  - apply sweep_other_ids.
    + intros q' Hq' Heq. apply Hq. cbn in Heq. rewrite <- Heq. now apply in_map.
    + rewrite admitPrepared_pharmacyQueue.
      apply find_sameVisit_None in Hc. rewrite Hc.
      rewrite update_NoDup by assumption.
      change (map ?f ?l) with (f <$> l). rewrite list_lookup_fmap, Hi. cbn.
      now rewrite String.eqb_refl.
  - assert (Hid : pq_id q <> pq_id p).
    { intros Heq. apply Hq. rewrite Heq. now apply in_map. }
    assert (Hne : q <> p) by congruence.
    apply IH; [assumption|assumption|intros q' Hq'; apply Hv; now right| | |].
    + now rewrite admitPrepared_pharmacy_ids.
    + rewrite admitPrepared_pharmacyQueue. destruct (JS.find _ _); [exact Hi|].
      apply update_lookup_other; [exact Hi|]. congruence.
    + rewrite admitPrepared_visitIds. destruct (JS.find _ _); [exact Hc|].
      rewrite in_app_iff. intros [H|[H|[]]]; [contradiction|].
      apply (Hv q); [now left|exact Hne|exact H].
Qed.
End AdmissionMarks.

(** ** Inline admission in [handleMarkPrepared] *)

Section InlineAdmission.
Variable env : Env.
Variable now : Z.

Lemma update_status_billingQueue (s : Store) (id st : string) :
  billingQueue (appointmentDb.update_status s id st) = billingQueue s.
Proof using Type. reflexivity. Qed.

Lemma handleMarkPrepared_visitIds (s : Store) (page : Pharmacy.Page) (id : string) :
  map bq_visitId (billingQueue (fst (Pharmacy.handleMarkPrepared env now (s, page) id)))
  = match pharmacyQueueDb.getById s id with
    | Some p =>
        match JS.find (Billing.sameVisit (pq_visitId p)) (billingQueue s) with
        | Some _ => map bq_visitId (billingQueue s)
        | None => map bq_visitId (billingQueue s) ++ [pq_visitId p]
        end
    | None => map bq_visitId (billingQueue s)
    end.
Proof using Type.
  unfold Pharmacy.handleMarkPrepared. rewrite loadQueue_store. cbn [fst].
  destruct (pharmacyQueueDb.getById s id) as [p|]; [|reflexivity].
  destruct (JS.find (Pharmacy.isRelevantAppointment now) _) as [apt|];
    unfold billingQueueDb.getAll; cbn [billingQueue appointmentDb.update_status
      with_appointments pharmacyQueueDb.markPrepared with_pharmacyQueue];
    change (fun b : BillingQueueItem => String.eqb (bq_visitId b) (pq_visitId p))
      with (Billing.sameVisit (pq_visitId p));
    (destruct (JS.find (Billing.sameVisit (pq_visitId p)) (billingQueue s));
     [reflexivity|]);
    destruct (Pharmacy.inlineFee _ _) as [feeAmount feeType]; cbn; now rewrite map_app.
Qed.

(** With a billing item for the visit, of whatever status, marking prepared
    creates none. *)
Lemma handleMarkPrepared_existing (s : Store) (page : Pharmacy.Page) (id : string)
      (p : PharmacyQueueItem) :
  pharmacyQueueDb.getById s id = Some p ->
  In (pq_visitId p) (map bq_visitId (billingQueue s)) ->
  billingQueue (fst (Pharmacy.handleMarkPrepared env now (s, page) id)) = billingQueue s.
Proof using Type.
  intros Hp Hin.
  unfold Pharmacy.handleMarkPrepared. rewrite loadQueue_store. cbn [fst]. rewrite Hp.
  destruct (JS.find (Billing.sameVisit (pq_visitId p)) (billingQueue s)) as [b|] eqn:E;
    [|apply find_sameVisit_None in E; contradiction].
  destruct (JS.find (Pharmacy.isRelevantAppointment now) _) as [apt|];
    unfold billingQueueDb.getAll; cbn [billingQueue appointmentDb.update_status
      with_appointments pharmacyQueueDb.markPrepared with_pharmacyQueue];
    change (fun b : BillingQueueItem => String.eqb (bq_visitId b) (pq_visitId p))
      with (Billing.sameVisit (pq_visitId p));
    now rewrite E.
Qed.

Lemma handleMarkPrepared_NoDup (s : Store) (page : Pharmacy.Page) (id : string) :
  List.NoDup (map bq_visitId (billingQueue s)) ->
  List.NoDup (map bq_visitId
                (billingQueue (fst (Pharmacy.handleMarkPrepared env now (s, page) id)))).
Proof using Type.
  intros Hnd. rewrite handleMarkPrepared_visitIds.
  destruct (pharmacyQueueDb.getById s id) as [p|]; [|exact Hnd].
  destruct (JS.find _ _) eqn:E; [exact Hnd|].
  apply find_sameVisit_None in E.
  apply List.NoDup_app; [exact Hnd|repeat constructor; simpl; tauto|].
  intros x Hx [<-|[]]. contradiction.
Qed.

(** The inline path leaves the item prepared: nothing in it writes
    [billed]. *)
Lemma handleMarkPrepared_status (s : Store) (page : Pharmacy.Page) (id : string)
      (p : PharmacyQueueItem) :
  pharmacyQueueDb.getById s id = Some p ->
  exists p',
    pharmacyQueueDb.getById (fst (Pharmacy.handleMarkPrepared env now (s, page) id)) id
    = Some p'
    /\ pq_status p' = "prepared" /\ pq_preparedBy p' = Some "pharmacy"
    /\ pq_id p' = pq_id p /\ pq_visitId p' = pq_visitId p.
Proof using Type.
  intros Hp.
  unfold Pharmacy.handleMarkPrepared. rewrite loadQueue_store. cbn [fst]. rewrite Hp.
  eexists. split.
  - unfold pharmacyQueueDb.getById.
    destruct (JS.find (Pharmacy.isRelevantAppointment now) _) as [apt|];
      (destruct (JS.find _ (billingQueueDb.getAll _));
       [|destruct (Pharmacy.inlineFee _ _) as [feeAmount feeType]]);
      cbn [pharmacyQueue appointmentDb.update_status with_appointments
           pharmacyQueueDb.markPrepared with_pharmacyQueue billingQueueDb.create];
      (rewrite getById_update_same by reflexivity);
      unfold pharmacyQueueDb.getById in Hp; rewrite Hp; reflexivity.
  - cbn. auto.
Qed.
End InlineAdmission.

(** After a sweep every prepared pharmacy item has a billing item for its
    visit, so that the next sweep admits nothing. *)
Lemma checkPharmacyQueue_settled (env : Env) (now now' : Z) (s : Store) (page : Billing.Page) :
  let s1 := fst (Billing.checkPharmacyQueue env now (s, page)) in
  fold_left (Billing.admitPrepared env now')
            (List.filter Billing.isPrepared (pharmacyQueue s1)) s1 = s1.
Proof.
  intros s1. apply sweep_covered. intros p Hp.
  apply List.filter_In in Hp as [Hp Hprep].
  subst s1. unfold Billing.checkPharmacyQueue, pharmacyQueueDb.getAll in *.
  rewrite loadQueue_visitIds.
  destruct (loadQueue_frame env now
              (fold_left (Billing.admitPrepared env now)
                 (List.filter Billing.isPrepared (pharmacyQueue s)) s) page)
    as (_ & Hq & _).
  rewrite Hq in Hp. apply sweep_pharmacy_In in Hp as [Hp|Hb].
  - apply sweep_covers. apply List.filter_In. auto.
  - unfold Billing.isPrepared in Hprep. rewrite Hb in Hprep. discriminate.
Qed.

(** C1: both admission paths create a billing item only when no billing item
    carries the visit id, whatever the status of an existing one; hence "at
    most one billing item per visit" is kept by the sweep and by the inline
    admission of markPrepared, and a second sweep right after a first one
    adds no billing item. *)
Theorem one_billing_item_per_visit (env : Env) (now now' : Z) :
  (forall s p b,
      In b (billingQueue s) -> bq_visitId b = pq_visitId p ->
      Billing.admitPrepared env now s p = s)
  /\ (forall s page id p b,
        pharmacyQueueDb.getById s id = Some p ->
        In b (billingQueue s) -> bq_visitId b = pq_visitId p ->
        billingQueue (fst (Pharmacy.handleMarkPrepared env now (s, page) id))
        = billingQueue s)
  /\ (forall s page,
        List.NoDup (map bq_visitId (billingQueue s)) ->
        List.NoDup (map bq_visitId
                      (billingQueue (fst (Billing.checkPharmacyQueue env now (s, page))))))
  /\ (forall s page id,
        List.NoDup (map bq_visitId (billingQueue s)) ->
        List.NoDup (map bq_visitId
                      (billingQueue (fst (Pharmacy.handleMarkPrepared env now (s, page) id)))))
  /\ (forall s page,
        let sp1 := Billing.checkPharmacyQueue env now (s, page) in
        let sp2 := Billing.checkPharmacyQueue env now' sp1 in
        map bq_id (billingQueue (fst sp2)) = map bq_id (billingQueue (fst sp1))
        /\ map bq_visitId (billingQueue (fst sp2)) = map bq_visitId (billingQueue (fst sp1))
        /\ length (billingQueue (fst sp2)) = length (billingQueue (fst sp1))).
Proof.
  split; [|split; [|split; [|split]]].
  - intros s p b Hb Hv. apply admitPrepared_existing. rewrite <- Hv. now apply in_map.
  - intros s page id p b Hp Hb Hv. eapply handleMarkPrepared_existing; [exact Hp|].
    rewrite <- Hv. now apply in_map.
  - intros s page Hnd. unfold Billing.checkPharmacyQueue.
    rewrite loadQueue_visitIds. now apply sweep_NoDup.
  - intros s page id Hnd. now apply handleMarkPrepared_NoDup.
  - intros s page sp1 sp2.
    pose proof (checkPharmacyQueue_settled env now now' s page) as Hset.
    fold sp1 in Hset. cbv zeta in Hset.
    assert (Hids : map bq_id (billingQueue (fst sp2)) = map bq_id (billingQueue (fst sp1))
                   /\ map bq_visitId (billingQueue (fst sp2))
                      = map bq_visitId (billingQueue (fst sp1))).
    { subst sp2. destruct sp1 as [s1 page1]. cbn [fst] in Hset |- *.
      unfold Billing.checkPharmacyQueue at 1 2. unfold pharmacyQueueDb.getAll.
      rewrite Hset. split; [apply loadQueue_ids|apply loadQueue_visitIds]. }
    destruct Hids as [Hids Hv]. split; [exact Hids|]. split; [exact Hv|].
    rewrite <- (length_map bq_id (billingQueue (fst sp2))), Hids. apply length_map.
Qed.

(** ** Calendar days, in words *)

Lemma isTodayAppointment_iff (env : Env) (now : Z) (apt : Appointment) :
  Billing.isTodayAppointment env now apt = true
  <-> toDateString env (apt_appointmentDate apt) = toDateString env now.
Proof.
  unfold Billing.isTodayAppointment, endOfDay, startOfDay, toDateString, msPerDay.
  rewrite andb_true_iff, !Z.leb_le.
  set (a := apt_appointmentDate apt + tzOffset env).
  set (d := (now + tzOffset env) / 86400000).
  split.
  - intros [H1 H2]. symmetry. apply (Z.div_unique a 86400000 d (a - d * 86400000)); lia.
  - intros H. pose proof (Z.div_mod a 86400000 ltac:(lia)) as Hdm.
    pose proof (Z.mod_pos_bound a 86400000 ltac:(lia)) as Hb.
    rewrite H in Hdm. fold d in Hdm. subst a. lia.
Qed.

(** ** Fee resolution at admission *)

Lemma admitPrepared_creates (env : Env) (now : Z) (s : Store) (p : PharmacyQueueItem) :
  ~ In (pq_visitId p) (map bq_visitId (billingQueue s)) ->
  exists b,
    billingQueue (Billing.admitPrepared env now s p) = billingQueue s ++ [b]
    /\ (bq_feeAmount b, bq_feeType b) = Billing.admissionFee env now s p
    /\ bq_netAmount b = bq_feeAmount b
    /\ bq_status b = BPending /\ bq_paymentStatus b = "pending"
    /\ bq_visitId b = pq_visitId p
    /\ bq_appointmentId b = pq_appointmentId p
    /\ bq_prescriptionIds b = pq_prescriptionIds p.
Proof.
  intros Hout. apply find_sameVisit_None in Hout.
  unfold Billing.admitPrepared, billingQueueDb.getAll. rewrite Hout.
  destruct (Billing.admissionFee env now s p) as [feeAmount feeType].
  eexists. cbn. split; [reflexivity|]. cbn. auto 10.
Qed.

Lemma handleMarkPrepared_creates (env : Env) (now : Z) (s : Store) (page : Pharmacy.Page)
      (id : string) (p : PharmacyQueueItem) :
  pharmacyQueueDb.getById s id = Some p ->
  ~ In (pq_visitId p) (map bq_visitId (billingQueue s)) ->
  exists b,
    billingQueue (fst (Pharmacy.handleMarkPrepared env now (s, page) id))
    = billingQueue s ++ [b]
    /\ (bq_feeAmount b, bq_feeType b)
       = Pharmacy.inlineFee
           (JS.find (Pharmacy.isRelevantAppointment now)
                    (appointmentDb.getByPatient s (pq_patientId p)))
           (doctorVisitDb.getById s (pq_visitId p))
    /\ bq_netAmount b = bq_feeAmount b
    /\ bq_status b = BPending /\ bq_paymentStatus b = "pending"
    /\ bq_visitId b = pq_visitId p.
Proof.
  intros Hp Hout. apply find_sameVisit_None in Hout.
  unfold Pharmacy.handleMarkPrepared. rewrite loadQueue_store. cbn [fst]. rewrite Hp.
  change (appointmentDb.getByPatient (pharmacyQueueDb.markPrepared s id "pharmacy"))
    with (appointmentDb.getByPatient s).
  destruct (JS.find (Pharmacy.isRelevantAppointment now) _) as [apt|];
    unfold billingQueueDb.getAll; cbn [billingQueue appointmentDb.update_status
      with_appointments pharmacyQueueDb.markPrepared with_pharmacyQueue];
    change (fun b : BillingQueueItem => String.eqb (bq_visitId b) (pq_visitId p))
      with (Billing.sameVisit (pq_visitId p));
    rewrite Hout;
    match goal with |- context [Pharmacy.inlineFee ?a ?v] =>
      change v with (doctorVisitDb.getById s (pq_visitId p));
      destruct (Pharmacy.inlineFee a (doctorVisitDb.getById s (pq_visitId p)))
        as [feeAmount feeType]
    end;
    eexists; cbn; (split; [reflexivity|]); cbn; auto 10.
Qed.

(** C3 (as stated) fails: a prepared pharmacy item whose visit already has a
    billing item is still prepared after the sweep, and after markPrepared
    with its inline admission the item is prepared, not billed. *)
Lemma billed_marker_counterexample :
  (let sp := Billing.checkPharmacyQueue Example.env Example.today
               (Example.clinic "prepared" [Example.b1 BCompleted], Example.billingPage) in
   map pq_status (pharmacyQueue (fst sp)) = ["prepared"]
   /\ map bq_visitId (billingQueue (fst sp)) = ["v1"])
  /\ (let sp := Pharmacy.handleMarkPrepared Example.env Example.today
                  (Example.clinic "preparing" [], Pharmacy.initialPage) "q1" in
      map pq_status (pharmacyQueue (fst sp)) = ["prepared"]
      /\ map bq_visitId (billingQueue (fst sp)) = ["v1"]).
Proof. vm_compute. repeat split; reflexivity. Qed.

(** C3 (amended): the sweep marks a prepared pharmacy item billed when it
    creates the billing item for it, that is when no billing item carries its
    visit id (and no other prepared item shares the visit); a prepared item
    whose visit already has a billing item keeps the status prepared; and
    markPrepared, which admits inline, leaves the item prepared and never
    writes billed. *)
Theorem billed_marks_admission (env : Env) (now : Z) (s : Store) (page : Billing.Page)
    (i : nat) (p : PharmacyQueueItem) :
  List.NoDup (map pq_id (pharmacyQueue s)) ->
  pharmacyQueue s !! i = Some p ->
  pq_status p = "prepared" ->
  let s' := fst (Billing.checkPharmacyQueue env now (s, page)) in
  (~ In (pq_visitId p) (map bq_visitId (billingQueue s)) ->
   (forall q, In q (pharmacyQueue s) -> pq_status q = "prepared" ->
              pq_visitId q = pq_visitId p -> q = p) ->
   pharmacyQueue s' !! i = Some (pharmacyQueueDb.set_status "billed" p)
   /\ In (pq_visitId p) (map bq_visitId (billingQueue s')))
  /\ (In (pq_visitId p) (map bq_visitId (billingQueue s)) ->
      pharmacyQueue s' !! i = Some p)
  /\ (forall pharmacyPage id q,
        pharmacyQueueDb.getById s id = Some q ->
        exists q',
          pharmacyQueueDb.getById
            (fst (Pharmacy.handleMarkPrepared env now (s, pharmacyPage) id)) id = Some q'
          /\ pq_status q' = "prepared").
Proof.
  intros Hnd Hi Hst s'. subst s'.
  assert (Hin : In p (pharmacyQueue s)).
  { apply list_elem_of_In. eapply list_elem_of_lookup_2. exact Hi. }
  assert (Hprep : In p (List.filter Billing.isPrepared (pharmacyQueue s))).
  { apply List.filter_In. split; [exact Hin|].
    unfold Billing.isPrepared. now rewrite Hst. }
  unfold Billing.checkPharmacyQueue, pharmacyQueueDb.getAll.
  match goal with |- context [Billing.loadQueue env now (?s1, page)] =>
    destruct (loadQueue_frame env now s1 page) as (_ & Hq & _)
  end.
  rewrite Hq, loadQueue_visitIds.
  split; [|split].
  - intros Hout Huniq. split; [|now apply sweep_covers].
    apply sweep_bills; try assumption.
    + now apply NoDup_map_filter.
    + intros q Hq' Hne Hv. apply Hne.
      apply List.filter_In in Hq' as [Hq' Hs]. apply Huniq; [exact Hq'| |exact Hv].
      now apply String.eqb_eq.
  - intros Hc. apply sweep_leaves_covered; try assumption.
    intros q Hq' Hid. apply List.filter_In in Hq' as [Hq' _].
    now rewrite (NoDup_map_eq pq_id _ q p Hnd Hq' Hin Hid).
  - intros ppage id q Hg.
    destruct (handleMarkPrepared_status env now s ppage id q Hg) as (q' & H1 & H2 & _).
    exists q'. auto.
Qed.

(** C6: the active listing holds exactly the pharmacy items in status
    pending or preparing, and the prepared listing exactly those in status
    prepared; in either listing an item with priority stands before every
    item without, whatever their creation times, and of two items of equal
    priority the one created earlier stands first. *)
Theorem pharmacy_listing_order (s : Store) (page : Pharmacy.Page) :
  let page' := snd (Pharmacy.loadQueue (s, page)) in
  let active := map Pharmacy.item (Pharmacy.queueItems page') in
  let prepared := map Pharmacy.item (Pharmacy.preparedItems page') in
  Permutation active (List.filter Pharmacy.isActive (pharmacyQueue s))
  /\ (forall p, In p active
                <-> In p (pharmacyQueue s)
                    /\ (pq_status p = "pending" \/ pq_status p = "preparing"))
  /\ Permutation prepared (List.filter Pharmacy.isPrepared (pharmacyQueue s))
  /\ (forall p, In p prepared <-> In p (pharmacyQueue s) /\ pq_status p = "prepared")
  /\ (forall l i j a b,
        l = active \/ l = prepared ->
        l !! i = Some a -> l !! j = Some b ->
        (pq_priority a = true /\ pq_priority b = false)
        \/ (pq_priority a = pq_priority b /\ pq_createdAt a < pq_createdAt b) ->
        (i < j)%nat).
Proof.
  cbv zeta. rewrite loadQueue_queueItems, loadQueue_preparedItems.
  split; [apply sortItems_Permutation|]. split.
  { intros p. split.
    - intros H. eapply Permutation_in in H; [|apply sortItems_Permutation].
      apply List.filter_In in H as [H1 H2]. split; [exact H1|].
      unfold Pharmacy.isActive in H2. apply orb_true_iff in H2.
      now rewrite !String.eqb_eq in H2.
    - intros [H1 H2]. eapply Permutation_in; [symmetry; apply sortItems_Permutation|].
      apply List.filter_In. split; [exact H1|].
      unfold Pharmacy.isActive. apply orb_true_iff. now rewrite !String.eqb_eq. }
  split; [apply sortItems_Permutation|]. split.
  { intros p. split.
    - intros H. eapply Permutation_in in H; [|apply sortItems_Permutation].
      apply List.filter_In in H as [H1 H2]. split; [exact H1|].
      now apply String.eqb_eq.
    - intros [H1 H2]. eapply Permutation_in; [symmetry; apply sortItems_Permutation|].
      apply List.filter_In. split; [exact H1|]. now apply String.eqb_eq. }
  intros l i j a b [->| ->] Hi Hj Hab; eapply sortItems_position; eassumption.
Qed.

Lemma pharmacy_listing_order_witness :
  let page' := snd (Pharmacy.loadQueue (Example.pharmacy_three, Pharmacy.initialPage)) in
  map Pharmacy.item (Pharmacy.queueItems page') = [Example.q2; Example.q1 "pending"]
  /\ map Pharmacy.item (Pharmacy.preparedItems page') = [Example.q3]
  /\ (0 < 1)%nat.
Proof.
  split; [vm_compute; reflexivity|]. split; [vm_compute; reflexivity|].
  refine (proj2 (proj2 (proj2 (proj2
            (pharmacy_listing_order Example.pharmacy_three Pharmacy.initialPage))))
            _ 0%nat 1%nat Example.q2 (Example.q1 "pending") (or_introl eq_refl) _ _
            (or_introl (conj eq_refl eq_refl))); vm_compute; reflexivity.
Defined.

(** ** The watermark after a refresh *)

Lemma observe_lookup (s : Store) (items : list PharmacyQueueItem) (it : PharmacyQueueItem) :
  List.NoDup (map pq_id items) -> In it items ->
  forall prev, observe s prev items !! pq_id it = Some (Pharmacy.currentPrescriptionIds s it).
Proof.
  induction items as [|x items IH]; intros Hnd Hin prev; [contradiction|].
  simpl in Hnd. apply List.NoDup_cons_iff in Hnd as [Hx Hnd].
  unfold observe. simpl. fold (observe s (<[pq_id x:=Pharmacy.currentPrescriptionIds s x]> prev) items).
  destruct Hin as [->|Hin]; [|now apply IH].
  rewrite observe_other by exact Hx. apply lookup_insert_eq.
Qed.

Lemma loadQueue_watermark (s : Store) (page : Pharmacy.Page) (d : Pharmacy.PharmacyQueueItemWithDetails) :
  List.NoDup (map pq_id (pharmacyQueue s)) ->
  let page' := snd (Pharmacy.loadQueue (s, page)) in
  In d (Pharmacy.queueItems page' ++ Pharmacy.preparedItems page') ->
  Pharmacy.hasUpdates d = flagged s (Pharmacy.previousPrescriptionIds page) (Pharmacy.item d)
  /\ Pharmacy.previousPrescriptionIds page' !! pq_id (Pharmacy.item d)
     = Some (Pharmacy.currentPrescriptionIds s (Pharmacy.item d)).
Proof.
  intros Hnd page' Hin. subst page'.
  destruct (loadQueue_views s page Hnd) as (Ha & Hp & Hw).
  destruct (filter_ids_disjoint _ Hnd) as (_ & _ & Hdis).
  rewrite Ha, Hp in Hin. rewrite Hw. clear Ha Hp Hw.
  apply in_app_iff in Hin as [Hin|Hin]; apply in_map_iff in Hin as [it [<- Hit]];
    cbn [view Pharmacy.hasUpdates Pharmacy.item]; (split; [reflexivity|]).
  - rewrite observe_other.
    + apply observe_lookup; [now apply sortItems_ids_NoDup|exact Hit].
    + intros Hin'. apply in_map_iff in Hin' as [b [Hb Hin']].
      eapply Permutation_in in Hin'; [|apply sortItems_Permutation].
      eapply Permutation_in in Hit; [|apply sortItems_Permutation].
      eapply Hdis; [exact Hit|exact Hin'|now symmetry].
  - apply observe_lookup; [now apply sortItems_ids_NoDup|exact Hit].
Qed.

(** C7: on a refresh an item is flagged exactly when a watermark for it
    existed and differs from the current concatenation of its prescription
    ids, a first observation never flags, and the refresh stores the current
    concatenation as the new watermark. The notification, however, is gated
    by [lastUpdateTime > 0], which no handler of the page ever sets: from
    mount on no notification is raised, as in the run where the doctor adds a
    prescription between two polls and the item is flagged. *)
Theorem refresh_flags_but_never_notifies :
  (forall s page d,
      List.NoDup (map pq_id (pharmacyQueue s)) ->
      let page' := snd (Pharmacy.loadQueue (s, page)) in
      In d (Pharmacy.queueItems page' ++ Pharmacy.preparedItems page') ->
      (Pharmacy.hasUpdates d = true
       <-> exists w, Pharmacy.previousPrescriptionIds page !! pq_id (Pharmacy.item d) = Some w
                     /\ w <> Pharmacy.currentPrescriptionIds s (Pharmacy.item d))
      /\ (Pharmacy.previousPrescriptionIds page !! pq_id (Pharmacy.item d) = None ->
          Pharmacy.hasUpdates d = false)
      /\ Pharmacy.previousPrescriptionIds page' !! pq_id (Pharmacy.item d)
         = Some (Pharmacy.currentPrescriptionIds s (Pharmacy.item d)))
  /\ (forall env actions s0,
        let sp := fold_left (fun sp a => Pharmacy.run env a sp) actions
                            (s0, Pharmacy.initialPage) in
        Pharmacy.lastUpdateTime (snd sp) = 0 /\ Pharmacy.notification (snd sp) = None)
  /\ (let sp := fold_left (fun sp a => Pharmacy.run Example.env a sp)
                          [Pharmacy.Poll; Pharmacy.Elsewhere Example.clinic_edited;
                           Pharmacy.Poll]
                          (Example.clinic "pending" [], Pharmacy.initialPage) in
      map Pharmacy.hasUpdates (Pharmacy.queueItems (snd sp)) = [true]
      /\ Pharmacy.notification (snd sp) = None).
Proof.
  split; [|split].
  - intros s page d Hnd page' Hin.
    destruct (loadQueue_watermark s page d Hnd Hin) as [Hf Hw].
    split; [rewrite Hf; apply flagged_iff|]. split; [|exact Hw].
    intros Hnone. rewrite Hf. unfold flagged. now rewrite Hnone.
  - intros env actions s0. now apply runs_quiet.
  - vm_compute. split; reflexivity.
Qed.

Lemma refresh_flags_but_never_notifies_witness :
  let s := Example.clinic_edited in
  let page := snd (Pharmacy.loadQueue (Example.clinic "pending" [], Pharmacy.initialPage)) in
  let page' := snd (Pharmacy.loadQueue (s, page)) in
  map Pharmacy.hasUpdates (Pharmacy.queueItems page') = [true]
  /\ Pharmacy.previousPrescriptionIds page' !! "q1" = Some "rx1,rx2".
Proof.
  split; [vm_compute; reflexivity|].
  refine (proj2 (proj2 (proj1 refresh_flags_but_never_notifies
                          Example.clinic_edited
                          (snd (Pharmacy.loadQueue (Example.clinic "pending" [],
                                                    Pharmacy.initialPage)))
                          (view Example.clinic_edited
                                (Pharmacy.previousPrescriptionIds
                                   (snd (Pharmacy.loadQueue (Example.clinic "pending" [],
                                                             Pharmacy.initialPage))))
                                (Example.q1 "pending"))
                          _ _))).
  - vm_compute. repeat constructor. intros H. inversion H.
  - vm_compute. now left.
Defined.

(** ** The theorems at work on the small clinic *)

Lemma one_billing_item_per_visit_witness :
  Billing.admitPrepared Example.env Example.today
    (Example.clinic "prepared" [Example.b1 BCompleted]) (Example.q1 "prepared")
  = Example.clinic "prepared" [Example.b1 BCompleted].
Proof.
  exact (proj1 (one_billing_item_per_visit Example.env Example.today Example.today)
               (Example.clinic "prepared" [Example.b1 BCompleted]) (Example.q1 "prepared")
               (Example.b1 BCompleted) (or_introl eq_refl) eq_refl).
Defined.

Lemma billed_marks_admission_witness :
  pharmacyQueue
    (fst (Billing.checkPharmacyQueue Example.env Example.today
            (Example.clinic "prepared" [], Example.billingPage))) !! 0%nat
  = Some (Example.q1 "billed").
Proof.
  refine (proj1 (proj1 (billed_marks_admission Example.env Example.today
                          (Example.clinic "prepared" []) Example.billingPage
                          0%nat (Example.q1 "prepared") _ eq_refl eq_refl) _ _)).
  - repeat constructor. intros H. inversion H.
  - intros H. inversion H.
  - intros q [<-|[]] _ _. reflexivity.
Defined.

Lemma billing_status_machine_scenario_witness :
  exists it1,
    billingQueueDb.getById
      (fst (Billing.handleGenerateReceipt Example.env Example.today
              (Example.clinic "billed" [Example.b1 BPending], Example.billingPage)
              (Billing.details (Example.clinic "billed" [Example.b1 BPending])
                               (Example.b1 BPending))))
      "b1" = Some it1
    /\ bq_status it1 = BPaid.
Proof.
  destruct (billing_status_machine_scenario Example.env Example.today Example.today
              Example.today (Example.clinic "billed" [Example.b1 BPending])
              Example.billingPage (Example.b1 BPending))
    as (it1 & r & H1 & H2 & _).
  - repeat constructor. intros H. inversion H.
  - now left.
  - reflexivity.
  - reflexivity.
  - exists it1. split; assumption.
Defined.

Lemma complete_reopen_complete_witness :
  exists h1 h2,
    feeHistory
      (fst (Billing.handleComplete Example.env Example.today
              (Billing.handleReopen Example.env Example.today
                 (Billing.handleComplete Example.env Example.today
                    (Example.clinic "billed" [Example.b1 BPaid], Example.billingPage)
                    (Billing.details (Example.clinic "billed" [Example.b1 BPaid])
                                     (Example.b1 BPaid)))
                 (Billing.details (Example.clinic "billed" [Example.b1 BPaid])
                                  (Example.b1 BCompleted)))
              (Billing.details (Example.clinic "billed" [Example.b1 BPaid])
                               (Example.b1 BPaid))))
    = [h1; h2]
    /\ fh_visitId h1 = "v1" /\ fh_visitId h2 = "v1".
Proof.
  destruct (proj2 (complete_reopen_complete_appends_twice Example.env Example.today
                     Example.today Example.today)
                  (Example.clinic "billed" [Example.b1 BPaid]) Example.billingPage
                  (Example.b1 BPaid)
                  ltac:(repeat constructor; intros H; inversion H) (or_introl eq_refl))
    as (it1 & h1 & H1 & _ & _ & _ & it2 & H2 & _ & _ & _ & h2 & H3 & H4 & H5).
  vm_compute in H1. injection H1 as <-.
  vm_compute in H2. injection H2 as <-.
  exists h1, h2. split; [exact H3|]. split; assumption.
Defined.

Lemma loader_confined_to_selected_day_witness :
  billingQueue
    (fst (Billing.loadQueue Example.env Example.today
            (Example.clinic_fee "billed" [Example.b1 BPending; Example.b0 BPending],
             Example.billingPage)))
    !! 1%nat = Some (Example.b0 BPending).
Proof.
  refine (proj1 (proj1 (proj2 (proj2 (proj2
            (loader_confined_to_selected_day Example.env Example.today
               (Example.clinic_fee "billed" [Example.b1 BPending; Example.b0 BPending])
               Example.billingPage _))))
            1%nat (Example.b0 BPending) eq_refl _)).
  - repeat constructor; simpl; intros H; intuition discriminate.
  - vm_compute. discriminate.
Defined.

(** * Further properties of the two pages *)

(** ** What a sweep adds *)

Lemma sweep_appends (env : Env) (now : Z) (items : list PharmacyQueueItem) :
  forall s, exists added,
    map bq_visitId (billingQueue (fold_left (Billing.admitPrepared env now) items s))
    = map bq_visitId (billingQueue s) ++ added
    /\ List.NoDup added
    /\ forall v, In v added ->
         ~ In v (map bq_visitId (billingQueue s)) /\ In v (map pq_visitId items).
Proof.
  induction items as [|p items IH]; intros s; simpl.
  - exists []. rewrite app_nil_r. split; [reflexivity|]. split; [constructor|contradiction].
  - destruct (IH (Billing.admitPrepared env now s p)) as (added & Heq & Hnd & Hadd).
    rewrite Heq, admitPrepared_visitIds.
    rewrite admitPrepared_visitIds in Hadd.
    destruct (JS.find _ _) eqn:E.
    + exists added. split; [reflexivity|]. split; [exact Hnd|]. intros v Hv.
      destruct (Hadd v Hv) as [H1 H2]. auto.
    + exists (pq_visitId p :: added). rewrite <- app_assoc. split; [reflexivity|].
      apply find_sameVisit_None in E. split.
      * constructor; [|exact Hnd]. intros Hin. destruct (Hadd _ Hin) as [H1 _].
        apply H1. apply in_app_iff. right. now left.
      * intros v [<-|Hv]; [auto|].
        destruct (Hadd v Hv) as [H1 H2]. split; [|auto].
        intros Hin. apply H1. apply in_app_iff. now left.
Qed.

(** X1: after a sweep every pharmacy item that was prepared, and every one
    that still is, has a billing item for its visit; the sweep only appends
    to the billing queue, one item per visit that had none, each for a visit
    of a prepared pharmacy item; and it neither adds nor removes pharmacy
    items. *)
Theorem sweep_admits_every_prepared_item (env : Env) (now : Z) (s : Store)
    (page : Billing.Page) :
  let s' := fst (Billing.checkPharmacyQueue env now (s, page)) in
  (forall p, In p (pharmacyQueue s) -> pq_status p = "prepared" ->
             In (pq_visitId p) (map bq_visitId (billingQueue s')))
  /\ (forall p, In p (pharmacyQueue s') -> pq_status p = "prepared" ->
                In (pq_visitId p) (map bq_visitId (billingQueue s')))
  /\ (exists added,
        map bq_visitId (billingQueue s') = map bq_visitId (billingQueue s) ++ added
        /\ List.NoDup added
        /\ forall v, In v added ->
             ~ In v (map bq_visitId (billingQueue s))
             /\ exists p, In p (pharmacyQueue s) /\ pq_status p = "prepared"
                          /\ pq_visitId p = v)
  /\ map pq_id (pharmacyQueue s') = map pq_id (pharmacyQueue s).
Proof.
  cbv zeta. unfold Billing.checkPharmacyQueue, pharmacyQueueDb.getAll.
  set (items := List.filter Billing.isPrepared (pharmacyQueue s)).
  set (sA := fold_left (Billing.admitPrepared env now) items s).
  destruct (loadQueue_frame env now sA page) as (_ & Hq & _).
  rewrite Hq, loadQueue_visitIds.
  assert (Hcov : forall p, In p (pharmacyQueue s) -> pq_status p = "prepared" ->
                   In (pq_visitId p) (map bq_visitId (billingQueue sA))).
  { intros p Hp Hst. apply sweep_covers. apply List.filter_In. split; [exact Hp|].
    unfold Billing.isPrepared. now rewrite Hst. }
  split; [exact Hcov|]. split; [|split].
  - intros p Hp Hst. apply sweep_pharmacy_In in Hp as [Hp|Hb]; [now apply Hcov|].
    rewrite Hb in Hst. discriminate.
  - destruct (sweep_appends env now items s) as (added & Heq & Hnd & Hadd).
    exists added. fold sA in Heq. split; [exact Heq|]. split; [exact Hnd|].
    intros v Hv. destruct (Hadd v Hv) as [H1 H2]. split; [exact H1|].
      apply in_map_iff in H2 as (p & Hp & Hin). subst items.
      apply List.filter_In in Hin as [Hin Hst]. exists p.
      split; [exact Hin|]. split; [now apply String.eqb_eq|exact Hp].
  - subst sA. clear. generalize items as l. intros l. generalize s as s0.
    induction l as [|p l IH]; intros s0; simpl; [reflexivity|].
    rewrite IH. apply admitPrepared_pharmacy_ids.
Qed.

Lemma sweep_admits_every_prepared_item_witness :
  In "v1"
     (map bq_visitId
        (billingQueue
           (fst (Billing.checkPharmacyQueue Example.env Example.today
                   (Example.clinic "prepared" [], Example.billingPage))))).
Proof.
  exact (proj1 (sweep_admits_every_prepared_item Example.env Example.today
                  (Example.clinic "prepared" []) Example.billingPage)
               (Example.q1 "prepared") (or_introl eq_refl) eq_refl).
Defined.

(** ** The billing loader, once more *)

Lemma str_or_idem (a : option string) (d : string) : JS.str_or a (JS.str_or a d) = JS.str_or a d.
Proof. destruct a as [x|]; simpl; [|reflexivity]. now destruct (String.eqb x ""). Qed.

(** Resolving again for the patched item gives the same values. *)
Lemma resolveFee_settled (env : Env) (now : Z) (s : Store) (b : BillingQueueItem) :
  let c := Billing.resolveFee env now s b in
  Billing.resolveFee env now s (Billing.feePatch c b b) = c.
Proof.
  cbv zeta. unfold Billing.resolveFee, Billing.feeFromAppointment.
  cbn [Billing.feePatch bq_appointmentId bq_patientId bq_feeAmount bq_feeType
       bq_paymentStatus Billing.correctFeeType Billing.correctPaymentStatus].
  destruct (JS.present (bq_appointmentId b)) as [aid|];
    [destruct (appointmentDb.getById s aid) as [apt|];
     [destruct (apt_feeAmount apt) as [f|]; [cbn; now rewrite !str_or_idem|]|]|];
    (destruct (JS.find _ _) as [apt'|]; [|reflexivity]);
    (destruct (apt_feeAmount apt') as [f'|]; [|reflexivity]);
    cbn; now rewrite !str_or_idem.
Qed.

Lemma needsResync_settled (env : Env) (now : Z) (s : Store) (b : BillingQueueItem) :
  needsResync env now s (resynced env now s b) = false.
Proof.
  unfold resynced. destruct (needsResync env now s b) eqn:E; [|exact E].
  unfold needsResync in E |- *. unfold resyncPatch.
  destruct (bq_status b) eqn:Hst; try discriminate.
  cbn [Billing.feePatch bq_status]. rewrite Hst.
  rewrite resolveFee_settled. unfold Billing.differs. cbn.
  rewrite !String.eqb_refl. rewrite (proj2 (Qeq_bool_iff _ _) (Qeq_refl _)). reflexivity.
Qed.

Lemma loadQueue_snd (env : Env) (now : Z) (sp : Store * Billing.Page) :
  let s' := fst (Billing.loadQueue env now sp) in
  let onDay := Billing.onSelectedDate env (Billing.selectedDate (snd sp)) in
  snd (Billing.loadQueue env now sp)
  = Billing.mkPage
      (Billing.enrichItems s'
         (Billing.sortByDateAsc
            (List.filter Billing.isPendingOrPaid (List.filter onDay (billingQueue s')))))
      (Billing.enrichItems s'
         (Billing.sortByDateDesc
            (List.filter Billing.isCompleted (List.filter onDay (billingQueue s')))))
      (Billing.selectedDate (snd sp)) (Billing.currentReceipt (snd sp)).
Proof. now destruct sp. Qed.

(** X2: a second load right after a load changes nothing: the resync of the
    pending items settles in one pass, and the views come out the same. *)
Theorem loader_settles_in_one_pass (env : Env) (now : Z) (s : Store) (page : Billing.Page) :
  List.NoDup (map bq_id (billingQueue s)) ->
  Billing.loadQueue env now (Billing.loadQueue env now (s, page))
  = Billing.loadQueue env now (s, page).
Proof.
  intros Hnd.
  assert (Hfst : fst (Billing.loadQueue env now (Billing.loadQueue env now (s, page)))
                 = fst (Billing.loadQueue env now (s, page))).
  { destruct (Billing.loadQueue env now (s, page)) as [s1 page1] eqn:E.
    assert (Hs1 : s1 = fst (Billing.loadQueue env now (s, page))) by now rewrite E.
    assert (Hp1 : Billing.selectedDate page1 = Billing.selectedDate page).
    { replace page1 with (snd (Billing.loadQueue env now (s, page))) by now rewrite E.
      now rewrite loadQueue_snd. }
    cbn [fst].
    assert (Hnd1 : List.NoDup (map bq_id (billingQueue s1))).
    { rewrite Hs1, loadQueue_ids. exact Hnd. }
    rewrite (loadQueue_fst_NoDup env now s1 page1 Hnd1).
    assert (Hq : billingQueue s1
                 = map (fun b => if Billing.onSelectedDate env (Billing.selectedDate page) b
                                 then resynced env now s b else b) (billingQueue s)).
    { rewrite Hs1, (loadQueue_fst_NoDup env now s page Hnd). reflexivity. }
    assert (Hres : forall x, resynced env now s1 x = resynced env now s x).
    { intros x. unfold resynced, needsResync, resyncPatch.
      rewrite (resolveFee_ext env now s1 s x); [reflexivity|].
      rewrite Hs1. apply (loadQueue_frame env now s page). }
    assert (Hmap : map (fun b => if Billing.onSelectedDate env (Billing.selectedDate page1) b
                                 then resynced env now s1 b else b) (billingQueue s1)
                   = billingQueue s1).
    { rewrite Hq, map_map. apply map_ext. intros b. rewrite Hp1.
      destruct (Billing.onSelectedDate env (Billing.selectedDate page) b) eqn:Hon.
      - assert (Hon' : Billing.onSelectedDate env (Billing.selectedDate page)
                         (resynced env now s b) = true).
        { unfold resynced. destruct (needsResync env now s b); exact Hon. }
        rewrite Hon', Hres. unfold resynced at 1.
        now rewrite needsResync_settled.
      - now rewrite Hon. }
    unfold with_billingQueue. rewrite Hmap. now destruct s1. }
  apply injective_projections; [exact Hfst|].
  rewrite (loadQueue_snd env now (Billing.loadQueue env now (s, page))), Hfst.
  rewrite (loadQueue_snd env now (s, page)). reflexivity.
Qed.

Lemma loader_settles_in_one_pass_witness :
  Billing.loadQueue Example.env Example.today
    (Billing.loadQueue Example.env Example.today
       (Example.clinic_fee "billed" [Example.b1 BPending; Example.b0 BPending],
        Example.billingPage))
  = Billing.loadQueue Example.env Example.today
      (Example.clinic_fee "billed" [Example.b1 BPending; Example.b0 BPending],
       Example.billingPage).
Proof.
  apply loader_settles_in_one_pass.
  repeat constructor; simpl; intros H; intuition discriminate.
Defined.

(** X3: whatever the store, also with ids that are not unique, a load writes
    nothing but fee amount, fee type, payment status and net amount of billing
    items: it adds, removes and reorders no item, keeps each item's id, visit,
    patient, appointment link, prescription ids, status, discount, payment
    method, receipt number and creation time, and leaves every other
    collection of the store as it was. *)
Theorem loader_writes_fee_fields_only (env : Env) (now : Z) (s : Store) (page : Billing.Page) :
  let s' := fst (Billing.loadQueue env now (s, page)) in
  let kept (b : BillingQueueItem) :=
    (bq_id b, bq_visitId b, bq_patientId b, bq_appointmentId b, bq_prescriptionIds b,
     bq_status b, bq_discountPercent b, bq_discountAmount b, bq_paymentMethod b,
     bq_receiptNumber b, bq_createdAt b) in
  map kept (billingQueue s') = map kept (billingQueue s)
  /\ length (billingQueue s') = length (billingQueue s)
  /\ appointments s' = appointments s /\ visits s' = visits s
  /\ prescriptions s' = prescriptions s /\ pharmacyQueue s' = pharmacyQueue s
  /\ billingReceipts s' = billingReceipts s /\ feeHistory s' = feeHistory s
  /\ nextId s' = nextId s /\ nextReceipt s' = nextReceipt s.
Proof.
  cbv zeta. rewrite loadQueue_fst. cbn [with_billingQueue billingQueue appointments visits
    prescriptions pharmacyQueue billingReceipts feeHistory nextId nextReceipt].
  match goal with |- map ?g ?l' = map ?g ?l /\ _ =>
    assert (Hm : map g l' = map g l) by (now apply fold_turn_map)
  end.
  split; [exact Hm|]. split; [|repeat split].
  apply (f_equal (@length _)) in Hm. now rewrite !length_map in Hm.
Qed.

(** ** The two views of the billing page *)

Lemma sortByDateAsc_position (l : list BillingQueueItem) (i j : nat) (a b : BillingQueueItem) :
  Billing.sortByDateAsc l !! i = Some a -> Billing.sortByDateAsc l !! j = Some b ->
  (i < j)%nat -> bq_createdAt a <= bq_createdAt b.
Proof.
  intros Hi Hj Hij.
  assert (Hs : StronglySorted (before (fun a b => bq_createdAt a - bq_createdAt b))
                              (Billing.sortByDateAsc l)).
  { apply sort_StronglySorted; intros; lia. }
  pose proof (StronglySorted_lookup _ _ _ _ _ _ Hs Hi Hj Hij) as H.
  unfold before in H. lia.
Qed.

Lemma sortByDateDesc_position (l : list BillingQueueItem) (i j : nat) (a b : BillingQueueItem) :
  Billing.sortByDateDesc l !! i = Some a -> Billing.sortByDateDesc l !! j = Some b ->
  (i < j)%nat -> bq_createdAt b <= bq_createdAt a.
Proof.
  intros Hi Hj Hij.
  assert (Hs : StronglySorted (before (fun a b => bq_createdAt b - bq_createdAt a))
                              (Billing.sortByDateDesc l)).
  { apply sort_StronglySorted; intros; lia. }
  pose proof (StronglySorted_lookup _ _ _ _ _ _ Hs Hi Hj Hij) as H.
  unfold before in H. lia.
Qed.

Lemma filter_status_partition (l : list BillingQueueItem) :
  Permutation (List.filter Billing.isPendingOrPaid l ++ List.filter Billing.isCompleted l) l.
Proof.
  induction l as [|x l IH]; simpl; [constructor|].
  unfold Billing.isPendingOrPaid at 1, Billing.isCompleted at 1.
  destruct (bq_status x); simpl.
  - now constructor.
  - now constructor.
  - rewrite <- Permutation_middle. now constructor.
Qed.

(** X4: after a load the Pending tab lists the pending and paid items of the
    selected day oldest first, the Completed tab lists the completed ones
    newest first, and between them the two tabs list every billing item of
    the selected day exactly once. *)
Theorem billing_tabs_order_and_cover (env : Env) (now : Z) (s : Store) (page : Billing.Page) :
  let sp' := Billing.loadQueue env now (s, page) in
  let pending := map Billing.item (Billing.queueItems (snd sp')) in
  let completed := map Billing.item (Billing.completedItems (snd sp')) in
  (forall i j a b, pending !! i = Some a -> pending !! j = Some b -> (i < j)%nat ->
                   bq_createdAt a <= bq_createdAt b)
  /\ (forall i j a b, completed !! i = Some a -> completed !! j = Some b -> (i < j)%nat ->
                      bq_createdAt b <= bq_createdAt a)
  /\ (forall b, In b pending -> bq_status b = BPending \/ bq_status b = BPaid)
  /\ (forall b, In b completed -> bq_status b = BCompleted)
  /\ Permutation (pending ++ completed)
       (List.filter (Billing.onSelectedDate env (Billing.selectedDate page))
                    (billingQueue (fst sp')))
  /\ (length pending + length completed
      = length (List.filter (Billing.onSelectedDate env (Billing.selectedDate page))
                            (billingQueue (fst sp'))))%nat.
Proof.
  cbv zeta. rewrite loadQueue_queueItems_items, loadQueue_completedItems_items.
  set (day := List.filter _ (billingQueue _)).
  assert (Hperm : Permutation
                    (Billing.sortByDateAsc (List.filter Billing.isPendingOrPaid day)
                     ++ Billing.sortByDateDesc (List.filter Billing.isCompleted day)) day).
  { unfold Billing.sortByDateAsc, Billing.sortByDateDesc.
    rewrite !sort_Permutation. apply filter_status_partition. }
  split; [intros i j a b; apply sortByDateAsc_position|].
  split; [intros i j a b; apply sortByDateDesc_position|].
  split; [|split; [|split; [exact Hperm|]]].
  - intros b Hb. eapply Permutation_in in Hb; [|apply sort_Permutation].
    apply List.filter_In in Hb as [_ Hb]. unfold Billing.isPendingOrPaid in Hb.
    destruct (bq_status b); auto. discriminate.
  - intros b Hb. eapply Permutation_in in Hb; [|apply sort_Permutation].
    apply List.filter_In in Hb as [_ Hb]. unfold Billing.isCompleted in Hb.
    destruct (bq_status b); auto; discriminate.
  - rewrite <- length_app. now apply Permutation_length.
Qed.

(** ** Receipt and fee history *)

Lemma handleGenerateReceipt_receipt (env : Env) (now : Z) (s : Store) (page : Billing.Page)
      (d : Billing.BillingQueueItemWithDetails) :
  let sp' := Billing.handleGenerateReceipt env now (s, page) d in
  let i := Billing.item d in
  let r :=
    mkBillingReceipt (formatReceiptNumber env (nextReceipt s)) (bq_id i) (bq_patientId i)
      (bq_visitId i)
      [mkBillingReceiptItem (bq_feeType i) 1%Q (bq_feeAmount i) (bq_feeAmount i)]
      (bq_feeAmount i) (bq_discountPercent i) (bq_discountAmount i) (bq_netAmount i)
      (default Cash (bq_paymentMethod i)) "paid" in
  billingReceipts (fst sp') = billingReceipts s ++ [r]
  /\ Billing.currentReceipt (snd sp') = Some r
  /\ nextReceipt (fst sp') = S (nextReceipt s).
Proof.
  cbv zeta. unfold Billing.handleGenerateReceipt.
  cbn [billingQueueDb.generateReceiptNumber billingReceiptDb.create].
  rewrite loadQueue_snd, loadQueue_fst. now cbn.
Qed.

Lemma str_or_some_empty (x : string) : JS.str_or (Some x) "" = x.
Proof. simpl. destruct (String.eqb x "") eqn:E; [|reflexivity]. now apply String.eqb_eq in E. Qed.

(** X5: Generate Receipt on a pending item (the items whose row offers it)
    appends one receipt that is a snapshot of the item (one line of the fee
    type at the fee amount, the item's discount and net amount, payment
    status "paid"), shows it as the current receipt, stores its number on the
    item and leaves the item paid, so that its row offers Complete; that
    Complete writes a fee-history record carrying the receipt number, the
    receipt's net amount, payment method, patient and visit. *)
Theorem receipt_and_fee_history_agree (env : Env) (now1 now2 : Z) (s : Store)
    (page : Billing.Page) (it : BillingQueueItem) :
  List.NoDup (map bq_id (billingQueue s)) ->
  In it (billingQueue s) ->
  Billing.offersGenerateReceipt it = true ->
  let sp1 := Billing.handleGenerateReceipt env now1 (s, page) (Billing.details s it) in
  exists it1 r,
    billingQueueDb.getById (fst sp1) (bq_id it) = Some it1
    /\ bq_status it1 = BPaid
    /\ Billing.offersComplete it1 = true
    /\ billingReceipts (fst sp1) = billingReceipts s ++ [r]
    /\ Billing.currentReceipt (snd sp1) = Some r
    /\ bq_receiptNumber it1 = Some (br_receiptNumber r)
    /\ bq_paymentMethod it1 = Some (br_paymentMethod r)
    /\ br_billingQueueId r = bq_id it
    /\ br_items r = [mkBillingReceiptItem (bq_feeType it) 1%Q (bq_feeAmount it)
                                          (bq_feeAmount it)]
    /\ br_subtotal r = bq_feeAmount it
    /\ br_discountAmount r = bq_discountAmount it
    /\ br_netAmount r = bq_netAmount it
    /\ br_paymentStatus r = "paid"
    /\ let sp2 := Billing.handleComplete env now2 sp1 (Billing.details (fst sp1) it1) in
       exists h,
         feeHistory (fst sp2) = feeHistory s ++ [h]
         /\ fh_receiptId h = br_receiptNumber r
         /\ fh_amount h = br_netAmount r
         /\ fh_paymentMethod h = br_paymentMethod r
         /\ fh_patientId h = br_patientId r
         /\ fh_visitId h = br_visitId r
         /\ fh_paymentStatus h = "paid"
         /\ fh_paidDate h = now2.
Proof.
  intros Hnd Hin Hoffered sp1.
  destruct (handleGenerateReceipt_spec env now1 s page (Billing.details s it) Hnd Hin)
    as (G1 & _ & _ & _ & G5).
  destruct (handleGenerateReceipt_receipt env now1 s page (Billing.details s it))
    as (R1 & R2 & _).
  cbn [Billing.details Billing.item] in G1, G5, R1, R2. fold sp1 in G1, G5, R1, R2.
  eexists _, _. split; [exact G1|]. split; [reflexivity|]. split; [reflexivity|].
  split; [exact R1|]. split; [exact R2|].
  repeat (split; [reflexivity|]).
  intros sp2.
  pose proof (handleComplete_feeHistory env now2 sp1
                (Billing.details (fst sp1)
                   (billingQueueDb.set_paid (default Cash (bq_paymentMethod it))
                      (formatReceiptNumber env (nextReceipt s)) it))) as C.
  fold sp2 in C. rewrite G5 in C. cbn [Billing.details Billing.item] in C.
  eexists. split; [exact C|].
  split; [apply str_or_some_empty|]. repeat split; reflexivity.
Qed.

Lemma receipt_and_fee_history_agree_witness :
  exists it1,
    billingQueueDb.getById
      (fst (Billing.handleGenerateReceipt Example.env Example.today
              (Example.clinic "billed" [Example.b1 BPending], Example.billingPage)
              (Billing.details (Example.clinic "billed" [Example.b1 BPending])
                               (Example.b1 BPending))))
      "b1" = Some it1
    /\ bq_receiptNumber it1 = Some "RCP-".
Proof.
  destruct (receipt_and_fee_history_agree Example.env Example.today Example.today
              (Example.clinic "billed" [Example.b1 BPending])
              Example.billingPage (Example.b1 BPending))
    as (it1 & r & H1 & _ & _ & H2 & _ & H4 & _).
  - repeat constructor. intros H. inversion H.
  - now left.
  - reflexivity.
  - exists it1. split; [exact H1|]. rewrite H4. f_equal.
    vm_compute in H2. injection H2 as <-. reflexivity.
Defined.

(** ** The update flag is shown for one refresh *)

(** X7: a refresh on an unchanged store right after a refresh flags nothing:
    the refresh that flags an item also moves its watermark, so the flag
    lasts until the next poll; the listings themselves stay as they were. *)
Theorem update_flag_lasts_one_refresh (s : Store) (page : Pharmacy.Page) :
  List.NoDup (map pq_id (pharmacyQueue s)) ->
  let page1 := snd (Pharmacy.loadQueue (s, page)) in
  let page2 := snd (Pharmacy.loadQueue (s, page1)) in
  (forall d, In d (Pharmacy.queueItems page2 ++ Pharmacy.preparedItems page2) ->
             Pharmacy.hasUpdates d = false)
  /\ map Pharmacy.item (Pharmacy.queueItems page2)
     = map Pharmacy.item (Pharmacy.queueItems page1)
  /\ map Pharmacy.item (Pharmacy.preparedItems page2)
     = map Pharmacy.item (Pharmacy.preparedItems page1)
  /\ Pharmacy.previousPrescriptionIds page2 = Pharmacy.previousPrescriptionIds page1.
Proof.
  intros Hnd page1 page2.
  destruct (loadQueue_views s page Hnd) as (A1 & P1 & W1). fold page1 in A1, P1, W1.
  destruct (loadQueue_views s page1 Hnd) as (A2 & P2 & W2). fold page2 in A2, P2, W2.
  assert (Hflag : forall d, In d (Pharmacy.queueItems page2 ++ Pharmacy.preparedItems page2) ->
                            Pharmacy.hasUpdates d = false).
  { intros d Hin.
    destruct (loadQueue_watermark s page1 d Hnd Hin) as [Hf _]. rewrite Hf.
    assert (Hin1 : In (view s (Pharmacy.previousPrescriptionIds page) (Pharmacy.item d))
                      (Pharmacy.queueItems page1 ++ Pharmacy.preparedItems page1)).
    { fold page2 in Hin. rewrite A2, P2 in Hin. rewrite A1, P1.
      apply in_app_iff in Hin as [Hin|Hin]; apply in_map_iff in Hin as [it [<- Hit]];
        apply in_app_iff; [left|right]; now apply in_map. }
    destruct (loadQueue_watermark s page _ Hnd Hin1) as [_ Hw].
    fold page1 in Hw. cbn [view Pharmacy.item] in Hw.
    unfold flagged. rewrite Hw. now rewrite String.eqb_refl. }
  split; [exact Hflag|].
  split; [rewrite A1, A2, !map_map; reflexivity|].
  split; [rewrite P1, P2, !map_map; reflexivity|].
  apply map_eq. intros k.
  rewrite W2.
  set (act := Pharmacy.sortItems (List.filter Pharmacy.isActive (pharmacyQueue s))) in *.
  set (prep := Pharmacy.sortItems (List.filter Pharmacy.isPrepared (pharmacyQueue s))) in *.
  assert (Hk : forall items prev,
             (forall it, In it items ->
                prev !! pq_id it = Some (Pharmacy.currentPrescriptionIds s it)) ->
             observe s prev items = prev).
  { clear. induction items as [|x items IH]; intros prev H; [reflexivity|].
    unfold observe. simpl. fold (observe s (<[pq_id x:=Pharmacy.currentPrescriptionIds s x]> prev) items).
    rewrite insert_id by (apply H; now left). apply IH. intros it Hit. apply H. now right. }
  assert (Hall : forall it, In it (act ++ prep) ->
                   Pharmacy.previousPrescriptionIds page1 !! pq_id it
                   = Some (Pharmacy.currentPrescriptionIds s it)).
  { intros it Hit.
    assert (Hin1 : In (view s (Pharmacy.previousPrescriptionIds page) it)
                      (Pharmacy.queueItems page1 ++ Pharmacy.preparedItems page1)).
    { rewrite A1, P1. apply in_app_iff in Hit as [Hit|Hit]; apply in_app_iff;
        [left|right]; now apply in_map. }
    destruct (loadQueue_watermark s page _ Hnd Hin1) as [_ Hw]. exact Hw. }
  rewrite (Hk act); [|intros it Hit; apply Hall, in_app_iff; now left].
  rewrite (Hk prep); [reflexivity|intros it Hit; apply Hall, in_app_iff; now right].
Qed.

Lemma update_flag_lasts_one_refresh_witness :
  let page1 :=
    snd (Pharmacy.loadQueue
           (Example.clinic_edited,
            snd (Pharmacy.loadQueue (Example.clinic "pending" [], Pharmacy.initialPage)))) in
  Pharmacy.previousPrescriptionIds (snd (Pharmacy.loadQueue (Example.clinic_edited, page1)))
  = Pharmacy.previousPrescriptionIds page1.
Proof.
  refine (proj2 (proj2 (proj2
            (update_flag_lasts_one_refresh Example.clinic_edited
               (snd (Pharmacy.loadQueue (Example.clinic "pending" [], Pharmacy.initialPage)))
               _)))).
  repeat constructor. intros H. inversion H.
Defined.

(** ** The buttons of the pharmacy page *)

Lemma update_missing {A : Type} (key : A -> string) (id : string) (patch : A -> A)
      (l : list A) :
  Db.getById key id l = None -> Db.update key id patch l = l.
Proof.
  unfold Db.getById. induction l as [|x l IH]; simpl; [reflexivity|].
  destruct (String.eqb (key x) id); [discriminate|]. intros H. now rewrite IH.
Qed.

Lemma with_pharmacyQueue_same (f : list PharmacyQueueItem -> list PharmacyQueueItem)
      (s : Store) :
  f (pharmacyQueue s) = pharmacyQueue s -> with_pharmacyQueue f s = s.
Proof. intros H. unfold with_pharmacyQueue. rewrite H. now destruct s. Qed.

Lemma pharmacy_handleReopen_billing (now : Z) (s : Store) (page : Pharmacy.Page)
      (id : string) :
  billingQueue (fst (Pharmacy.handleReopen now (s, page) id)) = billingQueue s.
Proof.
  unfold Pharmacy.handleReopen. rewrite loadQueue_store. cbn [fst].
  destruct (pharmacyQueueDb.getById s id) as [p|]; [|reflexivity].
  now destruct (JS.find _ _).
Qed.

Lemma pharmacy_handleReopen_item (now : Z) (s : Store) (page : Pharmacy.Page)
      (id : string) (p : PharmacyQueueItem) :
  pharmacyQueueDb.getById s id = Some p ->
  pharmacyQueueDb.getById (fst (Pharmacy.handleReopen now (s, page) id)) id
  = Some (pharmacyQueueDb.set_status "pending" p).
Proof.
  intros Hp. unfold Pharmacy.handleReopen. rewrite loadQueue_store. cbn [fst]. rewrite Hp.
  unfold pharmacyQueueDb.getById in *.
  destruct (JS.find _ _);
    cbn [pharmacyQueue appointmentDb.update_status with_appointments
         pharmacyQueueDb.update_status with_pharmacyQueue];
    rewrite getById_update_same by reflexivity; now rewrite Hp.
Qed.

Lemma sameVisit_count (v : string) (l : list BillingQueueItem) :
  List.NoDup (map bq_visitId l) -> In v (map bq_visitId l) ->
  length (List.filter (Billing.sameVisit v) l) = 1%nat.
Proof.
  induction l as [|x l IH]; simpl; intros Hnd Hin; [contradiction|].
  apply List.NoDup_cons_iff in Hnd as [Hx Hnd].
  unfold Billing.sameVisit at 1. destruct (String.eqb (bq_visitId x) v) eqn:E.
  - apply String.eqb_eq in E. subst v. simpl. f_equal.
    destruct (List.filter _ l) as [|y r] eqn:F; [reflexivity|].
    exfalso. apply Hx.
    assert (Hy : In y (List.filter (Billing.sameVisit (bq_visitId x)) l))
      by (rewrite F; now left).
    apply List.filter_In in Hy as [Hy Hs]. apply String.eqb_eq in Hs.
    rewrite <- Hs. now apply in_map.
  - apply String.eqb_neq in E. destruct Hin as [Hin|Hin]; [contradiction|]. now apply IH.
Qed.

(** X8: preparing an item, reopening it and preparing it again creates no
    second billing item: after the first Ready the visit has a billing item,
    Reopen puts the pharmacy item back to pending and leaves the billing
    queue alone, and the second Ready leaves the billing queue as it was, so
    that a visit that had at most one billing item has exactly one. *)
Theorem prepare_reopen_prepare_bills_once (env : Env) (now1 now2 now3 : Z) (s : Store)
    (page : Pharmacy.Page) (id : string) (p : PharmacyQueueItem) :
  pharmacyQueueDb.getById s id = Some p ->
  let sp1 := Pharmacy.handleMarkPrepared env now1 (s, page) id in
  let sp2 := Pharmacy.handleReopen now2 sp1 id in
  let sp3 := Pharmacy.handleMarkPrepared env now3 sp2 id in
  In (pq_visitId p) (map bq_visitId (billingQueue (fst sp1)))
  /\ (exists p2, pharmacyQueueDb.getById (fst sp2) id = Some p2 /\ pq_status p2 = "pending")
  /\ billingQueue (fst sp2) = billingQueue (fst sp1)
  /\ (exists p3, pharmacyQueueDb.getById (fst sp3) id = Some p3 /\ pq_status p3 = "prepared")
  /\ billingQueue (fst sp3) = billingQueue (fst sp1)
  /\ (List.NoDup (map bq_visitId (billingQueue s)) ->
      length (List.filter (Billing.sameVisit (pq_visitId p)) (billingQueue (fst sp3)))
      = 1%nat).
Proof.
  intros Hp sp1 sp2 sp3.
  assert (H1 : In (pq_visitId p) (map bq_visitId (billingQueue (fst sp1)))).
  { subst sp1. rewrite handleMarkPrepared_visitIds, Hp.
    destruct (JS.find _ _) eqn:E.
    - apply List.find_some in E as [Hb E]. apply String.eqb_eq in E.
      rewrite <- E. now apply in_map.
    - apply in_app_iff. right. now left. }
  destruct (handleMarkPrepared_status env now1 s page id p Hp)
    as (p1 & G1 & _ & _ & _ & V1). fold sp1 in G1.
  assert (B2 : billingQueue (fst sp2) = billingQueue (fst sp1)).
  { subst sp2. destruct sp1 as [s1 page1]. apply pharmacy_handleReopen_billing. }
  assert (G2 : pharmacyQueueDb.getById (fst sp2) id
               = Some (pharmacyQueueDb.set_status "pending" p1)).
  { subst sp2. destruct sp1 as [s1 page1]. now apply pharmacy_handleReopen_item. }
  assert (B3 : billingQueue (fst sp3) = billingQueue (fst sp2)).
  { subst sp3. destruct sp2 as [s2 page2]. cbn [fst] in *.
    eapply handleMarkPrepared_existing; [exact G2|].
    cbn [pharmacyQueueDb.set_status pq_visitId]. rewrite V1, B2. exact H1. }
  split; [exact H1|]. split; [eexists; split; [exact G2|reflexivity]|].
  split; [exact B2|]. split.
  - subst sp3. destruct sp2 as [s2 page2]. cbn [fst] in G2.
    destruct (handleMarkPrepared_status env now3 s2 page2 id _ G2) as (p3 & G3 & S3 & _).
    exists p3. auto.
  - split; [now rewrite B3|].
    intros Hnd. rewrite B3, B2. apply sameVisit_count; [|exact H1].
    subst sp1. now apply handleMarkPrepared_NoDup.
Qed.

Lemma prepare_reopen_prepare_bills_once_witness :
  map bq_visitId
    (billingQueue
       (fst (Pharmacy.handleMarkPrepared Example.env Example.today
               (Pharmacy.handleReopen Example.today
                  (Pharmacy.handleMarkPrepared Example.env Example.today
                     (Example.clinic "preparing" [], Pharmacy.initialPage) "q1") "q1")
               "q1")))
  = ["v1"].
Proof.
  rewrite (proj1 (proj2 (proj2 (proj2 (proj2
             (prepare_reopen_prepare_bills_once Example.env Example.today Example.today
                Example.today (Example.clinic "preparing" []) Pharmacy.initialPage "q1"
                (Example.q1 "preparing") eq_refl)))))).
  vm_compute. reflexivity.
Defined.

(** X9: a button pressed for an id that is no longer in the pharmacy queue
    changes nothing in the store: Start, Ready, Reopen and Stop neither touch
    a pharmacy item nor update an appointment nor create a billing item. *)
Theorem pharmacy_buttons_ignore_unknown_id (env : Env) (now : Z) (s : Store)
    (page : Pharmacy.Page) (id reason : string) :
  pharmacyQueueDb.getById s id = None ->
  fst (Pharmacy.handleStartPreparing (s, page) id) = s
  /\ fst (Pharmacy.handleMarkPrepared env now (s, page) id) = s
  /\ fst (Pharmacy.handleReopen now (s, page) id) = s
  /\ fst (Pharmacy.handleStop (s, page) id reason) = s.
Proof.
  intros Hnone.
  unfold Pharmacy.handleStartPreparing, Pharmacy.handleMarkPrepared, Pharmacy.handleReopen,
    Pharmacy.handleStop.
  rewrite !loadQueue_store. cbn [fst]. rewrite Hnone.
  unfold pharmacyQueueDb.update_status, pharmacyQueueDb.markPrepared, pharmacyQueueDb.stop.
  repeat split; apply with_pharmacyQueue_same; now apply update_missing.
Qed.

Lemma pharmacy_buttons_ignore_unknown_id_witness :
  fst (Pharmacy.handleMarkPrepared Example.env Example.today
         (Example.clinic "preparing" [], Pharmacy.initialPage) "q9")
  = Example.clinic "preparing" [].
Proof.
  exact (proj1 (proj2 (pharmacy_buttons_ignore_unknown_id Example.env Example.today
                         (Example.clinic "preparing" []) Pharmacy.initialPage "q9" ""
                         eq_refl))).
Defined.

Lemma update_lookup_same {A : Type} (key : A -> string) (patch : A -> A)
      (l : list A) (i : nat) (x : A) :
  List.NoDup (map key l) -> l !! i = Some x ->
  Db.update key (key x) patch l !! i = Some (patch x).
Proof.
  intros Hnd Hi. rewrite update_NoDup by assumption.
  change (map ?f ?l) with (f <$> l). rewrite list_lookup_fmap, Hi. cbn.
  now rewrite String.eqb_refl.
Qed.

(** X10: Stop on a pending or preparing item (the items of the active
    listing, whose rows offer it) records the reason and the status stopped
    at the item's place, leaves every other pharmacy item as it was, and the
    refresh that follows lists the item in neither listing; the other items
    are listed as before. *)
Theorem stop_removes_item_from_listings (s : Store) (page : Pharmacy.Page)
    (i : nat) (p : PharmacyQueueItem) (reason : string) :
  List.NoDup (map pq_id (pharmacyQueue s)) ->
  pharmacyQueue s !! i = Some p ->
  Pharmacy.isActive p = true ->
  let sp' := Pharmacy.handleStop (s, page) (pq_id p) reason in
  let listed := map Pharmacy.item (Pharmacy.queueItems (snd sp')
                                   ++ Pharmacy.preparedItems (snd sp')) in
  (exists p', pharmacyQueue (fst sp') !! i = Some p'
              /\ pq_status p' = "stopped" /\ pq_stopReason p' = Some reason
              /\ pq_id p' = pq_id p /\ pq_visitId p' = pq_visitId p
              /\ pq_priority p' = pq_priority p /\ pq_createdAt p' = pq_createdAt p)
  /\ (forall j q, j <> i -> pharmacyQueue s !! j = Some q ->
                  pharmacyQueue (fst sp') !! j = Some q)
  /\ (forall q, In q listed
                <-> In q (pharmacyQueue s)
                    /\ (Pharmacy.isActive q = true \/ Pharmacy.isPrepared q = true)
                    /\ pq_id q <> pq_id p)
  /\ billingQueue (fst sp') = billingQueue s /\ appointments (fst sp') = appointments s.
Proof.
  intros Hnd Hi Hactive sp' listed. subst listed sp'.
  assert (Hin : In p (pharmacyQueue s)).
  { apply list_elem_of_In. eapply list_elem_of_lookup_2. exact Hi. }
  unfold Pharmacy.handleStop.
  rewrite map_app, loadQueue_queueItems, loadQueue_preparedItems.
  rewrite loadQueue_store. cbn [fst].
  unfold pharmacyQueueDb.stop. cbn [with_pharmacyQueue pharmacyQueue billingQueue appointments].
  set (patch := fun q : PharmacyQueueItem =>
                  mkPharmacyQueueItem (pq_id q) (pq_visitId q) (pq_patientId q)
                    (pq_appointmentId q) (pq_prescriptionIds q) (pq_priority q) "stopped"
                    (Some reason) (pq_preparedBy q) (pq_createdAt q)).
  split; [|split; [|split; [|split; reflexivity]]].
  - exists (patch p). split; [now apply update_lookup_same|]. cbn. auto 10.
  - intros j q Hj Hq. apply update_lookup_other; [exact Hq|].
    intros Heq. apply Hj.
    assert (q = p) as ->.
    { apply (NoDup_map_eq pq_id (pharmacyQueue s)); try assumption.
      apply list_elem_of_In. eapply list_elem_of_lookup_2. exact Hq. }
    assert (Hnd' : NoDup (pq_id <$> pharmacyQueue s)) by (apply NoDup_ListNoDup; exact Hnd).
    apply (NoDup_lookup _ j i (pq_id p) Hnd'); rewrite list_lookup_fmap.
    + now rewrite Hq.
    + now rewrite Hi.
  - intros q. rewrite update_NoDup by assumption.
    rewrite in_app_iff.
    assert (Hsort : forall f, In q (Pharmacy.sortItems (List.filter f
                       (map (fun x => if String.eqb (pq_id x) (pq_id p) then patch x else x)
                            (pharmacyQueue s))))
                     <-> In q (pharmacyQueue s) /\ f q = true /\ pq_id q <> pq_id p
                         \/ (q = patch p /\ f (patch p) = true)).
    { intros f. split.
      - intros H. eapply Permutation_in in H; [|apply sortItems_Permutation].
        apply List.filter_In in H as [H Hf]. apply in_map_iff in H as (x & Hx & Hxin).
        destruct (String.eqb (pq_id x) (pq_id p)) eqn:E.
        + apply String.eqb_eq in E.
          assert (x = p) as -> by (eapply (NoDup_map_eq pq_id); eassumption).
          right. subst q. auto.
        + apply String.eqb_neq in E. subst q. left. auto.
      - intros H. eapply Permutation_in; [symmetry; apply sortItems_Permutation|].
        apply List.filter_In. destruct H as [(H1 & H2 & H3)|[-> H2]].
        + split; [|exact H2]. apply in_map_iff. exists q.
          apply String.eqb_neq in H3. now rewrite H3.
        + split; [|exact H2]. apply in_map_iff. exists p.
          now rewrite String.eqb_refl. }
    rewrite !Hsort. cbn [patch Pharmacy.isActive Pharmacy.isPrepared pq_status].
    cbn. intuition discriminate.
Qed.

Lemma stop_removes_item_from_listings_witness :
  exists p',
    pharmacyQueue
      (fst (Pharmacy.handleStop (Example.pharmacy_three, Pharmacy.initialPage) "q1"
                                "patient left"))
      !! 0%nat = Some p'
    /\ pq_status p' = "stopped".
Proof.
  destruct (proj1 (stop_removes_item_from_listings Example.pharmacy_three
                     Pharmacy.initialPage 0%nat (Example.q1 "pending") "patient left"
                     ltac:(repeat constructor; simpl; intros H; intuition discriminate)
                     eq_refl eq_refl))
    as (p' & H1 & H2 & _).
  exists p'. split; assumption.
Defined.

(** ** The counters of the pharmacy page *)

Lemma filter_length_Permutation {A : Type} (f : A -> bool) (l l' : list A) :
  Permutation l l' -> length (List.filter f l) = length (List.filter f l').
Proof.
  induction 1; simpl.
  - reflexivity.
  - destruct (f x); simpl; congruence.
  - destruct (f x), (f y); reflexivity.
  - congruence.
Qed.

Lemma filter_filter_implied {A : Type} (f g : A -> bool) (l : list A) :
  (forall x, f x = true -> g x = true) ->
  List.filter f (List.filter g l) = List.filter f l.
Proof.
  intros H. induction l as [|x l IH]; simpl; [reflexivity|].
  destruct (g x) eqn:Hg; simpl.
  - now rewrite IH.
  - destruct (f x) eqn:Hf; [|exact IH]. apply H in Hf. congruence.
Qed.

Lemma filter_map_length {A B : Type} (f : B -> bool) (g : A -> B) (l : list A) :
  length (List.filter (fun x => f (g x)) l) = length (List.filter f (map g l)).
Proof.
  induction l as [|x l IH]; simpl; [reflexivity|].
  destruct (f (g x)); simpl; congruence.
Qed.

(** The three status counters after a refresh, read off the store. *)
Lemma loadQueue_counters (s : Store) (page : Pharmacy.Page) :
  let page' := snd (Pharmacy.loadQueue (s, page)) in
  let having (st : string) :=
    length (List.filter (fun p => String.eqb (pq_status p) st) (pharmacyQueue s)) in
  PharmacyStats.pendingCount page' = having "pending"
  /\ PharmacyStats.preparingCount page' = having "preparing"
  /\ PharmacyStats.preparedCount page' = having "prepared".
Proof.
  cbv zeta.
  assert (Hcount : forall st, (st = "pending" \/ st = "preparing") ->
            length (List.filter (fun q => String.eqb (pq_status (Pharmacy.item q)) st)
                      (Pharmacy.queueItems (snd (Pharmacy.loadQueue (s, page)))))
            = length (List.filter (fun p => String.eqb (pq_status p) st) (pharmacyQueue s))).
  { intros st Hst.
    rewrite (filter_map_length (fun p => String.eqb (pq_status p) st) Pharmacy.item).
    rewrite loadQueue_queueItems.
    rewrite (filter_length_Permutation _ _ _ (sortItems_Permutation _)).
    rewrite filter_filter_implied; [reflexivity|].
    intros x Hx. apply String.eqb_eq in Hx. unfold Pharmacy.isActive. rewrite Hx.
    destruct Hst as [-> | ->]; reflexivity. }
  unfold PharmacyStats.pendingCount, PharmacyStats.preparingCount,
    PharmacyStats.preparedCount.
  rewrite !Hcount by auto.
  split; [reflexivity|]. split; [reflexivity|].
  rewrite <- (length_map Pharmacy.item), loadQueue_preparedItems.
  apply Permutation_length, sortItems_Permutation.
Qed.

(** X11: after a refresh the Pending, Preparing and Prepared cards show the
    numbers of pharmacy items in the store with these statuses, Pending and
    Preparing add up to the length of the active listing, and the With
    Updates card never exceeds it. *)
Theorem pharmacy_counters_count_the_store (s : Store) (page : Pharmacy.Page) :
  let page' := snd (Pharmacy.loadQueue (s, page)) in
  let having (st : string) :=
    length (List.filter (fun p => String.eqb (pq_status p) st) (pharmacyQueue s)) in
  PharmacyStats.pendingCount page' = having "pending"
  /\ PharmacyStats.preparingCount page' = having "preparing"
  /\ PharmacyStats.preparedCount page' = having "prepared"
  /\ (PharmacyStats.pendingCount page' + PharmacyStats.preparingCount page'
      = length (Pharmacy.queueItems page'))%nat
  /\ (PharmacyStats.withUpdatesCount page' <= length (Pharmacy.queueItems page'))%nat.
Proof.
  cbv zeta.
  destruct (loadQueue_counters s page) as (H1 & H2 & H3).
  assert (Hlen : length (Pharmacy.queueItems (snd (Pharmacy.loadQueue (s, page))))
                 = length (List.filter Pharmacy.isActive (pharmacyQueue s))).
  { rewrite <- (length_map Pharmacy.item), loadQueue_queueItems.
    apply Permutation_length, sortItems_Permutation. }
  split; [exact H1|]. split; [exact H2|]. split; [exact H3|]. split.
  - rewrite H1, H2, Hlen. clear.
    induction (pharmacyQueue s) as [|x l IH]; simpl; [reflexivity|].
    unfold Pharmacy.isActive at 1.
    destruct (String.eqb (pq_status x) "pending") eqn:E1.
    + apply String.eqb_eq in E1. rewrite E1. simpl. lia.
    + destruct (String.eqb (pq_status x) "preparing"); simpl; lia.
  - apply List.filter_length_le.
Qed.

(** ** The two readings of "today" *)

Lemma toDateString_shift (env : Env) (t : Z) :
  tzOffset env mod msPerDay = 0 ->
  toDateString env t = isoDate t + tzOffset env / msPerDay.
Proof.
  intros H. unfold toDateString, isoDate.
  pose proof (Z.div_mod (tzOffset env) msPerDay ltac:(unfold msPerDay; lia)) as Hdm.
  rewrite H, Z.add_0_r in Hdm. rewrite Hdm at 1.
  rewrite (Z.mul_comm msPerDay), Z.div_add by (unfold msPerDay; lia).
  reflexivity.
Qed.

(** X12: the billing page takes an appointment for today's when its date
    lies between local midnight and the last millisecond of the local day,
    the pharmacy page when its date has today's UTC date. For appointments in
    status completed the two tests give the same answer at every instant
    exactly when the local clock is a whole number of days from UTC. *)
Theorem today_tests_agree_iff_utc (env : Env) :
  (forall (now : Z) (apt : Appointment),
      apt_status apt = "completed" ->
      Billing.isTodayAppointment env now apt = Pharmacy.isRelevantAppointment now apt)
  <-> tzOffset env mod msPerDay = 0.
Proof.
  split.
  - intros H.
    destruct (Z.eq_dec (tzOffset env mod msPerDay) 0) as [E|E]; [exact E|exfalso].
    pose proof (Z.mod_pos_bound (tzOffset env) msPerDay ltac:(unfold msPerDay; lia)) as Hb.
    pose proof (Z.div_mod (tzOffset env) msPerDay ltac:(unfold msPerDay; lia)) as Hdm.
    set (r := tzOffset env mod msPerDay) in *.
    set (q := tzOffset env / msPerDay) in *.
    specialize (H (msPerDay - r)
                  (mkAppointment "a" "p" (msPerDay - r - 1) "completed" None None None)
                  eq_refl).
    assert (Hp : Pharmacy.isRelevantAppointment (msPerDay - r)
                   (mkAppointment "a" "p" (msPerDay - r - 1) "completed" None None None)
                 = true).
    { unfold Pharmacy.isRelevantAppointment, isoDate. cbn [apt_appointmentDate apt_status].
      rewrite !Z.div_small by lia. reflexivity. }
    rewrite Hp in H. apply isTodayAppointment_iff in H.
    unfold toDateString in H. cbn [apt_appointmentDate] in H. rewrite Hdm in H.
    replace (msPerDay - r - 1 + (msPerDay * q + r)) with ((msPerDay - 1) + q * msPerDay) in H
      by ring.
    replace (msPerDay - r + (msPerDay * q + r)) with (0 + (q + 1) * msPerDay) in H by ring.
    rewrite !Z.div_add in H by (unfold msPerDay; lia).
    rewrite (Z.div_small (msPerDay - 1)), (Z.div_small 0) in H by (unfold msPerDay; lia).
    lia.
  - intros Htz now apt Hst.
    apply eq_true_iff_eq. rewrite isTodayAppointment_iff.
    rewrite !toDateString_shift by assumption.
    unfold Pharmacy.isRelevantAppointment. rewrite Hst.
    rewrite andb_true_iff, Z.eqb_eq. cbn. intuition lia.
Qed.

(** ** The fee popup *)

Lemma apply_amount_consistent (st : FeeEdit.Popup) (e : FeeEdit.Edit) :
  isAmountEdit e = true -> editConsistent (FeeEdit.editingFee (FeeEdit.apply st e)).
Proof.
  destruct e; simpl; try discriminate; intros _; unfold editConsistent; cbn;
    unfold FeeEdit.calculateNetAmount; split; reflexivity.
Qed.

Lemma apply_keeps_consistent (st : FeeEdit.Popup) (e : FeeEdit.Edit) :
  editConsistent (FeeEdit.editingFee st) -> editConsistent (FeeEdit.editingFee (FeeEdit.apply st e)).
Proof.
  intros H. destruct e as [v|v|m].
  - now apply apply_amount_consistent.
  - now apply apply_amount_consistent.
  - exact H.
Qed.

Lemma apply_frame (st : FeeEdit.Popup) (e : FeeEdit.Edit) :
  FeeEdit.selectedItem (FeeEdit.apply st e) = FeeEdit.selectedItem st
  /\ FeeEdit.showFeePopup (FeeEdit.apply st e) = FeeEdit.showFeePopup st.
Proof. destruct e; split; reflexivity. Qed.

Lemma edits_fields (edits : list FeeEdit.Edit) :
  forall st,
    FeeEdit.feeAmount (FeeEdit.editingFee (fold_left FeeEdit.apply edits st))
    = lastFee edits (FeeEdit.feeAmount (FeeEdit.editingFee st))
    /\ FeeEdit.discountPercent (FeeEdit.editingFee (fold_left FeeEdit.apply edits st))
       = lastDiscount edits (FeeEdit.discountPercent (FeeEdit.editingFee st))
    /\ FeeEdit.selectedItem (fold_left FeeEdit.apply edits st) = FeeEdit.selectedItem st
    /\ FeeEdit.showFeePopup (fold_left FeeEdit.apply edits st) = FeeEdit.showFeePopup st.
Proof.
  induction edits as [|e edits IH]; intros st; [repeat split|].
  cbn [fold_left]. destruct (IH (FeeEdit.apply st e)) as (H1 & H2 & H3 & H4).
  rewrite H1, H2, H3, H4. destruct e; repeat split.
Qed.

Lemma edits_consistent (edits : list FeeEdit.Edit) :
  forall st,
    (editConsistent (FeeEdit.editingFee st) \/ existsb isAmountEdit edits = true) ->
    editConsistent (FeeEdit.editingFee (fold_left FeeEdit.apply edits st)).
Proof.
  induction edits as [|e edits IH]; intros st H; cbn [fold_left].
  - destruct H as [H|H]; [exact H|discriminate].
  - apply IH. destruct H as [H|H].
    + left. now apply apply_keeps_consistent.
    + cbn [existsb] in H. apply orb_true_iff in H as [H|H]; [left|right; exact H].
      now apply apply_amount_consistent.
Qed.

(** X13: whatever item the fee popup was opened on, and whatever amounts it
    carried, after any sequence of edits with at least one edit of the fee or
    of the discount percentage the popup holds the last fee and the last
    percentage typed, the discount amount is that percentage of that fee and
    the net amount is the fee less the discount amount; the order of the
    edits and the payment method chosen in between play no part. *)
Theorem fee_popup_amounts_follow_last_edits
    (it : Billing.BillingQueueItemWithDetails) (st0 : FeeEdit.Popup)
    (edits : list FeeEdit.Edit)
    (Hedit : existsb isAmountEdit edits = true) :
  let opened := FeeEdit.handleEditFee it st0 in
  let e := FeeEdit.editingFee (fold_left FeeEdit.apply edits opened) in
  let fee := lastFee edits (bq_feeAmount (Billing.item it)) in
  let pct := lastDiscount edits (JS.optnum_or (bq_discountPercent (Billing.item it)) 0) in
  FeeEdit.feeAmount e = fee
  /\ FeeEdit.discountPercent e = pct
  /\ (FeeEdit.discountAmount e == fee * pct / 100)%Q
  /\ (FeeEdit.netAmount e == fee - fee * pct / 100)%Q
  /\ FeeEdit.selectedItem (fold_left FeeEdit.apply edits opened) = Some it.
Proof.
  cbv zeta.
  destruct (edits_fields edits (FeeEdit.handleEditFee it st0)) as (H1 & H2 & H3 & _).
  pose proof (edits_consistent edits (FeeEdit.handleEditFee it st0) (or_intror Hedit))
    as [Hc1 Hc2].
  cbn [FeeEdit.handleEditFee FeeEdit.editingFee FeeEdit.feeAmount FeeEdit.discountPercent
       FeeEdit.selectedItem] in H1, H2, H3.
  rewrite H1 in Hc1, Hc2. rewrite H2 in Hc1.
  assert (Hnet : (FeeEdit.netAmount
                    (FeeEdit.editingFee (fold_left FeeEdit.apply edits (FeeEdit.handleEditFee it st0)))
                  == lastFee edits (bq_feeAmount (Billing.item it))
                     - lastFee edits (bq_feeAmount (Billing.item it))
                       * lastDiscount edits (JS.optnum_or (bq_discountPercent (Billing.item it)) 0)
                       / 100)%Q).
  { rewrite Hc2, Hc1. reflexivity. }
  split; [exact H1|]. split; [exact H2|]. split; [exact Hc1|]. split; [exact Hnet|].
  exact H3.
Qed.

Lemma fee_popup_amounts_follow_last_edits_witness :
  let e := FeeEdit.editingFee
             (fold_left FeeEdit.apply
                [FeeEdit.Discount 10; FeeEdit.Method Upi; FeeEdit.FeeAmount 400]
                (FeeEdit.handleEditFee
                   (Billing.details (Example.clinic "prepared" [Example.b1 BPending])
                                    (Example.b1 BPending))
                   (FeeEdit.mkPopup None (FeeEdit.mkEditingFee 0 0 0 0 Cash) false))) in
  FeeEdit.feeAmount e = 400%Q /\ (FeeEdit.netAmount e == 360)%Q.
Proof.
  cbv zeta.
  destruct (fee_popup_amounts_follow_last_edits
              (Billing.details (Example.clinic "prepared" [Example.b1 BPending])
                               (Example.b1 BPending))
              (FeeEdit.mkPopup None (FeeEdit.mkEditingFee 0 0 0 0 Cash) false)
              [FeeEdit.Discount 10; FeeEdit.Method Upi; FeeEdit.FeeAmount 400]
              eq_refl)
    as (H1 & _ & _ & H4 & _).
  split; [exact H1|]. rewrite H4. reflexivity.
Defined.

(** ** Saving an edited fee *)

Lemma handleSaveFee_selected (env : Env) (now : Z) (s : Store) (fees : list DoctorFee)
      (page : Billing.Page) (st : FeeEdit.Popup) (sel : Billing.BillingQueueItemWithDetails) :
  FeeEdit.selectedItem st = Some sel ->
  exists fees',
    FeeEdit.handleSaveFee env now (s, fees, page, st)
    = (fst (Billing.loadQueue env now
              (feeWritten s (Billing.item sel) (FeeEdit.editingFee st), page)),
       fees',
       snd (Billing.loadQueue env now
              (feeWritten s (Billing.item sel) (FeeEdit.editingFee st), page)),
       FeeEdit.mkPopup (Some sel) (FeeEdit.editingFee st) false)
    /\ map (fun f => (fee_id f, fee_patientId f, fee_visitId f)) fees'
       = map (fun f => (fee_id f, fee_patientId f, fee_visitId f)) fees.
Proof.
  intros Hsel. unfold FeeEdit.handleSaveFee. rewrite Hsel.
  fold (feeWritten s (Billing.item sel) (FeeEdit.editingFee st)).
  destruct (Billing.loadQueue env now _) as [s3 page'] eqn:E. cbn [fst snd].
  eexists. split; [reflexivity|].
  destruct (JS.find _ fees) as [f|]; [|reflexivity].
  apply update_map. reflexivity.
Qed.

Lemma loadQueue_map {B : Type} (g : BillingQueueItem -> B) (env : Env) (now : Z)
      (s : Store) (page : Billing.Page) :
  (forall c it b, g (Billing.feePatch c it b) = g b) ->
  map g (billingQueue (fst (Billing.loadQueue env now (s, page)))) = map g (billingQueue s).
Proof.
  intros Hg. rewrite loadQueue_fst. cbn [with_billingQueue billingQueue].
  apply fold_turn_map. intros it x. apply Hg.
Qed.

Lemma feeWritten_billingQueue (s : Store) (i : BillingQueueItem) (e : FeeEdit.EditingFee) :
  billingQueue (feeWritten s i e)
  = Db.update bq_id (bq_id i) (FeeEdit.savePatch e) (billingQueue s).
Proof. unfold feeWritten. now destruct (JS.present (bq_appointmentId i)). Qed.

Lemma feeWritten_appointments (s : Store) (i : BillingQueueItem) (e : FeeEdit.EditingFee) :
  appointments (feeWritten s i e)
  = match JS.present (bq_appointmentId i) with
    | Some aid =>
        Db.update apt_id aid
          (fun a => mkAppointment (apt_id a) (apt_patientId a) (apt_appointmentDate a)
                      (apt_status a) (Some (FeeEdit.feeAmount e)) (Some (bq_feeType i))
                      (apt_feeStatus a))
          (appointments s)
    | None => appointments s
    end.
Proof. unfold feeWritten. now destruct (JS.present (bq_appointmentId i)). Qed.

Lemma feeWritten_frame (s : Store) (i : BillingQueueItem) (e : FeeEdit.EditingFee) :
  visits (feeWritten s i e) = visits s
  /\ prescriptions (feeWritten s i e) = prescriptions s
  /\ pharmacyQueue (feeWritten s i e) = pharmacyQueue s
  /\ billingReceipts (feeWritten s i e) = billingReceipts s
  /\ feeHistory (feeWritten s i e) = feeHistory s.
Proof. unfold feeWritten. now destruct (JS.present (bq_appointmentId i)). Qed.

(** X14: saving an edited fee changes amounts only. With no item selected it
    changes nothing at all; otherwise no billing item is added, removed or
    moved and every billing item keeps its id, visit, patient, appointment
    link, prescription ids, status, receipt number and creation time, every
    appointment keeps its id, patient, date, status and fee status, every
    record of the fees table keeps its id, patient and visit, and visits,
    prescriptions, the pharmacy queue, the receipts, the fee history and the
    selected date stay as they were. *)
Theorem save_fee_changes_amounts_only (env : Env) (now : Z) (s : Store)
    (fees : list DoctorFee) (page : Billing.Page) (st : FeeEdit.Popup) :
  let '(s', fees', page', st') := FeeEdit.handleSaveFee env now (s, fees, page, st) in
  let kept (b : BillingQueueItem) :=
    (bq_id b, bq_visitId b, bq_patientId b, bq_appointmentId b, bq_prescriptionIds b,
     bq_status b, bq_receiptNumber b, bq_createdAt b) in
  let aptKept (a : Appointment) :=
    (apt_id a, apt_patientId a, apt_appointmentDate a, apt_status a, apt_feeStatus a) in
  let feeKept (f : DoctorFee) := (fee_id f, fee_patientId f, fee_visitId f) in
  map kept (billingQueue s') = map kept (billingQueue s)
  /\ map aptKept (appointments s') = map aptKept (appointments s)
  /\ map feeKept fees' = map feeKept fees
  /\ visits s' = visits s /\ prescriptions s' = prescriptions s
  /\ pharmacyQueue s' = pharmacyQueue s /\ billingReceipts s' = billingReceipts s
  /\ feeHistory s' = feeHistory s
  /\ Billing.selectedDate page' = Billing.selectedDate page
  /\ (FeeEdit.selectedItem st = None -> (s', fees', page', st') = (s, fees, page, st)).
Proof.
  destruct (FeeEdit.selectedItem st) as [sel|] eqn:Hsel.
  - destruct (handleSaveFee_selected env now s fees page st sel Hsel) as (fees' & -> & Hfees).
    cbv zeta.
    set (w := feeWritten s (Billing.item sel) (FeeEdit.editingFee st)).
    destruct (loadQueue_frame env now w page) as (Ha & Hp & Hr & Hh).
    assert (Hvis : visits (fst (Billing.loadQueue env now (w, page))) = visits w
                   /\ prescriptions (fst (Billing.loadQueue env now (w, page)))
                      = prescriptions w).
    { rewrite loadQueue_fst. now cbn. }
    destruct Hvis as [Hv Hx].
    destruct (feeWritten_frame s (Billing.item sel) (FeeEdit.editingFee st))
      as (Hv' & Hx' & Hp' & Hr' & Hh').
    fold w in Hv', Hx', Hp', Hr', Hh'.
    split.
    { rewrite loadQueue_map by reflexivity. subst w.
      rewrite feeWritten_billingQueue. now apply update_map. }
    split.
    { rewrite Ha. subst w. rewrite feeWritten_appointments.
      destruct (JS.present _); [|reflexivity]. now apply update_map. }
    split; [exact Hfees|].
    split; [congruence|]. split; [congruence|]. split; [congruence|].
    split; [congruence|]. split; [congruence|].
    split; [|discriminate].
    now rewrite (loadQueue_snd env now (w, page)).
  - unfold FeeEdit.handleSaveFee. rewrite Hsel. cbv zeta. repeat split.
Qed.

Lemma str_or_same (x : string) : JS.str_or (Some x) x = x.
Proof. unfold JS.str_or. destruct x; reflexivity. Qed.

Lemma resolveFee_linked (env : Env) (now : Z) (s : Store) (b : BillingQueueItem)
      (aid : string) (a : Appointment) (f : Q) :
  JS.present (bq_appointmentId b) = Some aid ->
  appointmentDb.getById s aid = Some a ->
  apt_feeAmount a = Some f ->
  Billing.resolveFee env now s b
  = Billing.mkCorrect f (JS.str_or (apt_feeType a) (bq_feeType b))
                      (JS.str_or (apt_feeStatus a) (bq_paymentStatus b)).
Proof.
  intros Hp Ha Hf. unfold Billing.resolveFee. rewrite Hp, Ha.
  unfold Billing.feeFromAppointment. rewrite Hf. reflexivity.
Qed.

Lemma resolveFee_today (env : Env) (now : Z) (s : Store) (b : BillingQueueItem)
      (a : Appointment) (f : Q) :
  JS.present (bq_appointmentId b) = None ->
  JS.find (Billing.isTodayAppointment env now) (appointmentDb.getByPatient s (bq_patientId b))
  = Some a ->
  apt_feeAmount a = Some f ->
  Billing.resolveFee env now s b
  = Billing.mkCorrect f (JS.str_or (apt_feeType a) (bq_feeType b))
                      (JS.str_or (apt_feeStatus a) (bq_paymentStatus b)).
Proof.
  intros Hp Ha Hf. unfold Billing.resolveFee. rewrite Hp, Ha.
  unfold Billing.feeFromAppointment. rewrite Hf. reflexivity.
Qed.

(** The stored item after a save followed by the reload. *)
Lemma saved_item_after_load (env : Env) (now : Z) (s : Store) (page : Billing.Page)
      (i : BillingQueueItem) (e : FeeEdit.EditingFee) :
  List.NoDup (map bq_id (billingQueue s)) ->
  In i (billingQueue s) ->
  billingQueueDb.getById (fst (Billing.loadQueue env now (feeWritten s i e, page))) (bq_id i)
  = Some (if Billing.onSelectedDate env (Billing.selectedDate page) i
          then resynced env now (feeWritten s i e) (FeeEdit.savePatch e i)
          else FeeEdit.savePatch e i).
Proof.
  intros Hnd Hin. unfold billingQueueDb.getById.
  rewrite loadQueue_fst_NoDup
    by (rewrite feeWritten_billingQueue, update_map; [assumption|reflexivity]).
  cbn [with_billingQueue billingQueue].
  rewrite getById_map.
  - rewrite feeWritten_billingQueue, getById_update_same by reflexivity.
    rewrite getById_In by assumption. reflexivity.
  - intros x. destruct (Billing.onSelectedDate _ _ x); [apply resynced_id|reflexivity].
Qed.

(** X15: with unique billing ids, saving the fee of a listed item that is
    linked to an existing appointment writes the edited fee and the item's
    fee type to that appointment (its other fields stay), and the reload that
    ends the save keeps the edit: the stored item has the edited fee, the
    edited discount and the chosen payment method, its fee type as before, and
    its net amount is the edited net amount when that is the fee less the
    discount amount. The popup is closed. *)
Theorem saved_fee_reaches_linked_appointment (env : Env) (now : Z) (s : Store)
    (fees : list DoctorFee) (page : Billing.Page) (st : FeeEdit.Popup)
    (sel : Billing.BillingQueueItemWithDetails) (aid : string) (a : Appointment)
    (Hnd : List.NoDup (map bq_id (billingQueue s)))
    (Hsel : FeeEdit.selectedItem st = Some sel)
    (Hin : In (Billing.item sel) (billingQueue s))
    (Haid : JS.present (bq_appointmentId (Billing.item sel)) = Some aid)
    (Ha : appointmentDb.getById s aid = Some a) :
  let '(s', _, _, st') := FeeEdit.handleSaveFee env now (s, fees, page, st) in
  let i := Billing.item sel in
  let e := FeeEdit.editingFee st in
  appointmentDb.getById s' aid
  = Some (mkAppointment (apt_id a) (apt_patientId a) (apt_appointmentDate a) (apt_status a)
            (Some (FeeEdit.feeAmount e)) (Some (bq_feeType i)) (apt_feeStatus a))
  /\ (exists b',
        billingQueueDb.getById s' (bq_id i) = Some b'
        /\ bq_feeAmount b' = FeeEdit.feeAmount e
        /\ bq_feeType b' = bq_feeType i
        /\ bq_discountPercent b' = Some (FeeEdit.discountPercent e)
        /\ bq_discountAmount b' = Some (FeeEdit.discountAmount e)
        /\ bq_paymentMethod b' = Some (FeeEdit.paymentMethod e)
        /\ bq_status b' = bq_status i
        /\ ((FeeEdit.netAmount e == FeeEdit.feeAmount e - FeeEdit.discountAmount e)%Q ->
            (bq_netAmount b' == FeeEdit.netAmount e)%Q))
  /\ FeeEdit.showFeePopup st' = false.
Proof.
  destruct (handleSaveFee_selected env now s fees page st sel Hsel) as (fees' & -> & _).
  cbv zeta.
  set (i := Billing.item sel) in *. set (e := FeeEdit.editingFee st) in *.
  set (w := feeWritten s i e).
  assert (Haw : appointmentDb.getById w aid
                = Some (mkAppointment (apt_id a) (apt_patientId a) (apt_appointmentDate a)
                          (apt_status a) (Some (FeeEdit.feeAmount e)) (Some (bq_feeType i))
                          (apt_feeStatus a))).
  { unfold appointmentDb.getById. subst w. rewrite feeWritten_appointments, Haid.
    rewrite getById_update_same by reflexivity.
    unfold appointmentDb.getById in Ha. now rewrite Ha. }
  split; [|split; [|reflexivity]].
  - unfold appointmentDb.getById.
    destruct (loadQueue_frame env now w page) as (Happ & _). rewrite Happ. exact Haw.
  - eexists. split; [apply saved_item_after_load; assumption|].
    fold w.
    assert (Hres : Billing.resolveFee env now w (FeeEdit.savePatch e i)
                   = Billing.mkCorrect (FeeEdit.feeAmount e) (bq_feeType i)
                       (JS.str_or (apt_feeStatus a) (bq_paymentStatus i))).
    { rewrite (resolveFee_linked env now w (FeeEdit.savePatch e i) aid _ (FeeEdit.feeAmount e)
                 Haid Haw eq_refl).
      cbn [apt_feeType apt_feeStatus FeeEdit.savePatch bq_feeType bq_paymentStatus].
      now rewrite str_or_same. }
    destruct (Billing.onSelectedDate env (Billing.selectedDate page) i);
      [|cbn; repeat split; auto; reflexivity].
    unfold resynced. destruct (needsResync env now w (FeeEdit.savePatch e i));
      [|cbn; repeat split; auto; reflexivity].
    unfold resyncPatch. rewrite Hres. cbn. repeat split.
    intros Hnet. rewrite Hnet.
    change (JS.num_or (FeeEdit.discountAmount e) 0)
      with (JS.optnum_or (Some (FeeEdit.discountAmount e)) 0).
    rewrite optnum_or_zero. reflexivity.
Qed.

Lemma saved_fee_reaches_linked_appointment_witness :
  let '(s', _, _, st') :=
    FeeEdit.handleSaveFee Example.env Example.today
      (Example.clinic "prepared" [Example.b1 BPending], [], Example.billingPage,
       Example.popup_400 (Example.b1 BPending)) in
  appointmentDb.getById s' "a1"
  = Some (mkAppointment "a1" "p1" Example.yesterday "completed" (Some 400%Q)
            (Some "New Patient") None)
  /\ FeeEdit.showFeePopup st' = false.
Proof.
  pose proof (saved_fee_reaches_linked_appointment Example.env Example.today
                (Example.clinic "prepared" [Example.b1 BPending]) [] Example.billingPage
                (Example.popup_400 (Example.b1 BPending))
                (Billing.mkDetails (Example.b1 BPending) None []) "a1" Example.a1
                ltac:(repeat constructor; simpl; tauto) eq_refl
                ltac:(left; reflexivity) eq_refl eq_refl) as H.
  destruct (FeeEdit.handleSaveFee _ _ _) as [[[s' fees'] page'] st'].
  destruct H as (H1 & _ & H3). split; [exact H1|exact H3].
Defined.

(** X16: with unique billing ids, the fee typed for a pending item of the
    selected day that has no appointment link does not survive the save when
    the patient's first appointment of the current day carries a fee: the
    reload that ends the save puts the appointment's fee back. The stored
    item has that fee (and, where the typed fee differed from it, a net amount
    of that fee less the typed discount amount), keeps the typed discount and
    payment method, and stays pending; the appointments are not written. *)
Theorem saved_fee_of_unlinked_item_is_overwritten (env : Env) (now : Z) (s : Store)
    (fees : list DoctorFee) (page : Billing.Page) (st : FeeEdit.Popup)
    (sel : Billing.BillingQueueItemWithDetails) (a : Appointment) (f : Q)
    (Hnd : List.NoDup (map bq_id (billingQueue s)))
    (Hsel : FeeEdit.selectedItem st = Some sel)
    (Hin : In (Billing.item sel) (billingQueue s))
    (Hpending : bq_status (Billing.item sel) = BPending)
    (Hday : Billing.onSelectedDate env (Billing.selectedDate page) (Billing.item sel) = true)
    (Hlink : JS.present (bq_appointmentId (Billing.item sel)) = None)
    (Ha : JS.find (Billing.isTodayAppointment env now)
                  (appointmentDb.getByPatient s (bq_patientId (Billing.item sel))) = Some a)
    (Hf : apt_feeAmount a = Some f) :
  let '(s', _, _, _) := FeeEdit.handleSaveFee env now (s, fees, page, st) in
  let i := Billing.item sel in
  let e := FeeEdit.editingFee st in
  appointments s' = appointments s
  /\ exists b',
       billingQueueDb.getById s' (bq_id i) = Some b'
       /\ (bq_feeAmount b' == f)%Q
       /\ (~ (FeeEdit.feeAmount e == f)%Q ->
           bq_feeAmount b' = f /\ (bq_netAmount b' == f - FeeEdit.discountAmount e)%Q)
       /\ bq_discountPercent b' = Some (FeeEdit.discountPercent e)
       /\ bq_discountAmount b' = Some (FeeEdit.discountAmount e)
       /\ bq_paymentMethod b' = Some (FeeEdit.paymentMethod e)
       /\ bq_status b' = BPending.
Proof.
  destruct (handleSaveFee_selected env now s fees page st sel Hsel) as (fees' & -> & _).
  cbv zeta.
  set (i := Billing.item sel) in *. set (e := FeeEdit.editingFee st) in *.
  set (w := feeWritten s i e).
  assert (Haw : appointments w = appointments s).
  { subst w. now rewrite feeWritten_appointments, Hlink. }
  split.
  { destruct (loadQueue_frame env now w page) as (Happ & _). now rewrite Happ. }
  eexists. split; [apply saved_item_after_load; assumption|].
  fold w. rewrite Hday.
  assert (Hres : Billing.resolveFee env now w (FeeEdit.savePatch e i)
                 = Billing.mkCorrect f (JS.str_or (apt_feeType a) (bq_feeType i))
                     (JS.str_or (apt_feeStatus a) (bq_paymentStatus i))).
  { apply (resolveFee_today env now w (FeeEdit.savePatch e i) a f); [exact Hlink| |exact Hf].
    unfold appointmentDb.getByPatient. rewrite Haw. exact Ha. }
  unfold resynced, needsResync.
  cbn [FeeEdit.savePatch bq_status]. rewrite Hpending.
  unfold resyncPatch. rewrite Hres.
  destruct (Billing.differs _ _) eqn:Hd.
  - cbn. split; [reflexivity|]. split; [|repeat split; assumption].
    intros _. split; [reflexivity|].
    change (JS.num_or (FeeEdit.discountAmount e) 0)
      with (JS.optnum_or (Some (FeeEdit.discountAmount e)) 0).
    rewrite optnum_or_zero. reflexivity.
  - unfold Billing.differs in Hd.
    apply orb_false_iff in Hd as [Hd _]. apply orb_false_iff in Hd as [Hd _].
    apply negb_false_iff, Qeq_bool_iff in Hd.
    cbn [Billing.correctFee FeeEdit.savePatch bq_feeAmount] in Hd.
    cbn. split; [symmetry; exact Hd|]. split; [|repeat split; assumption].
    intros Hne. exfalso. apply Hne. symmetry. exact Hd.
Qed.

Lemma saved_fee_of_unlinked_item_is_overwritten_witness :
  let '(s', _, _, _) :=
    FeeEdit.handleSaveFee Example.env Example.today
      (Example.walk_in, [], Example.billingPage, Example.popup_400 Example.b2) in
  exists b', billingQueueDb.getById s' "b2" = Some b' /\ (bq_feeAmount b' == 250)%Q.
Proof.
  pose proof (saved_fee_of_unlinked_item_is_overwritten Example.env Example.today
                Example.walk_in [] Example.billingPage (Example.popup_400 Example.b2)
                (Billing.mkDetails Example.b2 None []) Example.a2 250%Q
                ltac:(repeat constructor; simpl; tauto) eq_refl
                ltac:(left; reflexivity) eq_refl eq_refl eq_refl eq_refl eq_refl) as H.
  destruct (FeeEdit.handleSaveFee _ _ _) as [[[s' fees'] page'] st'].
  destruct H as (_ & b' & H1 & H2 & _). exists b'. split; [exact H1|exact H2].
Defined.

(** ** The buttons and the counters *)

Lemma count_update {A : Type} (key : A -> string) (f : A -> bool) (patch : A -> A)
      (l : list A) (i : nat) (x : A) :
  List.NoDup (map key l) -> l !! i = Some x ->
  (length (List.filter f (Db.update key (key x) patch l)) + (if f x then 1 else 0)
   = length (List.filter f l) + (if f (patch x) then 1 else 0))%nat.
Proof.
  intros Hnd Hi. rewrite update_NoDup by assumption.
  assert (Hgen : forall (l : list A) (i : nat),
             l !! i = Some x -> List.NoDup (map key l) ->
             (length (List.filter f
                        (map (fun y => if String.eqb (key y) (key x) then patch y else y) l))
              + (if f x then 1 else 0)
              = length (List.filter f l) + (if f (patch x) then 1 else 0))%nat).
  { clear l i Hi Hnd. induction l as [|y l IH]; intros i Hi Hnd; [discriminate|].
    apply List.NoDup_cons_iff in Hnd as [Hy Hnd].
    destruct i as [|i]; cbn in Hi.
    - injection Hi as ->. cbn [map List.filter]. rewrite String.eqb_refl.
      assert (Hrest : map (fun y => if String.eqb (key y) (key x) then patch y else y) l = l).
      { rewrite <- (map_id l) at 2. apply map_ext_in. intros z Hz.
        destruct (String.eqb (key z) (key x)) eqn:E; [|reflexivity].
        apply String.eqb_eq in E. exfalso. apply Hy. rewrite <- E. now apply in_map. }
      rewrite Hrest. destruct (f (patch x)), (f x); cbn [length]; lia.
    - cbn [map List.filter].
      assert (Hne : String.eqb (key y) (key x) = false).
      { apply String.eqb_neq. intros E. apply Hy. rewrite E.
        apply in_map. eapply list_elem_of_In, list_elem_of_lookup_2. exact Hi. }
      rewrite Hne. specialize (IH i Hi Hnd).
      destruct (f y); cbn [length]; lia. }
  now apply (Hgen l i).
Qed.

(** The pharmacy queue after each of the four buttons: one update by id. *)
Lemma buttons_pharmacyQueue (env : Env) (s : Store) (page : Pharmacy.Page)
      (a : Pharmacy.Action) (id target : string) :
  pharmacyQueueDb.getById s id <> None ->
  (a = Pharmacy.StartPreparing id /\ target = "preparing")
  \/ (exists now, a = Pharmacy.MarkPrepared now id /\ target = "prepared")
  \/ (exists now, a = Pharmacy.Reopen now id /\ target = "pending")
  \/ (exists reason, a = Pharmacy.Stop id reason /\ target = "stopped") ->
  exists patch,
    (forall p, pq_status (patch p) = target)
    /\ pharmacyQueue (fst (Pharmacy.run env a (s, page)))
       = Db.update pq_id id patch (pharmacyQueue s).
Proof.
  intros Hsome [[-> ->]|[[now [-> ->]]|[[now [-> ->]]|[reason [-> ->]]]]];
    cbn [Pharmacy.run].
  - eexists. split; [|unfold Pharmacy.handleStartPreparing; rewrite loadQueue_store;
                      reflexivity].
    reflexivity.
  - exists (fun p => mkPharmacyQueueItem (pq_id p) (pq_visitId p) (pq_patientId p)
                       (pq_appointmentId p) (pq_prescriptionIds p) (pq_priority p)
                       "prepared" (pq_stopReason p) (Some "pharmacy") (pq_createdAt p)).
    split; [reflexivity|].
    unfold Pharmacy.handleMarkPrepared. rewrite loadQueue_store. cbn [fst].
    destruct (pharmacyQueueDb.getById s id) as [p|]; [|congruence].
    destruct (JS.find (Pharmacy.isRelevantAppointment now) _) as [apt|];
      (destruct (JS.find _ (billingQueueDb.getAll _));
       [|destruct (Pharmacy.inlineFee _ _) as [feeAmount feeType]]);
      reflexivity.
  - exists (pharmacyQueueDb.set_status "pending"). split; [reflexivity|].
    unfold Pharmacy.handleReopen. rewrite loadQueue_store. cbn [fst].
    destruct (pharmacyQueueDb.getById s id) as [p|]; [|congruence].
    destruct (JS.find _ _); reflexivity.
  - eexists. split; [|unfold Pharmacy.handleStop; rewrite loadQueue_store; reflexivity].
    reflexivity.
Qed.

(** X17: with unique pharmacy ids, each button moves exactly the item it is
    pressed for between the Pending, Preparing and Prepared cards: the item is
    taken out of the card of the status it had and put into the card of the
    button's target status (preparing for Start, prepared for Ready, pending
    for Reopen, and none of the three for Stop); nothing else is counted
    differently. *)
Theorem pharmacy_buttons_move_one_item (env : Env) (now : Z) (s : Store)
    (page : Pharmacy.Page) (i : nat) (p : PharmacyQueueItem) (reason : string)
    (Hnd : List.NoDup (map pq_id (pharmacyQueue s)))
    (Hi : pharmacyQueue s !! i = Some p) :
  let before := counters (snd (Pharmacy.loadQueue (s, page))) in
  let after (a : Pharmacy.Action) := counters (snd (Pharmacy.run env a (s, page))) in
  let moved (a : Pharmacy.Action) (target : string) :=
    plus3 (after a) (oneOf (pq_status p)) = plus3 before (oneOf target) in
  moved (Pharmacy.StartPreparing (pq_id p)) "preparing"
  /\ moved (Pharmacy.MarkPrepared now (pq_id p)) "prepared"
  /\ moved (Pharmacy.Reopen now (pq_id p)) "pending"
  /\ moved (Pharmacy.Stop (pq_id p) reason) "stopped".
Proof.
  cbv zeta.
  assert (Hget : pharmacyQueueDb.getById s (pq_id p) <> None).
  { unfold pharmacyQueueDb.getById. rewrite getById_In; [discriminate|assumption|].
    eapply list_elem_of_In, list_elem_of_lookup_2. exact Hi. }
  assert (Hmove : forall a target,
             (a = Pharmacy.StartPreparing (pq_id p) /\ target = "preparing")
             \/ (exists now, a = Pharmacy.MarkPrepared now (pq_id p) /\ target = "prepared")
             \/ (exists now, a = Pharmacy.Reopen now (pq_id p) /\ target = "pending")
             \/ (exists reason, a = Pharmacy.Stop (pq_id p) reason /\ target = "stopped") ->
             plus3 (counters (snd (Pharmacy.run env a (s, page)))) (oneOf (pq_status p))
             = plus3 (counters (snd (Pharmacy.loadQueue (s, page)))) (oneOf target)).
  { intros a target Ha.
    destruct (buttons_pharmacyQueue env s page a (pq_id p) target Hget Ha)
      as (patch & Hpatch & Hq).
    assert (Hrun : Pharmacy.run env a (s, page)
                   = Pharmacy.loadQueue (fst (Pharmacy.run env a (s, page)), page)).
    { destruct Ha as [[-> _]|[[n [-> _]]|[[n [-> _]]|[r [-> _]]]]]; cbn [Pharmacy.run];
        unfold Pharmacy.handleStartPreparing, Pharmacy.handleMarkPrepared,
          Pharmacy.handleReopen, Pharmacy.handleStop;
        rewrite !loadQueue_store; reflexivity. }
    rewrite Hrun. unfold counters.
    destruct (loadQueue_counters (fst (Pharmacy.run env a (s, page))) page) as (-> & -> & ->).
    destruct (loadQueue_counters s page) as (-> & -> & ->).
    rewrite Hq. unfold oneOf, plus3.
    pose proof (count_update pq_id (fun q => String.eqb (pq_status q) "pending") patch
                  _ i p Hnd Hi) as H1.
    pose proof (count_update pq_id (fun q => String.eqb (pq_status q) "preparing") patch
                  _ i p Hnd Hi) as H2.
    pose proof (count_update pq_id (fun q => String.eqb (pq_status q) "prepared") patch
                  _ i p Hnd Hi) as H3.
    cbv beta in H1, H2, H3. rewrite Hpatch in H1, H2, H3.
    rewrite H1, H2, H3. reflexivity. }
  repeat split; apply Hmove; eauto 10.
Qed.

Lemma pharmacy_buttons_move_one_item_witness :
  plus3 (counters (snd (Pharmacy.run Example.env (Pharmacy.StartPreparing "q1")
                          (Example.pharmacy_three, Pharmacy.initialPage))))
        (oneOf "pending")
  = (1%nat, 2%nat, 1%nat).
Proof.
  etransitivity.
  - exact (proj1 (pharmacy_buttons_move_one_item Example.env Example.today
                    Example.pharmacy_three Pharmacy.initialPage 0%nat
                    (Example.q1 "pending") "left"
                    ltac:(repeat constructor; simpl; intros H; intuition discriminate)
                    eq_refl)).
  - vm_compute. reflexivity.
Defined.

(** ** Ready, then Reopen: the appointment *)

Lemma update_update_same {A : Type} (key : A -> string) (id : string) (p1 p2 : A -> A)
      (l : list A) :
  (forall x, key (p1 x) = key x) ->
  Db.update key id p2 (Db.update key id p1 l) = Db.update key id (fun x => p2 (p1 x)) l.
Proof.
  intros Hk. induction l as [|x l IH]; simpl; [reflexivity|].
  destruct (String.eqb (key x) id) eqn:E; simpl.
  - now rewrite Hk, E.
  - now rewrite E, IH.
Qed.

Lemma update_ext {A : Type} (key : A -> string) (id : string) (p1 p2 : A -> A) (l : list A) :
  (forall x, p1 x = p2 x) -> Db.update key id p1 l = Db.update key id p2 l.
Proof.
  intros H. induction l as [|x l IH]; simpl; [reflexivity|].
  destruct (String.eqb (key x) id); [now rewrite H|now rewrite IH].
Qed.

Lemma handleMarkPrepared_appointments (env : Env) (now : Z) (s : Store)
      (page : Pharmacy.Page) (id : string) (p : PharmacyQueueItem) :
  pharmacyQueueDb.getById s id = Some p ->
  appointments (fst (Pharmacy.handleMarkPrepared env now (s, page) id))
  = match JS.find (Pharmacy.isRelevantAppointment now)
                  (appointmentDb.getByPatient s (pq_patientId p)) with
    | Some apt =>
        Db.update apt_id (apt_id apt) (appointmentDb.set_status "medicines-prepared")
                  (appointments s)
    | None => appointments s
    end.
Proof.
  intros Hp. unfold Pharmacy.handleMarkPrepared. rewrite loadQueue_store. cbn [fst].
  rewrite Hp.
  change (appointmentDb.getByPatient (pharmacyQueueDb.markPrepared s id "pharmacy")
            (pq_patientId p))
    with (appointmentDb.getByPatient s (pq_patientId p)).
  destruct (JS.find (Pharmacy.isRelevantAppointment now) _) as [apt|];
    (destruct (JS.find _ (billingQueueDb.getAll _));
     [|destruct (Pharmacy.inlineFee _ _) as [feeAmount feeType]]);
    reflexivity.
Qed.

Lemma handleMarkPrepared_item (env : Env) (now : Z) (s : Store)
      (page : Pharmacy.Page) (id : string) (p : PharmacyQueueItem) :
  pharmacyQueueDb.getById s id = Some p ->
  exists p',
    pharmacyQueueDb.getById (fst (Pharmacy.handleMarkPrepared env now (s, page) id)) id
    = Some p'
    /\ pq_patientId p' = pq_patientId p.
Proof.
  intros Hp.
  destruct (buttons_pharmacyQueue env s page (Pharmacy.MarkPrepared now id) id "prepared")
    as (patch & _ & Hq).
  { congruence. }
  { right. left. eauto. }
  cbn [Pharmacy.run] in Hq.
  unfold Pharmacy.handleMarkPrepared in *. rewrite loadQueue_store in *. cbn [fst] in *.
  rewrite Hp in *.
  destruct (JS.find (Pharmacy.isRelevantAppointment now) _) as [apt|];
    (destruct (JS.find _ (billingQueueDb.getAll _));
     [|destruct (Pharmacy.inlineFee _ _) as [feeAmount feeType]]);
    (eexists; split;
     [unfold pharmacyQueueDb.getById;
      cbn [pharmacyQueue appointmentDb.update_status with_appointments
           pharmacyQueueDb.markPrepared with_pharmacyQueue billingQueueDb.create];
      rewrite getById_update_same by reflexivity;
      unfold pharmacyQueueDb.getById in Hp; rewrite Hp; reflexivity
     |reflexivity]).
Qed.

Lemma handleReopen_appointments (now : Z) (s : Store) (page : Pharmacy.Page)
      (id : string) (p : PharmacyQueueItem) :
  pharmacyQueueDb.getById s id = Some p ->
  appointments (fst (Pharmacy.handleReopen now (s, page) id))
  = match JS.find (fun apt => (isoDate (apt_appointmentDate apt) =? isoDate now)
                              && String.eqb (apt_status apt) "medicines-prepared")
                  (appointmentDb.getByPatient s (pq_patientId p)) with
    | Some apt =>
        Db.update apt_id (apt_id apt) (appointmentDb.set_status "completed") (appointments s)
    | None => appointments s
    end.
Proof.
  intros Hp. unfold Pharmacy.handleReopen. rewrite loadQueue_store. cbn [fst]. rewrite Hp.
  change (appointmentDb.getByPatient (pharmacyQueueDb.update_status s id "pending")
            (pq_patientId p))
    with (appointmentDb.getByPatient s (pq_patientId p)).
  destruct (JS.find _ _); reflexivity.
Qed.

(** The appointment just moved to medicines-prepared is the one Reopen finds,
    when no other appointment of the patient of that day has the status. *)
Lemma find_marked (day : Z) (pid : string) (apt : Appointment) (l : list Appointment) :
  List.NoDup (map apt_id l) ->
  In apt l ->
  apt_patientId apt = pid ->
  isoDate (apt_appointmentDate apt) = day ->
  (forall a, In a l -> apt_patientId a = pid -> isoDate (apt_appointmentDate a) = day ->
             apt_status a <> "medicines-prepared") ->
  JS.find (fun a => (isoDate (apt_appointmentDate a) =? day)
                    && String.eqb (apt_status a) "medicines-prepared")
          (List.filter (fun a => String.eqb (apt_patientId a) pid)
             (Db.update apt_id (apt_id apt) (appointmentDb.set_status "medicines-prepared") l))
  = Some (appointmentDb.set_status "medicines-prepared" apt).
Proof.
  intros Hnd Hin Hpid Hday Hfree. unfold JS.find.
  induction l as [|y l IH]; [contradiction|].
  apply List.NoDup_cons_iff in Hnd as [Hy Hnd].
  cbn [Db.update].
  destruct (String.eqb (apt_id y) (apt_id apt)) eqn:E.
  - apply String.eqb_eq in E.
    assert (y = apt) as ->.
    { destruct Hin as [H|H]; [exact H|]. exfalso. apply Hy. rewrite E. now apply in_map. }
    cbn [List.filter appointmentDb.set_status apt_patientId].
    rewrite Hpid, String.eqb_refl. cbn [List.find].
    unfold appointmentDb.set_status at 1 2. cbn [apt_appointmentDate apt_status].
    rewrite Hday, Z.eqb_refl. reflexivity.
  - assert (Hin' : In apt l).
    { destruct Hin as [H|H]; [|exact H]. subst y. now rewrite String.eqb_refl in E. }
    cbn [List.filter].
    destruct (String.eqb (apt_patientId y) pid) eqn:Ep.
    + cbn [List.find].
      destruct ((isoDate (apt_appointmentDate y) =? day)
                && String.eqb (apt_status y) "medicines-prepared") eqn:Ey.
      * exfalso. apply andb_true_iff in Ey as [Ed Es].
        apply Z.eqb_eq in Ed. apply String.eqb_eq in Es, Ep.
        exact (Hfree y (or_introl eq_refl) Ep Ed Es).
      * apply IH; auto. intros a Ha. apply Hfree. now right.
    + apply IH; auto. intros a Ha. apply Hfree. now right.
Qed.

(** X18: Ready followed on the same UTC day by Reopen, for an item in the
    pharmacy queue of a store with unique appointment ids in which no
    appointment of the patient of that day is in status medicines-prepared:
    the appointment Ready picked (the patient's first of that day in status
    completed or in-progress) ends in status completed, so an appointment
    that was in-progress does not get its status back, and no other
    appointment is changed; when Ready picked none, the appointments are as
    before. *)
Theorem ready_then_reopen_completes_appointment (env : Env) (now1 now2 : Z) (s : Store)
    (page : Pharmacy.Page) (id : string) (p : PharmacyQueueItem)
    (Hnd : List.NoDup (map apt_id (appointments s)))
    (Hp : pharmacyQueueDb.getById s id = Some p)
    (Hday : isoDate now2 = isoDate now1)
    (Hfree : forall a, In a (appointments s) ->
                       apt_patientId a = pq_patientId p ->
                       isoDate (apt_appointmentDate a) = isoDate now1 ->
                       apt_status a <> "medicines-prepared") :
  let sp1 := Pharmacy.handleMarkPrepared env now1 (s, page) id in
  let sp2 := Pharmacy.handleReopen now2 sp1 id in
  appointments (fst sp2)
  = match JS.find (Pharmacy.isRelevantAppointment now1)
                  (appointmentDb.getByPatient s (pq_patientId p)) with
    | Some apt =>
        Db.update apt_id (apt_id apt) (appointmentDb.set_status "completed") (appointments s)
    | None => appointments s
    end.
Proof.
  cbv zeta.
  destruct (handleMarkPrepared_item env now1 s page id p Hp) as (p' & Hp' & Hpid).
  pose proof (handleMarkPrepared_appointments env now1 s page id p Hp) as Happ.
  destruct (Pharmacy.handleMarkPrepared env now1 (s, page) id) as [s1 page1].
  cbn [fst] in Happ, Hp'.
  rewrite (handleReopen_appointments now2 s1 page1 id p' Hp'). rewrite Hpid.
  unfold appointmentDb.getByPatient at 1. rewrite Happ, Hday.
  destruct (JS.find (Pharmacy.isRelevantAppointment now1) _) as [apt|] eqn:Hrel.
  - apply List.find_some in Hrel as [Hin Hrel].
    apply List.filter_In in Hin as [Hin Hpat]. apply String.eqb_eq in Hpat.
    unfold Pharmacy.isRelevantAppointment in Hrel.
    apply andb_true_iff in Hrel as [Hd _]. apply Z.eqb_eq in Hd.
    rewrite (find_marked (isoDate now1) (pq_patientId p) apt (appointments s))
      by assumption.
    cbn [appointmentDb.set_status apt_id].
    rewrite update_update_same by reflexivity.
    apply update_ext. reflexivity.
  - match goal with
    | |- match ?f with _ => _ end = _ => destruct f as [a|] eqn:Hfind; [|reflexivity]
    end.
    exfalso. apply List.find_some in Hfind as [Hin Ha].
    apply List.filter_In in Hin as [Hin Hpat]. apply String.eqb_eq in Hpat.
    apply andb_true_iff in Ha as [Hd Hs].
    apply Z.eqb_eq in Hd. apply String.eqb_eq in Hs.
    exact (Hfree a Hin Hpat Hd Hs).
Qed.

Lemma ready_then_reopen_completes_appointment_witness :
  appointmentDb.getById
    (fst (Pharmacy.handleReopen Example.today
            (Pharmacy.handleMarkPrepared Example.env Example.today
               (Example.clinic_today, Pharmacy.initialPage) "q1") "q1")) "a3"
  = Some (mkAppointment "a3" "p1" Example.today "completed" None None None).
Proof.
  pose proof (ready_then_reopen_completes_appointment Example.env Example.today
                Example.today Example.clinic_today Pharmacy.initialPage "q1"
                (Example.q1 "preparing")
                ltac:(repeat constructor; simpl; intros H; intuition discriminate)
                eq_refl eq_refl
                ltac:(simpl; intros a [<-|[<-|[]]] _ _; discriminate)) as H.
  cbv zeta in H. unfold appointmentDb.getById. rewrite H.
  vm_compute. reflexivity.
Defined.

(** ** Moving the date picker *)

Lemma loadQueue_same_day (env : Env) (now1 now2 : Z) (sp : Store * Billing.Page) :
  toDateString env now1 = toDateString env now2 ->
  Billing.loadQueue env now1 sp = Billing.loadQueue env now2 sp.
Proof.
  intros H.
  unfold Billing.loadQueue, Billing.resync, Billing.resolveFee, Billing.isTodayAppointment,
    endOfDay, startOfDay.
  rewrite H. reflexivity.
Qed.

Lemma resynced_ext (env : Env) (now : Z) (s1 s : Store) (b : BillingQueueItem) :
  appointments s1 = appointments s -> resynced env now s1 b = resynced env now s b.
Proof.
  intros H. unfold resynced, needsResync, resyncPatch.
  now rewrite (resolveFee_ext env now s1 s b H).
Qed.

Lemma resynced_idem (env : Env) (now : Z) (s : Store) (b : BillingQueueItem) :
  resynced env now s (resynced env now s b) = resynced env now s b.
Proof. unfold resynced at 1. now rewrite needsResync_settled. Qed.

Lemma resynced_onDay (env : Env) (now d : Z) (s : Store) (b : BillingQueueItem) :
  Billing.onSelectedDate env d (resynced env now s b) = Billing.onSelectedDate env d b.
Proof. unfold resynced. now destruct (needsResync env now s b). Qed.

Lemma filter_map_agree {A B : Type} (P : B -> bool) (g g' : A -> B) (l : list A) :
  (forall b, P (g b) = P (g' b)) ->
  (forall b, P (g b) = true -> g b = g' b) ->
  List.filter P (map g l) = List.filter P (map g' l).
Proof.
  intros H1 H2. induction l as [|x l IH]; simpl; [reflexivity|].
  rewrite <- H1. destruct (P (g x)) eqn:E; [|exact IH].
  now rewrite (H2 x E), IH.
Qed.

(** The store after two date changes in a row. *)
Lemma two_date_changes (env : Env) (now : Z) (s : Store) (page : Billing.Page) (d1 d2 : Z) :
  List.NoDup (map bq_id (billingQueue s)) ->
  fst (Billing.handleDateChange env now (Billing.handleDateChange env now (s, page) d1) d2)
  = with_billingQueue
      (map (fun b => if Billing.onSelectedDate env d1 b || Billing.onSelectedDate env d2 b
                     then resynced env now s b else b)) s.
Proof.
  intros Hnd. unfold Billing.handleDateChange at 2.
  set (page1 := Billing.mkPage _ _ d1 _).
  destruct (Billing.loadQueue env now (s, page1)) as [s1 p1] eqn:E.
  assert (Hs1 : s1 = with_billingQueue
                       (map (fun b => if Billing.onSelectedDate env d1 b
                                      then resynced env now s b else b)) s).
  { replace s1 with (fst (Billing.loadQueue env now (s, page1))) by now rewrite E.
    now rewrite loadQueue_fst_NoDup. }
  unfold Billing.handleDateChange.
  rewrite loadQueue_fst_NoDup.
  - cbn [Billing.selectedDate]. rewrite Hs1. unfold with_billingQueue.
    cbn [appointments visits prescriptions pharmacyQueue billingQueue billingReceipts
         feeHistory nextId nextReceipt].
    f_equal. rewrite map_map. apply map_ext. intros b.
    assert (Hres : forall x,
               resynced env now
                 (mkStore (appointments s) (visits s) (prescriptions s) (pharmacyQueue s)
                    (map (fun b => if Billing.onSelectedDate env d1 b
                                   then resynced env now s b else b) (billingQueue s))
                    (billingReceipts s) (feeHistory s) (nextId s) (nextReceipt s)) x
               = resynced env now s x).
    { intros x. now apply resynced_ext. }
    destruct (Billing.onSelectedDate env d1 b) eqn:E1; cbn [orb].
    + rewrite resynced_onDay, Hres, resynced_idem.
      now destruct (Billing.onSelectedDate env d2 b).
    + now rewrite Hres.
  - rewrite Hs1. cbn [with_billingQueue billingQueue]. rewrite map_map.
    erewrite map_ext; [exact Hnd|].
    intros b. destruct (Billing.onSelectedDate env d1 b); [apply resynced_id|reflexivity].
Qed.

(** X19: with unique billing ids and within one local day, moving the date
    picker to some day and then to another shows exactly what moving straight
    to the second day shows, and the store ends the same whichever of the two
    days is visited first. *)
Theorem date_changes_commute (env : Env) (now1 now2 : Z) (s : Store)
    (page : Billing.Page) (d1 d2 : Z)
    (Hnd : List.NoDup (map bq_id (billingQueue s)))
    (Hnow : toDateString env now1 = toDateString env now2) :
  let first := Billing.handleDateChange env now1 (s, page) in
  let next := fun sp d => Billing.handleDateChange env now2 sp d in
  snd (next (first d1) d2) = snd (first d2)
  /\ fst (next (first d1) d2) = fst (next (first d2) d1).
Proof.
  cbv zeta.
  assert (Hsame : forall sp d,
             Billing.handleDateChange env now2 sp d = Billing.handleDateChange env now1 sp d).
  { intros [s0 p0] d. unfold Billing.handleDateChange. symmetry.
    now apply loadQueue_same_day. }
  rewrite !Hsame. split.
  - unfold Billing.handleDateChange at 1.
    destruct (Billing.handleDateChange env now1 (s, page) d1) as [s1 p1] eqn:E1.
    rewrite (loadQueue_snd env now1 (s1, _)). cbn [snd Billing.selectedDate Billing.currentReceipt].
    assert (Hfst : fst (Billing.loadQueue env now1
                          (s1, Billing.mkPage (Billing.queueItems p1)
                                 (Billing.completedItems p1) d2 (Billing.currentReceipt p1)))
                   = with_billingQueue
                       (map (fun b => if Billing.onSelectedDate env d1 b
                                         || Billing.onSelectedDate env d2 b
                                      then resynced env now1 s b else b)) s).
    { rewrite <- (two_date_changes env now1 s page d1 d2 Hnd). rewrite E1. reflexivity. }
    rewrite Hfst.
    assert (Hrec : Billing.currentReceipt p1 = Billing.currentReceipt page).
    { replace p1 with (snd (Billing.handleDateChange env now1 (s, page) d1))
        by now rewrite E1.
      unfold Billing.handleDateChange. now rewrite loadQueue_snd. }
    rewrite Hrec.
    unfold Billing.handleDateChange.
    rewrite (loadQueue_snd env now1 (s, _)).
    cbn [snd Billing.selectedDate Billing.currentReceipt].
    rewrite (loadQueue_fst_NoDup env now1 s _ Hnd). cbn [Billing.selectedDate].
    unfold with_billingQueue. cbn [billingQueue].
    assert (Hfilter :
              List.filter (Billing.onSelectedDate env d2)
                (map (fun b => if Billing.onSelectedDate env d1 b
                                  || Billing.onSelectedDate env d2 b
                               then resynced env now1 s b else b) (billingQueue s))
              = List.filter (Billing.onSelectedDate env d2)
                  (map (fun b => if Billing.onSelectedDate env d2 b
                                 then resynced env now1 s b else b) (billingQueue s))).
    { apply filter_map_agree.
      - intros b.
        destruct (Billing.onSelectedDate env d1 b), (Billing.onSelectedDate env d2 b) eqn:E2;
          cbn [orb]; rewrite ?resynced_onDay, ?E2; reflexivity.
      - intros b.
        destruct (Billing.onSelectedDate env d1 b), (Billing.onSelectedDate env d2 b) eqn:E2;
          cbn [orb]; rewrite ?resynced_onDay, ?E2; try reflexivity; discriminate. }
    rewrite Hfilter. reflexivity.
  - rewrite !two_date_changes by assumption.
    unfold with_billingQueue. f_equal. apply map_ext. intros b. now rewrite orb_comm.
Qed.

Lemma date_changes_commute_witness :
  snd (Billing.handleDateChange Example.env (Example.today + 1000)
         (Billing.handleDateChange Example.env Example.today
            (Example.clinic_fee "billed" [Example.b1 BPending; Example.b0 BPending],
             Example.billingPage) Example.yesterday)
         Example.today)
  = snd (Billing.handleDateChange Example.env Example.today
           (Example.clinic_fee "billed" [Example.b1 BPending; Example.b0 BPending],
            Example.billingPage) Example.today).
Proof.
  apply (date_changes_commute Example.env Example.today (Example.today + 1000)
           (Example.clinic_fee "billed" [Example.b1 BPending; Example.b0 BPending])
           Example.billingPage Example.yesterday Example.today).
  - repeat constructor; simpl; intros H; intuition discriminate.
  - reflexivity.
Defined.

(** ** Saving a medicine bill *)

Lemma samePotency_eq (a b : option string) :
  medicineAmountMemoryDb.samePotency a b = true <-> a = b.
Proof.
  destruct a as [x|], b as [y|]; simpl; try (split; congruence).
  rewrite String.eqb_eq. split; congruence.
Qed.

Lemma sameKey_eq (medicine : string) (potency : option string) (m : MedicineAmountMemory) :
  medicineAmountMemoryDb.sameKey medicine potency m = true
  <-> mem_medicine m = medicine /\ mem_potency m = potency.
Proof.
  unfold medicineAmountMemoryDb.sameKey.
  now rewrite andb_true_iff, String.eqb_eq, samePotency_eq.
Qed.

(** Lookup after an upsert: the key written gives the new amount, every
    other key what it gave before. *)
Lemma getByMedicine_upsert (now : Z) (m' m : string) (p' p : option string) (a : Q)
      (l : list MedicineAmountMemory) :
  option_map mem_amount
    (List.find (medicineAmountMemoryDb.sameKey m p)
               (medicineAmountMemoryDb.upsert_in now m' p' a l))
  = if String.eqb m' m && medicineAmountMemoryDb.samePotency p' p
    then Some a
    else option_map mem_amount (List.find (medicineAmountMemoryDb.sameKey m p) l).
Proof.
  induction l as [|y l IH]; cbn [medicineAmountMemoryDb.upsert_in List.find].
  - unfold medicineAmountMemoryDb.sameKey at 1. cbn [mem_medicine mem_potency].
    now destruct (String.eqb m' m && medicineAmountMemoryDb.samePotency p' p).
  - destruct (medicineAmountMemoryDb.sameKey m' p' y) eqn:Ey'.
    + apply sameKey_eq in Ey' as [Hm Hp].
      cbn [List.find]. unfold medicineAmountMemoryDb.sameKey at 1 3.
      cbn [mem_medicine mem_potency]. rewrite Hm, Hp.
      now destruct (String.eqb m' m && medicineAmountMemoryDb.samePotency p' p).
    + cbn [List.find]. destruct (medicineAmountMemoryDb.sameKey m p y) eqn:Ey.
      * apply sameKey_eq in Ey as [Hm Hp].
        destruct (String.eqb m' m && medicineAmountMemoryDb.samePotency p' p) eqn:E;
          [|reflexivity].
        apply andb_true_iff in E as [E1 E2].
        apply String.eqb_eq in E1. apply samePotency_eq in E2. subst m' p'.
        assert (medicineAmountMemoryDb.sameKey m p y = true)
          by (apply sameKey_eq; split; assumption).
        congruence.
      * exact IH.
Qed.

Lemma remember_lookup (now : Z) (bs : BillStore) (item : BillItem) (m : string)
      (p : option string) :
  option_map mem_amount
    (medicineAmountMemoryDb.getByMedicine (MedicineBilling.remember now bs item) m p)
  = if negb (Qle_bool (bi_amount item) 0) && String.eqb (bi_medicine item) m
       && medicineAmountMemoryDb.samePotency (bi_potency item) p
    then Some (bi_amount item)
    else option_map mem_amount (medicineAmountMemoryDb.getByMedicine bs m p).
Proof.
  unfold MedicineBilling.remember.
  destruct (negb (Qle_bool (bi_amount item) 0)); cbn [andb]; [|reflexivity].
  unfold medicineAmountMemoryDb.getByMedicine, medicineAmountMemoryDb.upsert.
  cbn [amountMemory]. rewrite getByMedicine_upsert. reflexivity.
Qed.

Lemma remember_fold (now : Z) (m : string) (p : option string) (items : list BillItem) :
  forall bs,
    option_map mem_amount
      (medicineAmountMemoryDb.getByMedicine
         (fold_left (MedicineBilling.remember now) items bs) m p)
    = match lastAmount m p items with
      | Some a => Some a
      | None => option_map mem_amount (medicineAmountMemoryDb.getByMedicine bs m p)
      end.
Proof.
  induction items as [|x items IH] using rev_ind; intros bs; [reflexivity|].
  rewrite fold_left_app. cbn [fold_left]. rewrite remember_lookup.
  unfold lastAmount. rewrite rev_unit. cbn [List.find].
  destruct (negb (Qle_bool (bi_amount x) 0) && String.eqb (bi_medicine x) m
            && medicineAmountMemoryDb.samePotency (bi_potency x) p); [reflexivity|].
  apply IH.
Qed.

Lemma remember_fold_bills (now : Z) (items : list BillItem) :
  forall bs,
    medicineBills (fold_left (MedicineBilling.remember now) items bs) = medicineBills bs
    /\ nextBillId (fold_left (MedicineBilling.remember now) items bs) = nextBillId bs.
Proof.
  induction items as [|x items IH]; intros bs; [split; reflexivity|].
  cbn [fold_left]. destruct (IH (MedicineBilling.remember now bs x)) as [-> ->].
  unfold MedicineBilling.remember. now destruct (negb _).
Qed.

(** What a save makes of the bill store, and of the popup. *)
Lemma handleSaveBill_viewing (env : Env) (now : Z) (s : Store) (bs : BillStore)
      (page : Billing.Page) (st : MedicineBilling.BillPopup)
      (it : Billing.BillingQueueItemWithDetails) (pid : string) :
  MedicineBilling.viewingBillingItem st = Some it ->
  MedicineBilling.viewingPatient st = Some pid ->
  let bs1 :=
    match MedicineBilling.savedMedicineBill st with
    | Some b => medicineBillDb.update bs (mb_id b) (MedicineBilling.billData it pid st)
    | None => snd (medicineBillDb.create env bs (MedicineBilling.billData it pid st))
    end in
  let saved :=
    match MedicineBilling.savedMedicineBill st with
    | Some b => Some b
    | None => Some (fst (medicineBillDb.create env bs (MedicineBilling.billData it pid st)))
    end in
  MedicineBilling.handleSaveBill env now (s, bs, page, st)
  = (fst (Billing.loadQueue env now (s, page)),
     fold_left (MedicineBilling.remember now) (MedicineBilling.billItems st) bs1,
     snd (Billing.loadQueue env now (s, page)),
     MedicineBilling.mkBillPopup (Some it) (Some pid) (MedicineBilling.billItems st)
       (MedicineBilling.billDiscount st) (MedicineBilling.billTax st)
       (MedicineBilling.billNotes st) saved).
Proof.
  intros Hit Hpid. cbv zeta. unfold MedicineBilling.handleSaveBill. rewrite Hit, Hpid.
  destruct (Billing.loadQueue env now (s, page)) as [s' page'].
  destruct (MedicineBilling.savedMedicineBill st) as [b|] eqn:Hb; reflexivity.
Qed.

(** X20: saving a medicine bill remembers, for every medicine and potency,
    the amount of the last line of the bill for them that is greater than
    zero; the amount remembered for a medicine and potency without such a
    line stays what it was, so a line saved with amount zero never erases a
    remembered amount. *)
Theorem saved_bill_remembers_last_amounts (env : Env) (now : Z) (s : Store)
    (bs : BillStore) (page : Billing.Page) (st : MedicineBilling.BillPopup)
    (it : Billing.BillingQueueItemWithDetails) (pid : string)
    (medicine : string) (potency : option string)
    (Hit : MedicineBilling.viewingBillingItem st = Some it)
    (Hpid : MedicineBilling.viewingPatient st = Some pid) :
  let '(_, bs', _, _) := MedicineBilling.handleSaveBill env now (s, bs, page, st) in
  option_map mem_amount (medicineAmountMemoryDb.getByMedicine bs' medicine potency)
  = match lastAmount medicine potency (MedicineBilling.billItems st) with
    | Some a => Some a
    | None => option_map mem_amount (medicineAmountMemoryDb.getByMedicine bs medicine potency)
    end.
Proof.
  rewrite (handleSaveBill_viewing env now s bs page st it pid Hit Hpid).
  rewrite remember_fold.
  destruct (lastAmount medicine potency (MedicineBilling.billItems st)); [reflexivity|].
  now destruct (MedicineBilling.savedMedicineBill st).
Qed.

Lemma saved_bill_remembers_last_amounts_witness :
  let '(_, bs', _, _) :=
    MedicineBilling.handleSaveBill Example.env Example.today
      (Example.clinic "billed" [Example.b1 BPaid], Example.bills, Example.billingPage,
       Example.billPopup) in
  option_map mem_amount (medicineAmountMemoryDb.getByMedicine bs' "Arnica" (Some "30C"))
  = Some 80%Q.
Proof.
  exact (saved_bill_remembers_last_amounts Example.env Example.today
           (Example.clinic "billed" [Example.b1 BPaid]) Example.bills Example.billingPage
           Example.billPopup (Billing.mkDetails (Example.b1 BPaid) None []) "p1"
           "Arnica" (Some "30C") eq_refl eq_refl).
Defined.

Lemma find_snoc {A : Type} (f : A -> bool) (l : list A) (x : A) :
  List.find f (l ++ [x])
  = match List.find f l with
    | Some y => Some y
    | None => if f x then Some x else None
    end.
Proof.
  induction l as [|y l IH]; simpl; [reflexivity|].
  destruct (f y); [reflexivity|exact IH].
Qed.

Lemma find_none_not_In {A : Type} (key : A -> string) (k : string) (l : list A) :
  List.find (fun x => String.eqb (key x) k) l = None -> ~ In k (map key l).
Proof.
  intros Hnone Hin. apply in_map_iff in Hin as (x & Hx & Hin).
  eapply List.find_none in Hnone; [|exact Hin]. cbv beta in Hnone.
  rewrite Hx, String.eqb_refl in Hnone. discriminate.
Qed.

(** X21: a save from a popup whose saved bill is the stored bill of the
    viewed item (none when none is stored), on a store with unique bill ids
    and at most one bill per billing item: afterwards the item has exactly
    one stored bill, with the lines, percentages, notes and the calculator's
    totals of the popup; it is a new bill at the end of the collection when
    there was none, and the old bill rewritten in place under its id when
    there was one. The popup holds the stored bill's id, bill ids and the
    billing items of the bills stay unique, and the bills of other items stay
    as they were. *)
Theorem save_bill_upserts_one_bill (env : Env) (now : Z) (s : Store) (bs : BillStore)
    (page : Billing.Page) (st : MedicineBilling.BillPopup)
    (it : Billing.BillingQueueItemWithDetails) (pid : string)
    (Hit : MedicineBilling.viewingBillingItem st = Some it)
    (Hpid : MedicineBilling.viewingPatient st = Some pid)
    (Hids : List.NoDup (map mb_id (medicineBills bs)))
    (Hone : List.NoDup (map mb_billingQueueId (medicineBills bs)))
    (Hsync : option_map mb_id (MedicineBilling.savedMedicineBill st)
             = option_map mb_id
                 (medicineBillDb.getByBillingQueueId bs (bq_id (Billing.item it))))
    (Hfresh : MedicineBilling.savedMedicineBill st = None ->
              ~ In (generateId env (nextBillId bs)) (map mb_id (medicineBills bs))) :
  let '(_, bs', _, st') := MedicineBilling.handleSaveBill env now (s, bs, page, st) in
  exists id,
    medicineBillDb.getByBillingQueueId bs' (bq_id (Billing.item it))
    = Some (MedicineBilling.billData it pid st id)
    /\ option_map mb_id (MedicineBilling.savedMedicineBill st') = Some id
    /\ id = match MedicineBilling.savedMedicineBill st with
            | Some b0 => mb_id b0
            | None => generateId env (nextBillId bs)
            end
    /\ length (medicineBills bs')
       = (length (medicineBills bs)
          + match MedicineBilling.savedMedicineBill st with Some _ => 0 | None => 1 end)%nat
    /\ List.NoDup (map mb_id (medicineBills bs'))
    /\ List.NoDup (map mb_billingQueueId (medicineBills bs'))
    /\ (forall b, In b (medicineBills bs) ->
                  mb_billingQueueId b <> bq_id (Billing.item it) ->
                  In b (medicineBills bs')).
Proof.
  rewrite (handleSaveBill_viewing env now s bs page st it pid Hit Hpid).
  unfold medicineBillDb.getByBillingQueueId in *.
  rewrite (proj1 (remember_fold_bills now _ _)).
  cbn [MedicineBilling.savedMedicineBill].
  set (qid := bq_id (Billing.item it)) in *.
  set (data := MedicineBilling.billData it pid st).
  assert (Hdata : forall id, mb_id (data id) = id /\ mb_billingQueueId (data id) = qid)
    by (intros id; split; reflexivity).
  destruct (MedicineBilling.savedMedicineBill st) as [b0|] eqn:Hsaved.
  - cbn [option_map] in Hsync.
    destruct (List.find _ (medicineBills bs)) as [b1|] eqn:Hfind; [|discriminate].
    cbn [option_map] in Hsync. injection Hsync as Hid.
    change (List.find (fun b => String.eqb (mb_billingQueueId b) qid) (medicineBills bs))
      with (Db.getById mb_billingQueueId qid (medicineBills bs)) in Hfind.
    destruct (getById_Some _ _ _ _ Hfind) as [Hin1 Hq1].
    exists (mb_id b0). cbn [medicineBillDb.update medicineBills].
    assert (Hupd : Db.update mb_id (mb_id b0) (fun b => data (mb_id b)) (medicineBills bs)
                   = map (fun x => if String.eqb (mb_billingQueueId x) qid
                                   then data (mb_id x) else x) (medicineBills bs)).
    { rewrite update_NoDup by assumption. apply map_ext_in. intros x Hx.
      destruct (String.eqb (mb_id x) (mb_id b0)) eqn:E1,
               (String.eqb (mb_billingQueueId x) qid) eqn:E2; try reflexivity; exfalso.
      - apply String.eqb_eq in E1. apply String.eqb_neq in E2. apply E2.
        rewrite Hid in E1.
        now rewrite (NoDup_map_eq mb_id _ x b1 Hids Hx Hin1 E1).
      - apply String.eqb_neq in E1. apply String.eqb_eq in E2. apply E1.
        rewrite Hid. f_equal.
        apply (NoDup_map_eq mb_billingQueueId _ x b1 Hone Hx Hin1). congruence. }
    rewrite Hupd.
    assert (Hkeep : forall x,
               mb_id (if String.eqb (mb_billingQueueId x) qid then data (mb_id x) else x)
               = mb_id x
               /\ mb_billingQueueId
                    (if String.eqb (mb_billingQueueId x) qid then data (mb_id x) else x)
                  = mb_billingQueueId x).
    { intros x. destruct (String.eqb (mb_billingQueueId x) qid) eqn:E; [|split; reflexivity].
      apply String.eqb_eq in E. split; [reflexivity|]. now rewrite E. }
    split.
    { change (List.find (fun b => String.eqb (mb_billingQueueId b) qid) ?l)
        with (Db.getById mb_billingQueueId qid l).
      rewrite getById_map by (intros x; apply Hkeep).
      rewrite Hfind. cbn [option_map]. rewrite Hq1, String.eqb_refl. now rewrite Hid. }
    split; [reflexivity|]. split; [reflexivity|].
    split; [rewrite length_map; lia|].
    split.
    { rewrite map_map. erewrite map_ext; [exact Hids|]. intros x. apply Hkeep. }
    split.
    { rewrite map_map. erewrite map_ext; [exact Hone|]. intros x. apply Hkeep. }
    intros b Hb Hne. apply in_map_iff. exists b. split; [|exact Hb].
    apply String.eqb_neq in Hne. now rewrite Hne.
  - cbn [option_map] in Hsync.
    destruct (List.find _ (medicineBills bs)) as [b1|] eqn:Hfind; [discriminate|].
    exists (generateId env (nextBillId bs)).
    cbn [medicineBillDb.create snd fst medicineBills].
    split.
    { rewrite find_snoc, Hfind. cbn [mb_billingQueueId MedicineBilling.billData].
      fold qid. now rewrite String.eqb_refl. }
    split; [reflexivity|]. split; [reflexivity|].
    split; [rewrite length_app; reflexivity|].
    split.
    { rewrite map_app. apply List.NoDup_app; [exact Hids|repeat constructor; simpl; tauto|].
      intros x Hx [<-|[]]. exact (Hfresh eq_refl Hx). }
    split.
    { rewrite map_app. apply List.NoDup_app; [exact Hone|repeat constructor; simpl; tauto|].
      intros x Hx [<-|[]]. exact (find_none_not_In mb_billingQueueId qid _ Hfind Hx). }
    intros b Hb _. apply in_or_app. now left.
Qed.

Lemma save_bill_upserts_one_bill_witness :
  let '(_, bs', _, _) :=
    MedicineBilling.handleSaveBill Example.env Example.today
      (Example.clinic "billed" [Example.b1 BPaid], Example.bills, Example.billingPage,
       Example.billPopup) in
  length (medicineBills bs') = 1%nat.
Proof.
  pose proof (save_bill_upserts_one_bill Example.env Example.today
                (Example.clinic "billed" [Example.b1 BPaid]) Example.bills
                Example.billingPage Example.billPopup
                (Billing.mkDetails (Example.b1 BPaid) None []) "p1"
                eq_refl eq_refl ltac:(constructor) ltac:(constructor) eq_refl
                ltac:(intros _ H; exact H)) as H.
  destruct (MedicineBilling.handleSaveBill _ _ _) as [[[s' bs'] page'] st'].
  destruct H as (id & _ & _ & _ & H & _). exact H.
Defined.

(** ** The sweep and the selected day *)

Lemma admitPrepared_appends (env : Env) (now : Z) (s : Store) (q : PharmacyQueueItem) :
  billingQueue (Billing.admitPrepared env now s q) = billingQueue s
  \/ exists b,
       billingQueue (Billing.admitPrepared env now s q) = billingQueue s ++ [b]
       /\ bq_visitId b = pq_visitId q /\ bq_status b = BPending /\ bq_createdAt b = now.
Proof.
  unfold Billing.admitPrepared.
  destruct (JS.find _ _); [left; reflexivity|right].
  destruct (Billing.admissionFee env now s q) as [feeAmount feeType].
  eexists. split; [reflexivity|]. repeat split.
Qed.

Lemma admitPrepared_new_visit (env : Env) (now : Z) (s : Store) (q : PharmacyQueueItem) :
  ~ In (pq_visitId q) (map bq_visitId (billingQueue s)) ->
  exists b,
    In b (billingQueue (Billing.admitPrepared env now s q))
    /\ bq_visitId b = pq_visitId q /\ bq_status b = BPending /\ bq_createdAt b = now.
Proof.
  intros Hnew. destruct (admitPrepared_creates env now s q Hnew)
    as (b & Hq & _ & _ & Hst & _ & Hv & _).
  destruct (admitPrepared_appends env now s q) as [Heq|(b' & Hq' & Hv' & Hst' & Hc')].
  - rewrite Heq in Hq. exfalso.
    apply (f_equal (@length _)) in Hq. rewrite length_app in Hq. cbn in Hq. lia.
  - exists b'. split; [|auto]. rewrite Hq'. apply in_or_app. right. now left.
Qed.

(** A sweep over items among which one is of a visit without a billing item
    leaves a pending billing item of that visit, created during the sweep. *)
Lemma sweep_created (env : Env) (now : Z) (v : string) (items : list PharmacyQueueItem) :
  forall s,
    (exists b, In b (billingQueue s)
               /\ bq_visitId b = v /\ bq_status b = BPending /\ bq_createdAt b = now)
    \/ (~ In v (map bq_visitId (billingQueue s)) /\ In v (map pq_visitId items)) ->
    exists b, In b (billingQueue (fold_left (Billing.admitPrepared env now) items s))
              /\ bq_visitId b = v /\ bq_status b = BPending /\ bq_createdAt b = now.
Proof.
  induction items as [|q items IH]; intros s H; cbn [fold_left].
  - destruct H as [H|[_ []]]. exact H.
  - apply IH. destruct H as [(b & Hb & Hrest)|[Hnew Hin]].
    + left. exists b. split; [|exact Hrest].
      destruct (admitPrepared_appends env now s q) as [->|(b' & -> & _)]; [exact Hb|].
      apply in_or_app. now left.
    + destruct (String.eqb (pq_visitId q) v) eqn:E.
      * apply String.eqb_eq in E. left. rewrite <- E in Hnew |- *.
        now apply admitPrepared_new_visit.
      * apply String.eqb_neq in E. right. split.
        -- rewrite admitPrepared_visitIds. destruct (JS.find _ _); [exact Hnew|].
           rewrite in_app_iff. intros [H|[H|[]]]; [now apply Hnew|now apply E].
        -- destruct Hin as [H|H]; [contradiction|exact H].
Qed.

(** X22: a prepared pharmacy item whose visit has no billing item gets one
    by the sweep, pending and created at the instant of the sweep; the reload
    that ends the sweep lists it under Pending exactly when the selected date
    is the current local day, and never under Completed. While another day is
    selected the sweep admits items without showing them. *)
Theorem swept_item_listed_only_on_current_day (env : Env) (now : Z) (s : Store)
    (page : Billing.Page) (p : PharmacyQueueItem)
    (Hp : In p (pharmacyQueue s))
    (Hst : pq_status p = "prepared")
    (Hnew : ~ In (pq_visitId p) (map bq_visitId (billingQueue s))) :
  let sp' := Billing.checkPharmacyQueue env now (s, page) in
  exists b,
    In b (billingQueue (fst sp'))
    /\ bq_visitId b = pq_visitId p /\ bq_status b = BPending /\ bq_createdAt b = now
    /\ (In b (map Billing.item (Billing.queueItems (snd sp')))
        <-> toDateString env now = toDateString env (Billing.selectedDate page))
    /\ ~ In b (map Billing.item (Billing.completedItems (snd sp'))).
Proof.
  cbv zeta. unfold Billing.checkPharmacyQueue, pharmacyQueueDb.getAll.
  set (items := List.filter Billing.isPrepared (pharmacyQueue s)).
  set (sA := fold_left (Billing.admitPrepared env now) items s).
  destruct (sweep_created env now (pq_visitId p) items s) as (b0 & Hb0 & Hv0 & Hs0 & Hc0).
  { right. split; [exact Hnew|]. apply in_map. apply List.filter_In.
    split; [exact Hp|]. unfold Billing.isPrepared. now rewrite Hst. }
  fold sA in Hb0.
  assert (Hkept : exists b,
             In b (billingQueue (fst (Billing.loadQueue env now (sA, page))))
             /\ (bq_visitId b, bq_status b, bq_createdAt b)
                = (bq_visitId b0, bq_status b0, bq_createdAt b0)).
  { assert (Hin : In (bq_visitId b0, bq_status b0, bq_createdAt b0)
                     (map (fun b => (bq_visitId b, bq_status b, bq_createdAt b))
                          (billingQueue (fst (Billing.loadQueue env now (sA, page)))))).
    { rewrite loadQueue_map by reflexivity.
      apply in_map_iff. exists b0. split; [reflexivity|exact Hb0]. }
    apply in_map_iff in Hin as (b & Hk & Hb). exists b. split; assumption. }
  destruct Hkept as (b & Hb & Hk). injection Hk as Hv Hs Hc.
  rewrite Hv0 in Hv. rewrite Hs0 in Hs. rewrite Hc0 in Hc.
  exists b. split; [exact Hb|]. split; [exact Hv|]. split; [exact Hs|]. split; [exact Hc|].
  rewrite loadQueue_queueItems_items, loadQueue_completedItems_items.
  split.
  - split.
    + intros Hin. eapply Permutation_in in Hin; [|apply sort_Permutation].
      apply List.filter_In in Hin as [Hin _]. apply List.filter_In in Hin as [_ Hon].
      unfold Billing.onSelectedDate in Hon. apply Z.eqb_eq in Hon. now rewrite Hc in Hon.
    + intros Hday. eapply Permutation_in; [symmetry; apply sort_Permutation|].
      apply List.filter_In. split.
      * apply List.filter_In. split; [exact Hb|].
        unfold Billing.onSelectedDate. apply Z.eqb_eq. now rewrite Hc.
      * unfold Billing.isPendingOrPaid. now rewrite Hs.
  - intros Hin. eapply Permutation_in in Hin; [|apply sort_Permutation].
    apply List.filter_In in Hin as [_ Hcomp].
    unfold Billing.isCompleted in Hcomp. rewrite Hs in Hcomp. discriminate.
Qed.

Lemma swept_item_listed_only_on_current_day_witness :
  exists b,
    In b (map Billing.item
            (Billing.queueItems
               (snd (Billing.checkPharmacyQueue Example.env Example.today
                       (Example.clinic "prepared" [], Example.billingPage)))))
    /\ bq_visitId b = "v1".
Proof.
  destruct (swept_item_listed_only_on_current_day Example.env Example.today
              (Example.clinic "prepared" []) Example.billingPage (Example.q1 "prepared")
              ltac:(left; reflexivity) eq_refl ltac:(simpl; tauto))
    as (b & _ & Hv & _ & _ & Hlisted & _).
  exists b. split; [apply Hlisted; reflexivity|exact Hv].
Defined.

(** ** The sweep, seen from the pharmacy page *)

Lemma sweep_shape (env : Env) (now : Z) (l : list PharmacyQueueItem)
      (items : list PharmacyQueueItem) :
  List.NoDup (map pq_id l) ->
  (forall p, In p items -> In p l /\ pq_status p = "prepared") ->
  forall s,
    (exists f, pharmacyQueue s = map f l /\ forall a, In a l -> sweptFrom a (f a)) ->
    exists f,
      pharmacyQueue (fold_left (Billing.admitPrepared env now) items s) = map f l
      /\ forall a, In a l -> sweptFrom a (f a).
Proof.
  intros Hnd. induction items as [|p items IH]; intros Hitems s Hs; cbn [fold_left];
    [exact Hs|].
  apply IH; [intros q Hq; apply Hitems; now right|].
  destruct Hs as (f & Hq & Hf).
  destruct (Hitems p (or_introl eq_refl)) as [Hp Hst].
  rewrite admitPrepared_pharmacyQueue.
  destruct (JS.find _ _); [exists f; split; assumption|].
  assert (Hid : forall a, In a l -> pq_id (f a) = pq_id a).
  { intros a Ha. destruct (Hf a Ha) as [->|[_ ->]]; reflexivity. }
  exists (fun a => if String.eqb (pq_id a) (pq_id p)
                   then pharmacyQueueDb.set_status "billed" (f a) else f a).
  split.
  - rewrite Hq. rewrite update_NoDup.
    + rewrite map_map. apply map_ext_in. intros a Ha. now rewrite (Hid a Ha).
    + rewrite map_map. erewrite map_ext_in; [exact Hnd|]. intros a Ha. now apply Hid.
  - intros a Ha. destruct (String.eqb (pq_id a) (pq_id p)) eqn:E; [|now apply Hf].
    apply String.eqb_eq in E.
    assert (a = p) as -> by (eapply (NoDup_map_eq pq_id); eassumption).
    right. split; [exact Hst|].
    destruct (Hf p Ha) as [->|[_ ->]]; reflexivity.
Qed.

(** X23: the sweep of the billing page seen from the pharmacy page, for a
    pharmacy queue with unique ids: a poll after the sweep shows the active
    listing it showed before; the Prepared tab keeps only items it had
    before, each now with a billing item for its visit, and every item gone
    from the Prepared tab is in the store in status billed, so that Reopen is
    no longer offered for it. *)
Theorem sweep_seen_from_pharmacy (env : Env) (now : Z) (s : Store)
    (billingPage : Billing.Page) (pharmacyPage : Pharmacy.Page)
    (Hnd : List.NoDup (map pq_id (pharmacyQueue s))) :
  let s' := fst (Billing.checkPharmacyQueue env now (s, billingPage)) in
  let before := snd (Pharmacy.loadQueue (s, pharmacyPage)) in
  let after := snd (Pharmacy.loadQueue (s', pharmacyPage)) in
  map Pharmacy.item (Pharmacy.queueItems after)
  = map Pharmacy.item (Pharmacy.queueItems before)
  /\ (forall q, In q (map Pharmacy.item (Pharmacy.preparedItems after)) ->
                In q (map Pharmacy.item (Pharmacy.preparedItems before))
                /\ In (pq_visitId q) (map bq_visitId (billingQueue s')))
  /\ (forall q, In q (map Pharmacy.item (Pharmacy.preparedItems before)) ->
                ~ In q (map Pharmacy.item (Pharmacy.preparedItems after)) ->
                In (pharmacyQueueDb.set_status "billed" q) (pharmacyQueue s')).
Proof.
  cbv zeta. rewrite !loadQueue_queueItems, !loadQueue_preparedItems.
  unfold Billing.checkPharmacyQueue, pharmacyQueueDb.getAll.
  set (items := List.filter Billing.isPrepared (pharmacyQueue s)).
  set (sA := fold_left (Billing.admitPrepared env now) items s).
  destruct (loadQueue_frame env now sA billingPage) as (_ & Hq & _).
  rewrite Hq, loadQueue_visitIds.
  destruct (sweep_shape env now (pharmacyQueue s) items Hnd) with (s := s)
    as (f & Hf & Hswept).
  { intros p Hp. apply List.filter_In in Hp as [Hp Hst].
    split; [exact Hp|]. now apply String.eqb_eq. }
  { exists (fun a => a). split; [now rewrite map_id|]. intros a _. now left. }
  fold sA in Hf. rewrite Hf.
  assert (Hfilter : forall a, In a (pharmacyQueue s) ->
                      Pharmacy.isActive (f a) = Pharmacy.isActive a
                      /\ (Pharmacy.isActive (f a) = true -> f a = a)
                      /\ (Pharmacy.isPrepared (f a) = true ->
                          f a = a /\ Pharmacy.isPrepared a = true)).
  { intros a Ha. destruct (Hswept a Ha) as [->|[Hst ->]]; [auto|].
    unfold Pharmacy.isActive, Pharmacy.isPrepared.
    cbn [pharmacyQueueDb.set_status pq_status]. rewrite Hst.
    repeat split; discriminate. }
  assert (Hactive : List.filter Pharmacy.isActive (map f (pharmacyQueue s))
                    = List.filter Pharmacy.isActive (pharmacyQueue s)).
  { clear Hf Hq. induction (pharmacyQueue s) as [|a l IH]; [reflexivity|].
    cbn [map List.filter].
    destruct (Hfilter a (or_introl eq_refl)) as (H1 & H2 & _).
    rewrite IH.
    - rewrite H1. destruct (Pharmacy.isActive a) eqn:E; [|reflexivity].
      rewrite H2; [reflexivity|]. now rewrite H1.
    - apply List.NoDup_cons_iff in Hnd. tauto.
    - intros x Hx. apply Hswept. now right.
    - intros x Hx. apply Hfilter. now right. }
  split; [now rewrite Hactive|]. split.
  - intros q Hin. eapply Permutation_in in Hin; [|apply sortItems_Permutation].
    apply List.filter_In in Hin as [Hin Hprep].
    apply in_map_iff in Hin as (a & <- & Ha).
    destruct (Hfilter a Ha) as (_ & _ & H3). destruct (H3 Hprep) as [Hfa Hpa].
    rewrite Hfa. split.
    + eapply Permutation_in; [symmetry; apply sortItems_Permutation|].
      apply List.filter_In. split; assumption.
    + apply sweep_covers. apply List.filter_In. split; [exact Ha|exact Hpa].
  - intros q Hin Hgone. eapply Permutation_in in Hin; [|apply sortItems_Permutation].
    apply List.filter_In in Hin as [Hin Hprep].
    destruct (Hswept q Hin) as [Hsame|[_ Hbilled]].
    + exfalso. apply Hgone.
      eapply Permutation_in; [symmetry; apply sortItems_Permutation|].
      apply List.filter_In. split; [|exact Hprep].
      apply in_map_iff. exists q. split; [exact Hsame|exact Hin].
    + rewrite <- Hbilled. now apply in_map.
Qed.

Lemma sweep_seen_from_pharmacy_witness :
  map Pharmacy.item
      (Pharmacy.queueItems
         (snd (Pharmacy.loadQueue
                 (fst (Billing.checkPharmacyQueue Example.env Example.today
                         (Example.pharmacy_three, Example.billingPage)),
                  Pharmacy.initialPage))))
  = map Pharmacy.item
        (Pharmacy.queueItems
           (snd (Pharmacy.loadQueue (Example.pharmacy_three, Pharmacy.initialPage)))).
Proof.
  exact (proj1 (sweep_seen_from_pharmacy Example.env Example.today Example.pharmacy_three
                  Example.billingPage Pharmacy.initialPage
                  ltac:(repeat constructor; simpl; intros H; intuition discriminate))).
Defined.

(** * Fee resolution, stated on the appointments *)

(** ** The lookups *)

Lemma find_firstOfPatient (f : Appointment -> bool) (P : Appointment -> Prop)
      (s : Store) (patientId : string) (apt : Appointment) :
  (forall a, f a = true <-> P a) ->
  firstOfPatient s patientId P apt ->
  JS.find f (appointmentDb.getByPatient s patientId) = Some apt.
Proof.
  intros Hf (l1 & l2 & Heq & Hpid & HP & Hnone).
  unfold JS.find, appointmentDb.getByPatient. rewrite Heq. clear Heq.
  induction l1 as [|a l1 IH]; cbn [app List.filter].
  - rewrite Hpid, String.eqb_refl. cbn [List.find]. now rewrite (proj2 (Hf apt) HP).
  - destruct (String.eqb (apt_patientId a) patientId) eqn:E.
    + cbn [List.find]. destruct (f a) eqn:Ea.
      * exfalso. apply (Hnone a (or_introl eq_refl)); [now apply String.eqb_eq|now apply Hf].
      * apply IH. intros x Hx. apply Hnone. now right.
    + apply IH. intros x Hx. apply Hnone. now right.
Qed.

Lemma find_noneOfPatient (f : Appointment -> bool) (P : Appointment -> Prop)
      (s : Store) (patientId : string) :
  (forall a, f a = true <-> P a) ->
  noneOfPatient s patientId P ->
  JS.find f (appointmentDb.getByPatient s patientId) = None.
Proof.
  intros Hf Hnone. unfold JS.find.
  destruct (List.find f _) as [a|] eqn:E; [exfalso|reflexivity].
  apply List.find_some in E as [Hin Ha].
  apply List.filter_In in Hin as [Hin Hpid]. apply String.eqb_eq in Hpid.
  apply (Hnone a Hin Hpid). now apply Hf.
Qed.

Lemma isRelevantAppointment_iff (now : Z) (a : Appointment) :
  Pharmacy.isRelevantAppointment now a = true <-> seenOnUtcDay now a.
Proof.
  unfold Pharmacy.isRelevantAppointment, seenOnUtcDay.
  now rewrite andb_true_iff, orb_true_iff, Z.eqb_eq, !String.eqb_eq.
Qed.

Lemma isTodayAppointment_onLocalDay (env : Env) (now : Z) (a : Appointment) :
  Billing.isTodayAppointment env now a = true <-> onLocalDay env now a.
Proof. apply isTodayAppointment_iff. Qed.

(** ** What the loader resolves *)

Lemma resolveFee_from_linked (env : Env) (now : Z) (s : Store) (b : BillingQueueItem)
      (apt : Appointment) (f : Q) :
  linkedAppointment s (bq_appointmentId b) = Some apt ->
  apt_feeAmount apt = Some f ->
  Billing.resolveFee env now s b
  = Billing.mkCorrect f (JS.str_or (apt_feeType apt) (bq_feeType b))
                      (JS.str_or (apt_feeStatus apt) (bq_paymentStatus b)).
Proof.
  unfold linkedAppointment. intros Hl Hf.
  destruct (JS.present (bq_appointmentId b)) as [aid|] eqn:Hp; [|discriminate].
  now apply (resolveFee_linked env now s b aid apt f).
Qed.

Lemma resolveFee_past_link (env : Env) (now : Z) (s : Store) (b : BillingQueueItem) :
  noLinkedFee s (bq_appointmentId b) ->
  Billing.resolveFee env now s b
  = let c0 := Billing.mkCorrect (bq_feeAmount b) (bq_feeType b) (bq_paymentStatus b) in
    match JS.find (Billing.isTodayAppointment env now)
                  (appointmentDb.getByPatient s (bq_patientId b)) with
    | Some apt =>
        match Billing.feeFromAppointment apt c0 with
        | Some c => c
        | None => c0
        end
    | None => c0
    end.
Proof.
  unfold noLinkedFee, linkedAppointment, Billing.resolveFee. intros Hl.
  destruct (JS.present (bq_appointmentId b)) as [aid|]; [|reflexivity].
  destruct (appointmentDb.getById s aid) as [apt|]; [|reflexivity].
  unfold Billing.feeFromAppointment at 1. now rewrite (Hl apt eq_refl).
Qed.

Lemma resolveFee_from_today (env : Env) (now : Z) (s : Store) (b : BillingQueueItem)
      (apt : Appointment) (f : Q) :
  noLinkedFee s (bq_appointmentId b) ->
  firstOfPatient s (bq_patientId b) (onLocalDay env now) apt ->
  apt_feeAmount apt = Some f ->
  Billing.resolveFee env now s b
  = Billing.mkCorrect f (JS.str_or (apt_feeType apt) (bq_feeType b))
                      (JS.str_or (apt_feeStatus apt) (bq_paymentStatus b)).
Proof.
  intros Hl Hfirst Hf. rewrite resolveFee_past_link by assumption. cbv zeta.
  rewrite (find_firstOfPatient _ _ s _ apt (isTodayAppointment_onLocalDay env now) Hfirst).
  unfold Billing.feeFromAppointment. now rewrite Hf.
Qed.

Lemma resolveFee_stored (env : Env) (now : Z) (s : Store) (b : BillingQueueItem) :
  noLinkedFee s (bq_appointmentId b) ->
  (noneOfPatient s (bq_patientId b) (onLocalDay env now)
   \/ exists apt, firstOfPatient s (bq_patientId b) (onLocalDay env now) apt
                  /\ apt_feeAmount apt = None) ->
  Billing.resolveFee env now s b
  = Billing.mkCorrect (bq_feeAmount b) (bq_feeType b) (bq_paymentStatus b).
Proof.
  intros Hl H. rewrite resolveFee_past_link by assumption. cbv zeta.
  destruct H as [Hnone|(apt & Hfirst & Hf)].
  - now rewrite (find_noneOfPatient _ _ s _ (isTodayAppointment_onLocalDay env now) Hnone).
  - rewrite (find_firstOfPatient _ _ s _ apt (isTodayAppointment_onLocalDay env now) Hfirst).
    unfold Billing.feeFromAppointment. now rewrite Hf.
Qed.

Lemma resynced_absorbed (env : Env) (now : Z) (s : Store) (b : BillingQueueItem)
      (apt : Appointment) (f : Q) :
  bq_status b = BPending ->
  Billing.resolveFee env now s b
  = Billing.mkCorrect f (JS.str_or (apt_feeType apt) (bq_feeType b))
                      (JS.str_or (apt_feeStatus apt) (bq_paymentStatus b)) ->
  resynced env now s b = absorbed apt f b.
Proof.
  intros Hst Hc. unfold resynced, needsResync, resyncPatch, absorbed, Billing.feePatch.
  rewrite Hc, !Hst. unfold Billing.differs.
  cbn [Billing.correctFee Billing.correctFeeType Billing.correctPaymentStatus].
  destruct (Qeq_bool f (bq_feeAmount b)),
           (String.eqb (JS.str_or (apt_feeType apt) (bq_feeType b)) (bq_feeType b)),
           (String.eqb (JS.str_or (apt_feeStatus apt) (bq_paymentStatus b))
                       (bq_paymentStatus b));
    cbn; reflexivity.
Qed.

Lemma resynced_stored (env : Env) (now : Z) (s : Store) (b : BillingQueueItem) :
  Billing.resolveFee env now s b
  = Billing.mkCorrect (bq_feeAmount b) (bq_feeType b) (bq_paymentStatus b) ->
  resynced env now s b = b.
Proof.
  intros Hc. unfold resynced, needsResync. destruct (bq_status b); try reflexivity.
  rewrite Hc. unfold Billing.differs.
  cbn [Billing.correctFee Billing.correctFeeType Billing.correctPaymentStatus].
  rewrite !String.eqb_refl, (proj2 (Qeq_bool_iff _ _) (Qeq_refl _)). reflexivity.
Qed.

Lemma absorbed_fields (apt : Appointment) (f : Q) (b : BillingQueueItem) :
  (bq_feeAmount (absorbed apt f b) == f)%Q
  /\ (bq_feeAmount b = f -> bq_feeAmount (absorbed apt f b) = f)
  /\ bq_feeType (absorbed apt f b) = JS.str_or (apt_feeType apt) (bq_feeType b)
  /\ bq_paymentStatus (absorbed apt f b) = JS.str_or (apt_feeStatus apt) (bq_paymentStatus b)
  /\ bq_id (absorbed apt f b) = bq_id b
  /\ bq_visitId (absorbed apt f b) = bq_visitId b
  /\ bq_status (absorbed apt f b) = bq_status b
  /\ bq_discountPercent (absorbed apt f b) = bq_discountPercent b
  /\ bq_discountAmount (absorbed apt f b) = bq_discountAmount b.
Proof.
  unfold absorbed.
  destruct (Qeq_bool f (bq_feeAmount b)) eqn:E1; cbn [andb];
    [destruct (String.eqb (JS.str_or (apt_feeType apt) (bq_feeType b)) (bq_feeType b)) eqn:E2;
     cbn [andb];
     [destruct (String.eqb (JS.str_or (apt_feeStatus apt) (bq_paymentStatus b))
                           (bq_paymentStatus b)) eqn:E3|]|];
    cbn; repeat split; try reflexivity; try (intros _; reflexivity).
  - apply Qeq_bool_iff in E1. now symmetry.
  - auto.
  - apply String.eqb_eq in E2. now symmetry.
  - apply String.eqb_eq in E3. now symmetry.
Qed.

(** ** The resync of the loader *)

(** C5 (as stated) fails: the loader re-runs no visit-number step. The item
    the sweep creates for a first visit whose linked appointment carries no
    fee amount is stored at (300, "Consultation"); fee resolution in full
    gives (500, "New Patient") for it, a different fee amount and fee type,
    and yet a load, and a second one, leave the item as it is. *)
Lemma fee_resync_counterexample :
  let s1 := fst (Billing.checkPharmacyQueue Example.env Example.today
                   (Example.clinic "prepared" [], Example.billingPage)) in
  let s2 := fst (Billing.loadQueue Example.env Example.today (s1, Example.billingPage)) in
  let stored (s : Store) :=
    map (fun b => (bq_status b, bq_feeAmount b, bq_feeType b, bq_visitId b))
        (billingQueue s) in
  stored s1 = [(BPending, 300%Q, "Consultation", "v1")]
  /\ stored s2 = [(BPending, 300%Q, "Consultation", "v1")]
  /\ doctorVisitDb.getById s1 "v1" = Some Example.v1
  /\ spec_resolveFee Example.env Example.today s1 (Some "a1") "p1"
       (dv_visitNumber Example.v1)
     = (500%Q, "New Patient").
Proof. vm_compute. repeat split; reflexivity. Qed.

(** C5 (amended): when the loader meets a pending billing item created on
    the selected day it re-runs the two appointment steps of fee resolution
    and no visit-number step. The appointment linked by id, when it is in the
    store and has a fee amount, gives the fee amount, and its fee type and
    fee status give fee type and payment status where it has them; failing
    that, the patient's first appointment of the current local day does so
    when it has a fee amount; failing that too, the stored values stand. If
    fee amount, fee type or payment status so resolved differs from the
    stored one, the item is replaced in place by the item with the three
    resolved values and the net amount of the fee less the stored discount
    amount, discount percent and discount amount staying as they were;
    otherwise, and for every item that is not pending or not of the selected
    day, the item is left as it is. *)
Theorem pending_item_fee_resync (env : Env) (now : Z) (s : Store) (page : Billing.Page)
    (i : nat) (b : BillingQueueItem)
    (Hnd : List.NoDup (map bq_id (billingQueue s)))
    (Hb : billingQueue s !! i = Some b) :
  let s' := fst (Billing.loadQueue env now (s, page)) in
  let met :=
    bq_status b = BPending
    /\ toDateString env (bq_createdAt b) = toDateString env (Billing.selectedDate page) in
  (forall apt f,
      met -> linkedAppointment s (bq_appointmentId b) = Some apt ->
      apt_feeAmount apt = Some f ->
      billingQueue s' !! i = Some (absorbed apt f b))
  /\ (forall apt f,
        met -> noLinkedFee s (bq_appointmentId b) ->
        firstOfPatient s (bq_patientId b) (onLocalDay env now) apt ->
        apt_feeAmount apt = Some f ->
        billingQueue s' !! i = Some (absorbed apt f b))
  /\ (met -> noLinkedFee s (bq_appointmentId b) ->
      (noneOfPatient s (bq_patientId b) (onLocalDay env now)
       \/ exists apt, firstOfPatient s (bq_patientId b) (onLocalDay env now) apt
                      /\ apt_feeAmount apt = None) ->
      billingQueue s' !! i = Some b)
  /\ (~ met -> billingQueue s' !! i = Some b)
  /\ (forall apt f,
        let feeType := JS.str_or (apt_feeType apt) (bq_feeType b) in
        let paymentStatus := JS.str_or (apt_feeStatus apt) (bq_paymentStatus b) in
        let same := (f == bq_feeAmount b)%Q /\ feeType = bq_feeType b
                    /\ paymentStatus = bq_paymentStatus b in
        (same -> absorbed apt f b = b)
        /\ (~ same ->
            let b' := absorbed apt f b in
            bq_feeAmount b' = f /\ bq_feeType b' = feeType
            /\ bq_paymentStatus b' = paymentStatus
            /\ (bq_netAmount b' == f - default 0 (bq_discountAmount b))%Q
            /\ bq_discountPercent b' = bq_discountPercent b
            /\ bq_discountAmount b' = bq_discountAmount b
            /\ (bq_id b', bq_visitId b', bq_patientId b', bq_appointmentId b',
                bq_prescriptionIds b', bq_status b', bq_paymentMethod b',
                bq_receiptNumber b', bq_createdAt b')
               = (bq_id b, bq_visitId b, bq_patientId b, bq_appointmentId b,
                  bq_prescriptionIds b, bq_status b, bq_paymentMethod b,
                  bq_receiptNumber b, bq_createdAt b))).
Proof.
  cbv zeta.
  rewrite (loadQueue_lookup env now s page i b Hnd Hb).
  assert (Hon : forall (Hmet : bq_status b = BPending
                               /\ toDateString env (bq_createdAt b)
                                  = toDateString env (Billing.selectedDate page)),
             Billing.onSelectedDate env (Billing.selectedDate page) b = true).
  { intros [_ Hday]. unfold Billing.onSelectedDate. now apply Z.eqb_eq. }
  repeat apply conj.
  - intros apt f Hmet Hl Hf. rewrite (Hon Hmet). f_equal.
    apply resynced_absorbed; [apply Hmet|]. now apply resolveFee_from_linked.
  - intros apt f Hmet Hl Hfirst Hf. rewrite (Hon Hmet). f_equal.
    apply resynced_absorbed; [apply Hmet|]. now apply resolveFee_from_today.
  - intros Hmet Hl Hnone. rewrite (Hon Hmet). f_equal.
    apply resynced_stored. now apply resolveFee_stored.
  - intros Hnot.
    destruct (Billing.onSelectedDate env (Billing.selectedDate page) b) eqn:E;
      [|reflexivity].
    f_equal. apply resynced_not_pending. intros Hst. apply Hnot. split; [exact Hst|].
    unfold Billing.onSelectedDate in E. now apply Z.eqb_eq in E.
  - intros apt f. split.
    + intros (H1 & H2 & H3). unfold absorbed.
      rewrite H2, H3, !String.eqb_refl. apply Qeq_bool_iff in H1. now rewrite H1.
    + intros Hdiff. unfold absorbed.
      destruct (Qeq_bool f (bq_feeAmount b)
                && String.eqb (JS.str_or (apt_feeType apt) (bq_feeType b)) (bq_feeType b)
                && String.eqb (JS.str_or (apt_feeStatus apt) (bq_paymentStatus b))
                              (bq_paymentStatus b)) eqn:E.
      * exfalso. apply Hdiff.
        apply andb_true_iff in E as [E E3]. apply andb_true_iff in E as [E1 E2].
        apply Qeq_bool_iff in E1. apply String.eqb_eq in E2, E3. auto.
      * cbn. repeat split; try reflexivity. now rewrite optnum_or_zero.
Qed.

Lemma pending_item_fee_resync_witness :
  billingQueue
    (fst (Billing.loadQueue Example.env Example.today
            (Example.clinic_fee "billed" [Example.b1 BPending], Example.billingPage)))
    !! 0%nat
  = Some (absorbed Example.a1_fee 700 (Example.b1 BPending)).
Proof.
  exact (proj1 (pending_item_fee_resync Example.env Example.today
                  (Example.clinic_fee "billed" [Example.b1 BPending])
                  Example.billingPage 0%nat (Example.b1 BPending)
                  ltac:(repeat constructor; intros H; inversion H) eq_refl)
               Example.a1_fee 700%Q (conj eq_refl eq_refl) eq_refl eq_refl).
Defined.

(** ** The sweep, item by item *)

Lemma admitPrepared_frame (env : Env) (now : Z) (s : Store) (q : PharmacyQueueItem) :
  appointments (Billing.admitPrepared env now s q) = appointments s
  /\ visits (Billing.admitPrepared env now s q) = visits s.
Proof.
  unfold Billing.admitPrepared. destruct (JS.find _ _); [split; reflexivity|].
  destruct (Billing.admissionFee env now s q). split; reflexivity.
Qed.

Lemma sweep_frame (env : Env) (now : Z) (items : list PharmacyQueueItem) :
  forall s,
    appointments (fold_left (Billing.admitPrepared env now) items s) = appointments s
    /\ visits (fold_left (Billing.admitPrepared env now) items s) = visits s.
Proof.
  induction items as [|q items IH]; intros s; cbn [fold_left]; [split; reflexivity|].
  destruct (IH (Billing.admitPrepared env now s q)) as [-> ->].
  apply admitPrepared_frame.
Qed.

Lemma admissionFee_ext (env : Env) (now : Z) (s1 s : Store) (p : PharmacyQueueItem) :
  appointments s1 = appointments s -> visits s1 = visits s ->
  Billing.admissionFee env now s1 p = Billing.admissionFee env now s p.
Proof.
  intros Ha Hv.
  unfold Billing.admissionFee, doctorVisitDb.getById, appointmentDb.getById,
    appointmentDb.getByPatient.
  now rewrite Ha, Hv.
Qed.

(** What one turn of the sweep does to the billing queue and to the id
    counter. *)
Lemma admitPrepared_billingQueue (env : Env) (now : Z) (s : Store) (q : PharmacyQueueItem) :
  (In (pq_visitId q) (map bq_visitId (billingQueue s))
   /\ billingQueue (Billing.admitPrepared env now s q) = billingQueue s
   /\ nextId (Billing.admitPrepared env now s q) = nextId s)
  \/ (~ In (pq_visitId q) (map bq_visitId (billingQueue s))
      /\ billingQueue (Billing.admitPrepared env now s q)
         = billingQueue s
           ++ [admittedItem (generateId env (nextId s)) q (Billing.admissionFee env now s q) now]
      /\ nextId (Billing.admitPrepared env now s q) = S (nextId s)).
Proof.
  unfold Billing.admitPrepared, billingQueueDb.getAll.
  destruct (JS.find _ _) eqn:E.
  - left. split; [|split; reflexivity].
    destruct (in_dec String.string_dec (pq_visitId q) (map bq_visitId (billingQueue s)))
      as [Hin|Hout]; [exact Hin|].
    apply find_sameVisit_None in Hout. congruence.
  - right. split; [now apply find_sameVisit_None|].
    destruct (Billing.admissionFee env now s q) as [feeAmount feeType].
    split; reflexivity.
Qed.

Lemma idsFresh_admitPrepared (env : Env) (now : Z) (s : Store) (q : PharmacyQueueItem) :
  idsFresh env s -> idsFresh env (Billing.admitPrepared env now s q).
Proof.
  intros (Hnd & Hfresh & Hinj). unfold idsFresh.
  destruct (admitPrepared_billingQueue env now s q) as [(_ & -> & ->)|(_ & -> & ->)];
    [auto|].
  rewrite map_app. cbn [map admittedItem bq_id].
  split; [|split].
  - apply List.NoDup_app; [exact Hnd|repeat constructor; simpl; tauto|].
    intros x Hx [<-|[]]. exact (Hfresh (nextId s) (le_n _) Hx).
  - intros k Hk Hin. apply in_app_iff in Hin as [Hin|[Heq|[]]].
    + apply (Hfresh k); [lia|exact Hin].
    + apply Hinj in Heq; lia.
  - intros j k Hj Hk. apply Hinj; lia.
Qed.

Lemma sweep_idsFresh (env : Env) (now : Z) (items : list PharmacyQueueItem) :
  forall s, idsFresh env s ->
    idsFresh env (fold_left (Billing.admitPrepared env now) items s).
Proof.
  induction items as [|q items IH]; intros s H; cbn [fold_left]; [exact H|].
  apply IH. now apply idsFresh_admitPrepared.
Qed.

Lemma sweep_keeps (env : Env) (now : Z) (b : BillingQueueItem)
      (items : list PharmacyQueueItem) :
  forall s, In b (billingQueue s) ->
    In b (billingQueue (fold_left (Billing.admitPrepared env now) items s)).
Proof.
  induction items as [|q items IH]; intros s H; cbn [fold_left]; [exact H|].
  apply IH.
  destruct (admitPrepared_billingQueue env now s q) as [(_ & -> & _)|(_ & -> & _)];
    [exact H|].
  apply in_or_app. now left.
Qed.

(** The item the sweep creates for a prepared pharmacy item that is the only
    one of its visit, for a visit without a billing item. *)
Lemma sweep_item (env : Env) (now : Z) (s : Store) (p : PharmacyQueueItem)
      (items : list PharmacyQueueItem) :
  forall cur,
    appointments cur = appointments s -> visits cur = visits s ->
    In p items ->
    (forall q, In q items -> pq_visitId q = pq_visitId p -> q = p) ->
    ~ In (pq_visitId p) (map bq_visitId (billingQueue cur)) ->
    exists id,
      In (admittedItem id p (Billing.admissionFee env now s p) now)
         (billingQueue (fold_left (Billing.admitPrepared env now) items cur)).
Proof.
  induction items as [|q items IH]; intros cur Ha Hv Hin Honly Hnew; [contradiction|].
  cbn [fold_left].
  destruct (String.eqb (pq_visitId q) (pq_visitId p)) eqn:E.
  - apply String.eqb_eq in E.
    assert (q = p) as -> by (apply Honly; [now left|exact E]).
    exists (generateId env (nextId cur)). apply sweep_keeps.
    destruct (admitPrepared_billingQueue env now cur p) as [(Hc & _)|(_ & -> & _)];
      [contradiction|].
    rewrite (admissionFee_ext env now cur s p Ha Hv).
    apply in_or_app. right. now left.
  - apply String.eqb_neq in E.
    destruct (admitPrepared_frame env now cur q) as [Ha' Hv'].
    apply IH.
    + congruence.
    + congruence.
    + destruct Hin as [->|Hin]; [now contradiction E|exact Hin].
    + intros x Hx. apply Honly. now right.
    + destruct (admitPrepared_billingQueue env now cur q) as [(_ & -> & _)|(_ & -> & _)];
        [exact Hnew|].
      rewrite map_app, in_app_iff. cbn [map admittedItem bq_visitId].
      intros [H|[H|[]]]; [now apply Hnew|now apply E].
Qed.

(** ** The fee at admission, case by case *)

Lemma admissionFee_linked (env : Env) (now : Z) (s : Store) (p : PharmacyQueueItem)
      (apt : Appointment) :
  linkedAppointment s (pq_appointmentId p) = Some apt ->
  Billing.admissionFee env now s p
  = (default 300%Q (apt_feeAmount apt), JS.str_or (apt_feeType apt) "Consultation").
Proof.
  unfold linkedAppointment, Billing.admissionFee. intros H.
  destruct (JS.present (pq_appointmentId p)) as [aid|]; [|discriminate].
  now rewrite H.
Qed.

Lemma admissionFee_dead_link (env : Env) (now : Z) (s : Store) (p : PharmacyQueueItem)
      (aid : string) :
  JS.present (pq_appointmentId p) = Some aid ->
  linkedAppointment s (pq_appointmentId p) = None ->
  Billing.admissionFee env now s p = (300%Q, "Consultation").
Proof.
  unfold linkedAppointment, Billing.admissionFee. intros Hp H. rewrite Hp in *.
  now rewrite H.
Qed.

Lemma admissionFee_today (env : Env) (now : Z) (s : Store) (p : PharmacyQueueItem)
      (apt : Appointment) :
  JS.present (pq_appointmentId p) = None ->
  firstOfPatient s (pq_patientId p) (onLocalDay env now) apt ->
  Billing.admissionFee env now s p
  = (default 300%Q (apt_feeAmount apt), JS.str_or (apt_feeType apt) "Consultation").
Proof.
  intros Hp Hfirst. unfold Billing.admissionFee. rewrite Hp.
  now rewrite (find_firstOfPatient _ _ s _ apt (isTodayAppointment_onLocalDay env now) Hfirst).
Qed.

Lemma admissionFee_visit (env : Env) (now : Z) (s : Store) (p : PharmacyQueueItem)
      (v : DoctorVisit) :
  JS.present (pq_appointmentId p) = None ->
  noneOfPatient s (pq_patientId p) (onLocalDay env now) ->
  doctorVisitDb.getById s (pq_visitId p) = Some v ->
  Billing.admissionFee env now s p
  = if dv_visitNumber v =? 1 then (500%Q, "New Patient") else (300%Q, "Follow Up").
Proof.
  intros Hp Hnone Hv. unfold Billing.admissionFee. rewrite Hp, Hv.
  now rewrite (find_noneOfPatient _ _ s _ (isTodayAppointment_onLocalDay env now) Hnone).
Qed.

(** ** The two admission paths *)

Lemma resynced_keeps (env : Env) (now : Z) (s : Store) (b : BillingQueueItem) :
  bq_visitId (resynced env now s b) = bq_visitId b
  /\ bq_status (resynced env now s b) = bq_status b.
Proof. unfold resynced. destruct (needsResync env now s b); split; reflexivity. Qed.

(** C2: the fee an admission stores, path by path. The sweep of the billing
    page, for a prepared pharmacy item that is the only one of its visit, and
    its closing reload: a linked appointment with a fee amount gives the fee;
    a link that is set but gives no fee amount ends at 300 and never reaches
    the visit number, and reaches the patient's first appointment of the
    current local day only through the reload, that is while the page shows
    the current day; without a link that first appointment of the day gives
    the fee (300 when it has none), and the visit number decides only when
    there is no appointment of the day. The inline admission of Ready never
    looks at the link: the patient's first appointment with the UTC date of
    the instant and in status completed or in-progress gives the fee (300
    when it has none), and without such an appointment the visit number
    decides. *)
Theorem admission_fee_by_path (env : Env) (now : Z) (s : Store) (p : PharmacyQueueItem)
    (Hnew : ~ In (pq_visitId p) (map bq_visitId (billingQueue s))) :
  let patient := pq_patientId p in
  let byVisit (v : DoctorVisit) : Q * string :=
    if dv_visitNumber v =? 1 then (500%Q, "New Patient") else (300%Q, "Follow Up") in
  (forall page,
      idsFresh env s ->
      In p (pharmacyQueue s) -> pq_status p = "prepared" ->
      (forall q, In q (pharmacyQueue s) -> pq_status q = "prepared" ->
                 pq_visitId q = pq_visitId p -> q = p) ->
      let sp' := Billing.checkPharmacyQueue env now (s, page) in
      let shown := toDateString env now = toDateString env (Billing.selectedDate page) in
      exists b,
        In b (billingQueue (fst sp'))
        /\ bq_visitId b = pq_visitId p /\ bq_status b = BPending
        /\ (forall apt f,
              linkedAppointment s (pq_appointmentId p) = Some apt ->
              apt_feeAmount apt = Some f ->
              bq_feeAmount b = f /\ bq_feeType b = JS.str_or (apt_feeType apt) "Consultation")
        /\ (forall aid,
              JS.present (pq_appointmentId p) = Some aid ->
              noLinkedFee s (pq_appointmentId p) ->
              let feeType :=
                match linkedAppointment s (pq_appointmentId p) with
                | Some apt => JS.str_or (apt_feeType apt) "Consultation"
                | None => "Consultation"
                end in
              ((~ shown
                \/ noneOfPatient s patient (onLocalDay env now)
                \/ (exists apt2, firstOfPatient s patient (onLocalDay env now) apt2
                                 /\ apt_feeAmount apt2 = None)) ->
               bq_feeAmount b = 300%Q /\ bq_feeType b = feeType)
              /\ (forall apt2 f2,
                    shown ->
                    firstOfPatient s patient (onLocalDay env now) apt2 ->
                    apt_feeAmount apt2 = Some f2 ->
                    (bq_feeAmount b == f2)%Q
                    /\ bq_feeType b = JS.str_or (apt_feeType apt2) feeType))
        /\ (forall apt,
              JS.present (pq_appointmentId p) = None ->
              firstOfPatient s patient (onLocalDay env now) apt ->
              bq_feeAmount b = default 300%Q (apt_feeAmount apt)
              /\ bq_feeType b = JS.str_or (apt_feeType apt) "Consultation")
        /\ (forall v,
              JS.present (pq_appointmentId p) = None ->
              noneOfPatient s patient (onLocalDay env now) ->
              doctorVisitDb.getById s (pq_visitId p) = Some v ->
              (bq_feeAmount b, bq_feeType b) = byVisit v))
  /\ (forall page id,
        pharmacyQueueDb.getById s id = Some p ->
        exists b,
          billingQueue (fst (Pharmacy.handleMarkPrepared env now (s, page) id))
          = billingQueue s ++ [b]
          /\ bq_visitId b = pq_visitId p /\ bq_status b = BPending
          /\ bq_netAmount b = bq_feeAmount b
          /\ (forall apt,
                firstOfPatient s patient (seenOnUtcDay now) apt ->
                bq_feeAmount b = default 300%Q (apt_feeAmount apt)
                /\ bq_feeType b = JS.str_or (apt_feeType apt) "Follow Up")
          /\ (forall v,
                noneOfPatient s patient (seenOnUtcDay now) ->
                doctorVisitDb.getById s (pq_visitId p) = Some v ->
                (bq_feeAmount b, bq_feeType b) = byVisit v)).
Proof.
  cbv zeta. split.
  - intros page Hfresh Hp Hst Honly.
    unfold Billing.checkPharmacyQueue, pharmacyQueueDb.getAll.
    set (items := List.filter Billing.isPrepared (pharmacyQueue s)).
    set (sA := fold_left (Billing.admitPrepared env now) items s).
    destruct (sweep_item env now s p items s eq_refl eq_refl) as (id & Hb0); [| |exact Hnew|].
    { apply List.filter_In. split; [exact Hp|]. unfold Billing.isPrepared. now rewrite Hst. }
    { intros q Hq Hv. apply List.filter_In in Hq as [Hq Hqs].
      apply Honly; [exact Hq|now apply String.eqb_eq|exact Hv]. }
    fold sA in Hb0.
    destruct (Billing.admissionFee env now s p) as [f0 t0] eqn:Hfee.
    set (b0 := admittedItem id p (f0, t0) now) in *.
    destruct (sweep_frame env now items s) as [HaA _]. fold sA in HaA.
    destruct (sweep_idsFresh env now items s Hfresh) as [HndA _]. fold sA in HndA.
    rewrite (loadQueue_fst_NoDup env now sA page HndA).
    cbn [with_billingQueue billingQueue].
    set (g := fun b => if Billing.onSelectedDate env (Billing.selectedDate page) b
                       then resynced env now sA b else b).
    assert (Hres : resynced env now sA b0 = resynced env now s b0)
      by (now apply resynced_ext).
    assert (Hday : Billing.onSelectedDate env (Billing.selectedDate page) b0 = true
                   <-> toDateString env now = toDateString env (Billing.selectedDate page)).
    { unfold Billing.onSelectedDate. cbn [b0 admittedItem bq_createdAt]. apply Z.eqb_eq. }
    assert (Habsorbed : forall apt f,
               toDateString env now = toDateString env (Billing.selectedDate page) ->
               Billing.resolveFee env now s b0
               = Billing.mkCorrect f (JS.str_or (apt_feeType apt) t0)
                                   (JS.str_or (apt_feeStatus apt) "pending") ->
               g b0 = absorbed apt f b0).
    { intros apt f Hshown Hc. unfold g. rewrite (proj2 Hday Hshown), Hres.
      now apply resynced_absorbed. }
    assert (Hstored : (~ toDateString env now = toDateString env (Billing.selectedDate page)
                       \/ Billing.resolveFee env now s b0
                          = Billing.mkCorrect f0 t0 "pending") ->
                      g b0 = b0).
    { intros H. unfold g.
      destruct (Billing.onSelectedDate env (Billing.selectedDate page) b0) eqn:E;
        [|reflexivity].
      destruct H as [H|H]; [exfalso; apply H; now apply Hday|].
      rewrite Hres. now apply resynced_stored. }
    exists (g b0). split; [now apply in_map|].
    split.
    { unfold g. destruct (Billing.onSelectedDate _ _ b0); [|reflexivity].
      now rewrite (proj1 (resynced_keeps env now sA b0)). }
    split.
    { unfold g. destruct (Billing.onSelectedDate _ _ b0); [|reflexivity].
      now rewrite (proj2 (resynced_keeps env now sA b0)). }
    repeat apply conj.
    + intros apt f Hl Hf.
      rewrite (admissionFee_linked env now s p apt Hl), Hf in Hfee.
      cbn [default] in Hfee. injection Hfee as <- <-.
      assert (Hc : Billing.resolveFee env now s b0
                   = Billing.mkCorrect f
                       (JS.str_or (apt_feeType apt) (JS.str_or (apt_feeType apt) "Consultation"))
                       (JS.str_or (apt_feeStatus apt) "pending"))
        by (now apply (resolveFee_from_linked env now s b0 apt f)).
      assert (Hfin : g b0 = b0 \/ g b0 = absorbed apt f b0).
      { destruct (Z.eq_dec (toDateString env now)
                           (toDateString env (Billing.selectedDate page))) as [E|E].
        - right. now apply Habsorbed.
        - left. apply Hstored. now left. }
      destruct Hfin as [-> | ->]; [split; reflexivity|].
      destruct (absorbed_fields apt f b0) as (_ & H2 & H3 & _).
      split; [now apply H2|]. rewrite H3. cbn [b0 admittedItem bq_feeType snd].
      apply str_or_idem.
    + intros aid Hpres Hnl.
      assert (Hfee' : (f0, t0)
                      = (300%Q,
                         match linkedAppointment s (pq_appointmentId p) with
                         | Some apt => JS.str_or (apt_feeType apt) "Consultation"
                         | None => "Consultation"
                         end)).
      { rewrite <- Hfee.
        destruct (linkedAppointment s (pq_appointmentId p)) as [apt|] eqn:Hl.
        - rewrite (admissionFee_linked env now s p apt Hl), (Hnl apt Hl). reflexivity.
        - now apply (admissionFee_dead_link env now s p aid). }
      injection Hfee' as Hf0 Ht0.
      split.
      * intros Hcase.
        assert (Hfin : g b0 = b0).
        { apply Hstored. destruct Hcase as [H|H]; [now left|right].
          rewrite (resolveFee_stored env now s b0); [reflexivity|exact Hnl|exact H]. }
        rewrite Hfin. cbn [b0 admittedItem bq_feeAmount bq_feeType fst snd].
        split; assumption.
      * intros apt2 f2 Hshown Hfirst Hf2.
        assert (Hfin : g b0 = absorbed apt2 f2 b0).
        { apply Habsorbed; [exact Hshown|].
          now apply (resolveFee_from_today env now s b0 apt2 f2). }
        rewrite Hfin. destruct (absorbed_fields apt2 f2 b0) as (H1 & _ & H3 & _).
        split; [exact H1|]. rewrite H3. cbn [b0 admittedItem bq_feeType snd].
        now rewrite Ht0.
    + intros apt Hpres Hfirst.
      rewrite (admissionFee_today env now s p apt Hpres Hfirst) in Hfee.
      injection Hfee as <- <-.
      assert (Hnl : noLinkedFee s (bq_appointmentId b0)).
      { unfold noLinkedFee, linkedAppointment. cbn [b0 admittedItem bq_appointmentId].
        rewrite Hpres. discriminate. }
      destruct (apt_feeAmount apt) as [f|] eqn:Hf; cbn [default].
      * assert (Hc : Billing.resolveFee env now s b0
                     = Billing.mkCorrect f
                         (JS.str_or (apt_feeType apt)
                                    (JS.str_or (apt_feeType apt) "Consultation"))
                         (JS.str_or (apt_feeStatus apt) "pending"))
          by (now apply (resolveFee_from_today env now s b0 apt f)).
        assert (Hfin : g b0 = b0 \/ g b0 = absorbed apt f b0).
        { destruct (Z.eq_dec (toDateString env now)
                             (toDateString env (Billing.selectedDate page))) as [E|E].
          - right. now apply Habsorbed.
          - left. apply Hstored. now left. }
        destruct Hfin as [-> | ->];
          [cbn [b0 admittedItem bq_feeAmount bq_feeType fst snd default]; rewrite ?Hf;
           split; reflexivity|].
        destruct (absorbed_fields apt f b0) as (_ & H2 & H3 & _).
        split.
        -- apply H2. cbn [b0 admittedItem bq_feeAmount fst]. rewrite ?Hf. reflexivity.
        -- rewrite H3. cbn [b0 admittedItem bq_feeType snd]. apply str_or_idem.
      * assert (Hfin : g b0 = b0).
        { apply Hstored. right.
          rewrite (resolveFee_stored env now s b0); [|exact Hnl|].
          - cbn [b0 admittedItem bq_feeAmount bq_feeType bq_paymentStatus fst snd].
            rewrite ?Hf. reflexivity.
          - right. exists apt. split; assumption. }
        rewrite Hfin. cbn [b0 admittedItem bq_feeAmount bq_feeType fst snd].
        rewrite ?Hf. split; reflexivity.
    + intros v Hpres Hnone Hv.
      rewrite (admissionFee_visit env now s p v Hpres Hnone Hv) in Hfee.
      assert (Hnl : noLinkedFee s (bq_appointmentId b0)).
      { unfold noLinkedFee, linkedAppointment. cbn [b0 admittedItem bq_appointmentId].
        rewrite Hpres. discriminate. }
      assert (Hfin : g b0 = b0).
      { apply Hstored. right.
        rewrite (resolveFee_stored env now s b0); [reflexivity|exact Hnl|now left]. }
      rewrite Hfin. cbn [b0 admittedItem bq_feeAmount bq_feeType fst snd].
      now symmetry.
  - intros page id Hp.
    destruct (handleMarkPrepared_creates env now s page id p Hp Hnew)
      as (b & Hq & Hfee & Hnet & Hst & _ & Hv).
    exists b. split; [exact Hq|]. split; [exact Hv|]. split; [exact Hst|].
    split; [exact Hnet|]. split.
    + intros apt Hfirst.
      rewrite (find_firstOfPatient _ _ s _ apt (isRelevantAppointment_iff now) Hfirst)
        in Hfee.
      cbn [Pharmacy.inlineFee] in Hfee. now injection Hfee as -> ->.
    + intros v Hnone Hvisit.
      rewrite (find_noneOfPatient _ _ s _ (isRelevantAppointment_iff now) Hnone), Hvisit
        in Hfee.
      cbn [Pharmacy.inlineFee] in Hfee. rewrite Hfee.
      now destruct (dv_visitNumber v =? 1).
Qed.

Lemma tally_inj (j k : nat) : Example.tally j = Example.tally k -> j = k.
Proof.
  revert k. induction j as [|j IH]; intros [|k] H; try reflexivity; try discriminate.
  cbn in H. injection H as H. f_equal. now apply IH.
Qed.

Lemma example_idsFresh (s : Store) :
  billingQueue s = [] -> idsFresh Example.env s.
Proof.
  intros Hq. unfold idsFresh. rewrite Hq. split; [constructor|]. split.
  - intros k _ [].
  - intros j k _ _ H. cbn in H. injection H as H. now apply tally_inj.
Qed.

Lemma admission_fee_by_path_witness :
  exists b,
    In b (billingQueue
            (fst (Billing.checkPharmacyQueue Example.env Example.today
                    (Example.clinic "prepared" [], Example.billingPage))))
    /\ bq_visitId b = "v1" /\ bq_feeAmount b = 300%Q /\ bq_feeType b = "Consultation".
Proof.
  destruct (proj1 (admission_fee_by_path Example.env Example.today
                     (Example.clinic "prepared" []) (Example.q1 "prepared")
                     ltac:(simpl; tauto))
                  Example.billingPage
                  (example_idsFresh (Example.clinic "prepared" []) eq_refl)
                  ltac:(left; reflexivity) eq_refl
                  ltac:(intros q [<-|[]] _ _; reflexivity))
    as (b & Hin & Hv & _ & _ & Hlink & _).
  destruct (Hlink "a1" eq_refl) as [Hfee _].
  { intros apt H. vm_compute in H. injection H as <-. reflexivity. }
  destruct Hfee as [Hf Ht].
  { right. left. intros a [<-|[]] _ H. vm_compute in H. discriminate. }
  exists b. split; [exact Hin|]. split; [exact Hv|]. split; [exact Hf|exact Ht].
Defined.

(** C2 (as stated) fails on either path, each time where the other path
    does what the claim says. A first visit whose linked appointment carries
    no fee amount: the sweep stores (300, "Consultation"), Ready stores, and
    the claim gives, (500, "New Patient"). The same with a linked appointment
    of yesterday at 700: Ready stores (500, "New Patient"), the sweep stores,
    and the claim gives, (700, "Special"). And with a booked appointment of
    today at 250 beside the linked one without a fee amount: the sweep stores
    250 while the page shows today and 300 while it shows yesterday. *)
Lemma fee_priority_counterexample :
  let stored (s : Store) := map (fun b => (bq_feeAmount b, bq_feeType b)) (billingQueue s) in
  let sweep (s : Store) (selected : Z) :=
    stored (fst (Billing.checkPharmacyQueue Example.env Example.today
                   (s, Billing.initialPage selected))) in
  let ready (s : Store) :=
    stored (fst (Pharmacy.handleMarkPrepared Example.env Example.today
                   (s, Pharmacy.initialPage) "q1")) in
  let claimed (s : Store) :=
    spec_resolveFee Example.env Example.today s (Some "a1") "p1"
                    (dv_visitNumber Example.v1) in
  (sweep (Example.clinic "prepared" []) Example.today = [(300%Q, "Consultation")]
   /\ ready (Example.clinic "preparing" []) = [(500%Q, "New Patient")]
   /\ claimed (Example.clinic "prepared" []) = (500%Q, "New Patient"))
  /\ (sweep (Example.clinic_fee "prepared" []) Example.today = [(700%Q, "Special")]
      /\ ready (Example.clinic_fee "preparing" []) = [(500%Q, "New Patient")]
      /\ claimed (Example.clinic_fee "prepared" []) = (700%Q, "Special"))
  /\ (sweep Example.clinic_review Example.today = [(250%Q, "Review")]
      /\ sweep Example.clinic_review Example.yesterday = [(300%Q, "Consultation")]
      /\ claimed Example.clinic_review = (250%Q, "Review")).
Proof. vm_compute. repeat split; reflexivity. Qed.
